(** * Early-warning risk engine: a shallow embedding of [src/api/risk_engine.py]

    The engine works on Python [int]s and [float]s.  Integers are modelled
    by [Z]; floats by Rocq's primitive binary64 numbers, so every literal,
    comparison and arithmetic operation below is the IEEE 754 one that the
    Python interpreter performs. *)

From stdpp Require Import gmap strings pretty.
From Stdlib Require Import ZArith QArith Qpower Lia Lqa Bool List Floats.

Import ListNotations.
Open Scope string_scope.
Open Scope list_scope.
Open Scope Z_scope.

(** A decimal literal such as [0.7] denotes, here as in Python, the binary64
    number nearest to it. *)
Set Warnings "-inexact-float".

(** ** Python values, exceptions and results *)

(** The numbers stored in the feature dictionary: a Python [int] or a
    Python [float]. *)
Inductive pyval :=
| PyInt (n : Z)
| PyFloat (x : float).

(** The built-in exceptions the engine's operations can raise. *)
Inductive exn :=
| ZeroDivisionError
| OverflowError
| ValueError
| IndexError.

Inductive pyresult (A : Type) :=
| Return (a : A)
| Raise (e : exn).
Arguments Return {A} a.
Arguments Raise {A} e.

Definition pybind {A B} (r : pyresult A) (k : A -> pyresult B) : pyresult B :=
  match r with
  | Return a => k a
  | Raise e => Raise e
  end.

Declare Scope py_scope.
Delimit Scope py_scope with py.
Notation "'let*' x ':=' c 'in' k" := (pybind c (fun x => k))
  (at level 10, x name, c at level 100, k at level 200) : py_scope.
Open Scope py_scope.

(** ** Float comparisons as Python writes them *)

Module Py.

(** [a > b], [a < b], [a <= b] on floats; every comparison with a NaN is
    [False]. *)
Definition gt (a b : float) : bool := PrimFloat.ltb b a.
Definition lt (a b : float) : bool := PrimFloat.ltb a b.
Definition le (a b : float) : bool := PrimFloat.leb a b.
Definition ge (a b : float) : bool := PrimFloat.leb b a.

End Py.

(** ** [models.py] *)

Inductive RiskLevel := LOW | MEDIUM | HIGH | CRITICAL.

Definition RiskLevel_value (l : RiskLevel) : string :=
  match l with
  | LOW => "LOW"
  | MEDIUM => "MEDIUM"
  | HIGH => "HIGH"
  | CRITICAL => "CRITICAL"
  end.

Record UserBehaviorSummary := {
  total_bets : Z;
  avg_bet_amount : float;
  total_deposits : Z;
  avg_deposit : float;
  loss_rate : float;
  median_loss_gap_minutes : float;
  late_night_percentage : float;
  session_variance : float;
  total_loss_amount : float;
  betting_days : Z
}.

Record InterventionStrategy := {
  pattern : string;
  urgency : string;
  description : string;
  actions : list string
}.

(** ** [RiskEngine.get_intervention_strategy] *)

Definition IMMEDIATE_CRISIS : InterventionStrategy := {|
  pattern := "IMMEDIATE_CRISIS";
  urgency := "URGENT";
  description := "Both short and long-term risk indicators show immediate danger";
  actions := ["Immediate deposit limit"; "Mandatory cooling period";
              "Direct phone contact"; "Emergency resources"]
|}.

Definition SLOW_BURN : InterventionStrategy := {|
  pattern := "SLOW_BURN";
  urgency := "PREVENTIVE";
  description := "Current behavior seems controlled but shows escalation trajectory";
  actions := ["Educational emails"; "Voluntary limit suggestions";
              "Progress tracking tools"; "Scheduled check-ins"]
|}.

Definition MODERATE_RISK : InterventionStrategy := {|
  pattern := "MODERATE_RISK";
  urgency := "MONITOR";
  description := "Showing concerning patterns that need monitoring";
  actions := ["In-app warnings"; "Session reminders"; "Self-assessment tools"]
|}.

Definition CONTROLLED : InterventionStrategy := {|
  pattern := "CONTROLLED";
  urgency := "STANDARD";
  description := "Gambling behavior appears well-controlled";
  actions := ["Continue monitoring"; "Positive reinforcement"]
|}.

Definition get_intervention_strategy (risk_7day risk_30day : float)
  : InterventionStrategy :=
  if Py.gt risk_7day 0.7 && Py.gt risk_30day 0.7 then IMMEDIATE_CRISIS
  else if Py.lt risk_7day 0.4 && Py.gt risk_30day 0.6 then SLOW_BURN
  else if (Py.le 0.4 risk_7day && Py.le risk_7day 0.7)
          || (Py.le 0.4 risk_30day && Py.le risk_30day 0.7) then MODERATE_RISK
  else CONTROLLED.


(** ** Python arithmetic used by the engine *)

(** [a / b] on two [int]s: the correctly rounded quotient as a float.
    Python raises [ZeroDivisionError] for a zero divisor and [OverflowError]
    ("integer division result too large for a float") when the rounded
    quotient leaves the binary64 range. *)
Definition int_truediv (a b : Z) : pyresult float :=
  if b =? 0 then Raise ZeroDivisionError
  else if a =? 0 then Return (if b <? 0 then (-0)%float else 0%float)
  else
    let s := xorb (a <? 0) (b <? 0) in
    let '(q, e, l) := SFdiv_core_binary prec emax (Z.abs a) 0 (Z.abs b) 0 in
    match binary_round_aux prec emax s q e l with
    | S754_infinity _ => Raise OverflowError
    | r => Return (SF2Prim r)
    end.

(** [x / y] on two floats (an [int] operand is first converted): IEEE
    division, except that a zero divisor raises. *)
Definition float_truediv (x y : float) : pyresult float :=
  if PrimFloat.eqb y 0 then Raise ZeroDivisionError
  else Return (x / y)%float.

(** A dict display [{k1: v1, ...}]: entries are stored left to right. *)
Definition dict_display (kvs : list (string * pyval)) : gmap string pyval :=
  fold_left (fun m kv => <[kv.1 := kv.2]> m) kvs ∅.

(** [d.get(k, default)] *)
Definition dict_get (d : gmap string pyval) (k : string) (dflt : pyval) : pyval :=
  match d !! k with
  | Some v => v
  | None => dflt
  end.

(** An insertion-ordered [dict] built by item assignment [d[k] = v]: an
    existing key keeps its position and takes the new value, a new key goes
    to the end. *)
Fixpoint dict_setitem {V} (d : list (string * V)) (k : string) (v : V)
  : list (string * V) :=
  match d with
  | [] => [(k, v)]
  | (k', v') :: rest =>
      if String.eqb k' k then (k', v) :: rest
      else (k', v') :: dict_setitem rest k v
  end.

Definition dict_values {V} (d : list (string * V)) : list V := map snd d.
Definition dict_keys {V} (d : list (string * V)) : list string := map fst d.

(** [max(iterable)]: [ValueError] on an empty iterable, otherwise the first
    item that no later item exceeds (an item replaces the running maximum
    only when it compares [>] to it). *)
Fixpoint max_loop (maxitem : float) (items : list float) : float :=
  match items with
  | [] => maxitem
  | item :: rest => max_loop (if Py.gt item maxitem then item else maxitem) rest
  end.

Definition py_max (items : list float) : pyresult float :=
  match items with
  | [] => Raise ValueError
  | item :: rest => Return (max_loop item rest)
  end.

(** ** [RiskEngine.get_risk_level] *)

Definition get_risk_level (risk_scores : list (string * float)) : pyresult string :=
  let* max_score := py_max (dict_values risk_scores) in
  if Py.gt max_score 0.7 then Return "HIGH"
  else if Py.gt max_score 0.4 then Return "MEDIUM"
  else Return "LOW".

(** ** [np.array] on nested lists of Python numbers

    NumPy finds the element type of an array from the values it is given.
    A [float] is a float64.  An [int] is a signed 64-bit integer when it
    fits, else an unsigned 64-bit integer when it fits, else a Python
    object.  The array takes the least type that holds all its values:
    64-bit integers of one signedness stay integers, a float or a mix of
    signed and unsigned integers makes the array float64, one object makes
    it an array of objects, and an array without values is float64. *)
Inductive dtype := int64 | uint64 | float64 | object.

Definition discover_dtype (v : pyval) : dtype :=
  match v with
  | PyFloat _ => float64
  | PyInt n =>
      if (- 2 ^ 63 <=? n) && (n <? 2 ^ 63) then int64
      else if (0 <=? n) && (n <? 2 ^ 64) then uint64
      else object
  end.

Definition promote_types (a b : dtype) : dtype :=
  match a, b with
  | object, _ | _, object => object
  | int64, int64 => int64
  | uint64, uint64 => uint64
  | _, _ => float64
  end.

Definition result_type (values : list pyval) : dtype :=
  match values with
  | [] => float64
  | v :: rest =>
      fold_left (fun d x => promote_types d (discover_dtype x)) rest
                (discover_dtype v)
  end.

(** [float(n)] for an [int] of the 64-bit range: the float nearest to [n],
    ties to even. *)
Definition float_of_int (n : Z) : float :=
  SF2Prim (binary_normalize prec emax n 0 false).

(** A value as an array of the given type stores it: a float64 array
    converts its integers, the other arrays keep the number as it is. *)
Definition astype (d : dtype) (v : pyval) : pyval :=
  match d, v with
  | float64, PyInt n => PyFloat (float_of_int n)
  | _, _ => v
  end.

Definition np_array (rows : list (list pyval)) : list (list pyval) :=
  let d := result_type (concat rows) in
  map (map (astype d)) rows.

(** ** The NumPy and interpreter services the fallback model calls

    [np.random.seed], [np.random.beta] and [hash(str(...))] are library code.
    They are taken as an interface: the process-wide generator has a state,
    seeding installs a state that depends on the seed alone, and drawing a
    variate returns it together with the advanced state. *)
Class NumPy := {
  RandomState : Type;
  np_random_seed : Z -> RandomState;
  np_random_beta : float -> float -> RandomState -> float * RandomState;
  hash_str : list pyval -> Z
}.

Section Engine.

Context {numpy : NumPy}.

(** Computations that may raise and that read and write the process-wide
    generator. *)
Definition NP (A : Type) : Type := RandomState -> pyresult A * RandomState.

Definition np_ret {A} (a : A) : NP A := fun g => (Return a, g).

Definition np_bind {A B} (c : NP A) (k : A -> NP B) : NP B :=
  fun g =>
    match c g with
    | (Return a, g') => k a g'
    | (Raise e, g') => (Raise e, g')
    end.

Definition np_lift {A} (r : pyresult A) : NP A := fun g => (r, g).

(** A probability model: anything with a [predict_proba] method. *)
Record ProbabilityModel := {
  predict_proba : list (list pyval) -> NP (list (list float))
}.

Record model_info := {
  model : ProbabilityModel;
  threshold : float
}.

Record RiskEngine := {
  models : list (string * model_info);
  feature_names : list string
}.

(** [a[i]] and [a[i, j]] *)
Definition getitem {A} (a : list A) (i : nat) : pyresult A :=
  match nth_error a i with
  | Some x => Return x
  | None => Raise IndexError
  end.

Definition getitem2 {A} (a : list (list A)) (i j : nat) : pyresult A :=
  let* row := getitem a i in getitem row j.

(** *** [RiskEngine._create_mock_models] *)

Definition MockModel_predict_proba (X : list (list pyval))
  : NP (list (list float)) :=
  np_bind (np_lift (getitem X 0)) (fun row =>
  fun _ =>
    let g := np_random_seed (hash_str row mod 100) in
    let '(prob, g') := np_random_beta 2 2 g in
    (Return [[(1 - prob)%float; prob]], g')).

Definition MockModel : ProbabilityModel :=
  {| predict_proba := MockModel_predict_proba |}.

Definition _create_mock_models : list (string * model_info) :=
  [ ("7_day", {| model := MockModel; threshold := 0.6 |});
    ("30_day", {| model := MockModel; threshold := 0.5 |}) ].

(** *** [RiskEngine.__init__] and [_load_models]

    [loaded] is the unpickled content of the model file when the file
    exists. *)
Definition _load_models (loaded : option (list (string * model_info)))
  : list (string * model_info) :=
  match loaded with
  | Some ms => ms
  | None => _create_mock_models
  end.

Definition RiskEngine_init (loaded : option (list (string * model_info)))
  : RiskEngine := {|
  models := _load_models loaded;
  feature_names :=
    [ "early_bet_count"; "early_avg_bet"; "early_std_bet";
      "early_loss_rate"; "early_total_loss"; "early_unique_days";
      "early_bets_per_day"; "early_loss_gaps"; "early_immediate_rebet_pct";
      "early_sessions_session_count"; "early_sessions_avg_duration";
      "early_sessions_duration_cv"; "early_deposits_deposit_count";
      "early_deposits_avg_deposit" ]
|}.

(** *** [RiskEngine.prepare_features] *)

(** The value of the key ['early_immediate_rebet_pct']:
    [1 / (1 + median_loss_gap_minutes/5)]. *)
Definition immediate_rebet_pct (gap : float) : pyresult float :=
  let* q := float_truediv gap 5 in
  float_truediv 1 (1 + q)%float.

(** The dict display [features = {...}]; its values are evaluated top to
    bottom, so the first division that raises decides the exception. *)
Definition features_dict (behavior_data : UserBehaviorSummary)
  : pyresult (gmap string pyval) :=
  let* bets_per_day :=
    int_truediv (total_bets behavior_data)
                (Z.max (betting_days behavior_data) 1) in
  let* rebet := immediate_rebet_pct (median_loss_gap_minutes behavior_data) in
  Return (dict_display
    [ ("early_bet_count", PyInt (total_bets behavior_data));
      ("early_avg_bet", PyFloat (avg_bet_amount behavior_data));
      ("early_std_bet", PyFloat (avg_bet_amount behavior_data * 0.5)%float);
      ("early_loss_rate", PyFloat (loss_rate behavior_data));
      ("early_total_loss", PyFloat (total_loss_amount behavior_data));
      ("early_unique_days", PyInt (betting_days behavior_data));
      ("early_bets_per_day", PyFloat bets_per_day);
      ("early_loss_gaps", PyFloat (median_loss_gap_minutes behavior_data));
      ("early_immediate_rebet_pct", PyFloat rebet);
      ("early_sessions_session_count", PyInt (betting_days behavior_data * 2));
      ("early_sessions_avg_duration", PyInt 45);
      ("early_sessions_duration_cv", PyFloat (session_variance behavior_data));
      ("early_deposits_deposit_count", PyInt (total_deposits behavior_data));
      ("early_deposits_avg_deposit", PyFloat (avg_deposit behavior_data)) ]).

(** The result is the 1-row matrix [np.array([[...]])] of the values
    [features.get(f, 0)], stored with the type NumPy finds for them. *)
Definition prepare_features (self : RiskEngine)
           (behavior_data : UserBehaviorSummary)
  : pyresult (list (list pyval)) :=
  let* features := features_dict behavior_data in
  Return (np_array
            [ map (fun f => dict_get features f (PyInt 0))
                  (feature_names self) ]).

(** *** [RiskEngine.predict_risk] *)

(** The loop [for window, model_info in self.models.items()]. *)
Fixpoint score_windows (items : list (string * model_info))
         (features : list (list pyval)) (risk_scores : list (string * float))
  : NP (list (string * float)) :=
  match items with
  | [] => np_ret risk_scores
  | (window, info) :: rest =>
      np_bind (predict_proba (model info) features) (fun proba =>
      np_bind (np_lift (getitem2 proba 0 1)) (fun prob =>
      score_windows rest features (dict_setitem risk_scores window prob)))
  end.

(** The block under [# Identify risk factors]. *)
Definition identify_risk_factors (behavior_data : UserBehaviorSummary)
  : list string :=
  let risk_factors := [] in
  let risk_factors :=
    if Py.lt (median_loss_gap_minutes behavior_data) 5
    then risk_factors ++ ["Immediate loss chasing behavior"] else risk_factors in
  let risk_factors :=
    if total_deposits behavior_data >? 20
    then risk_factors ++ ["High deposit frequency"] else risk_factors in
  let risk_factors :=
    if Py.gt (late_night_percentage behavior_data) 0.4
    then risk_factors ++ ["Excessive late-night gambling"] else risk_factors in
  let risk_factors :=
    if Py.gt (session_variance behavior_data) 2
    then risk_factors ++ ["Erratic session patterns"] else risk_factors in
  let risk_factors :=
    if Py.gt (loss_rate behavior_data) 0.8
    then risk_factors ++ ["Very high loss rate"] else risk_factors in
  risk_factors.

Definition predict_risk (self : RiskEngine)
           (behavior_data : UserBehaviorSummary)
  : NP (list (string * float) * list string) :=
  np_bind (np_lift (prepare_features self behavior_data)) (fun features =>
  np_bind (score_windows (models self) features []) (fun risk_scores =>
  np_ret (risk_scores, identify_risk_factors behavior_data))).

End Engine.

(** ** The demo users of [demo_data.py] *)

Definition demo_12345 : UserBehaviorSummary := {|
  total_bets := 287; avg_bet_amount := 1543.25; total_deposits := 23;
  avg_deposit := 2500.00; loss_rate := 0.82; median_loss_gap_minutes := 2.3;
  late_night_percentage := 0.45; session_variance := 3.2;
  total_loss_amount := 45230.50; betting_days := 14 |}.

(** ** [round(x, ndigits)] on a float *)

(** The integer nearest to [num / den], ties to the even one
    ([den] positive). *)
Definition round_half_even (num den : Z) : Z :=
  let q := num / den in
  match (2 * (num mod den) ?= den) with
  | Lt => q
  | Gt => q + 1
  | Eq => if Z.even q then q else q + 1
  end.

(** [round(x, ndigits)] with [ndigits >= 0].  The interpreter rounds the
    exact value of [x] to [ndigits] decimal places, ties to even, and returns
    the float nearest to that decimal, which is the correctly rounded
    quotient of the scaled integer by [10 ** ndigits]; the sign is kept on a
    zero result, and infinities and NaN round to themselves. *)
Definition float_round (x : float) (ndigits : nat) : pyresult float :=
  match Prim2SF x with
  | S754_finite s m e =>
      let scale := 10 ^ Z.of_nat ndigits in
      let n :=
        if 0 <=? e then Z.pos m * 2 ^ e * scale
        else round_half_even (Z.pos m * scale) (2 ^ (- e)) in
      if n =? 0 then Return (if s then (-0)%float else 0%float)
      else int_truediv (if s then - n else n) scale
  | _ => Return x
  end.

(** ** [demo_data.py] *)

Record demo_user := {
  behavior : UserBehaviorSummary;
  risk_7day : float;
  risk_30day : float
}.

Definition demo_67890 : UserBehaviorSummary := {|
  total_bets := 45; avg_bet_amount := 250.00; total_deposits := 3;
  avg_deposit := 500.00; loss_rate := 0.55; median_loss_gap_minutes := 180.0;
  late_night_percentage := 0.10; session_variance := 0.8;
  total_loss_amount := 2500.00; betting_days := 8 |}.

Definition demo_23456 : UserBehaviorSummary := {|
  total_bets := 95; avg_bet_amount := 450.00; total_deposits := 8;
  avg_deposit := 1000.00; loss_rate := 0.65; median_loss_gap_minutes := 45.5;
  late_night_percentage := 0.25; session_variance := 1.8;
  total_loss_amount := 8500.00; betting_days := 10 |}.

Definition demo_34567 : UserBehaviorSummary := {|
  total_bets := 28; avg_bet_amount := 100.00; total_deposits := 2;
  avg_deposit := 500.00; loss_rate := 0.54; median_loss_gap_minutes := 480.0;
  late_night_percentage := 0.10; session_variance := 0.5;
  total_loss_amount := 1200.00; betting_days := 7 |}.

(** The table [DEMO_USERS] as the module defines it. *)
Definition DEMO_USERS : gmap Z demo_user :=
  <[34567 := {| behavior := demo_34567;
                risk_7day := 0.125; risk_30day := 0.098 |}]>
  (<[23456 := {| behavior := demo_23456;
                 risk_7day := 0.432; risk_30day := 0.389 |}]>
  (<[67890 := {| behavior := demo_67890;
                 risk_7day := 0.235; risk_30day := 0.712 |}]>
  (<[12345 := {| behavior := demo_12345;
                 risk_7day := 0.847; risk_30day := 0.721 |}]> ∅))).

(** [get_demo_user] reads the module-level table when it is called; the
    table is an argument here, and [DEMO_USERS] is the value the module
    gives it. *)
Definition get_demo_user (users : gmap Z demo_user) (user_id : Z)
  : option demo_user :=
  users !! user_id.

(** ** The services of the web layer *)

(** The exceptions that leave a request handler: FastAPI's [HTTPException],
    pydantic's [ValidationError] (the model and the fields it rejects), and
    the built-in exceptions of the engine. *)
Inductive api_exn :=
| HTTPException (status_code : Z) (detail : string)
| ValidationError (title : string) (fields : list string)
| Builtin (e : exn).

Inductive api_result (A : Type) :=
| Ok (a : A)
| Err (e : api_exn).
Arguments Ok {A} a.
Arguments Err {A} e.

(** The system clock and [str.upper] are interpreter services: reading the
    clock returns the time and leaves a later clock. *)
Class Python := {
  datetime : Type;
  ClockState : Type;
  datetime_now : ClockState -> datetime * ClockState;
  str_upper : string -> string
}.

(** pydantic's check of a float field declared [Field(..., ge=lo, le=hi)].
    On a number it is [lo <= v <= hi]; what it answers on a NaN depends on
    the pydantic release, and is left open. *)
Class Pydantic := {
  field_ge_le : float -> float -> float -> bool;
  field_ge_le_number :
    forall lo hi v,
      PrimFloat.eqb lo lo = true -> PrimFloat.eqb hi hi = true ->
      PrimFloat.eqb v v = true ->
      field_ge_le lo hi v = Py.ge v lo && Py.le v hi
}.

(** ** [models.py], continued *)

(** [RiskLevel(value)]: the member with that value, or [ValueError]. *)
Definition RiskLevel_of_value (value : string) : pyresult RiskLevel :=
  if String.eqb value "LOW" then Return LOW
  else if String.eqb value "MEDIUM" then Return MEDIUM
  else if String.eqb value "HIGH" then Return HIGH
  else if String.eqb value "CRITICAL" then Return CRITICAL
  else Raise ValueError.

Record RiskPrediction := {
  window_days : Z;
  risk_score : float;
  confidence : float;
  predicted_behaviors : list string
}.

(** Requests and responses share field names; each record lives in a module
    of its class's name. *)
Module RiskAssessmentRequest.
Record t {python : Python} := {
  user_id : Z;
  assessment_date : option datetime
}.
End RiskAssessmentRequest.

Module RiskAssessmentResponse.
Record t {python : Python} := {
  user_id : Z;
  account_age_days : Z;
  assessment_date : datetime;
  behavior_summary : UserBehaviorSummary;
  risk_predictions : list (string * RiskPrediction);
  overall_risk_level : RiskLevel;
  risk_factors : list string;
  intervention_strategy : InterventionStrategy;
  metadata : list (string * string)
}.
End RiskAssessmentResponse.

Section Web.

Context {numpy : NumPy} {python : Python} {pydantic : Pydantic}.

(** *** Model constructors

    A constructor validates the declared bounds and reports every field
    that fails. *)
Definition validate (title : string) (checks : list (string * bool))
  : option api_exn :=
  match map fst (List.filter (fun c => negb (snd c)) checks) with
  | [] => None
  | fields => Some (ValidationError title fields)
  end.

Definition UserBehaviorSummary_init (data : UserBehaviorSummary)
  : api_result UserBehaviorSummary :=
  match validate "UserBehaviorSummary"
          [ ("loss_rate", field_ge_le 0 1 (loss_rate data));
            ("late_night_percentage",
             field_ge_le 0 1 (late_night_percentage data)) ] with
  | None => Ok data
  | Some e => Err e
  end.

Definition RiskPrediction_init (window_days : Z) (risk_score confidence : float)
           (predicted_behaviors : list string) : api_result RiskPrediction :=
  match validate "RiskPrediction"
          [ ("risk_score", field_ge_le 0 1 risk_score);
            ("confidence", field_ge_le 0 1 confidence) ] with
  | None => Ok {| window_days := window_days; risk_score := risk_score;
                  confidence := confidence;
                  predicted_behaviors := predicted_behaviors |}
  | Some e => Err e
  end.

(** *** Request handlers

    A handler reads and writes the process-wide generator and the clock,
    and returns or raises. *)
Record World := {
  generator : RandomState;
  clock : ClockState
}.

Definition API (A : Type) : Type := World -> api_result A * World.

Definition api_ret {A} (a : A) : API A := fun w => (Ok a, w).

Definition api_raise {A} (e : api_exn) : API A := fun w => (Err e, w).

Definition api_bind {A B} (c : API A) (k : A -> API B) : API B :=
  fun w =>
    match c w with
    | (Ok a, w') => k a w'
    | (Err e, w') => (Err e, w')
    end.

Definition api_lift {A} (r : api_result A) : API A := fun w => (r, w).

(** A built-in exception of the engine leaves the handler as it is. *)
Definition api_py {A} (r : pyresult A) : API A :=
  fun w =>
    match r with
    | Return a => (Ok a, w)
    | Raise e => (Err (Builtin e), w)
    end.

(** A call of the engine runs on the generator of the world. *)
Definition api_np {A} (c : NP A) : API A :=
  fun w =>
    match c (generator w) with
    | (Return a, g) => (Ok a, {| generator := g; clock := clock w |})
    | (Raise e, g) => (Err (Builtin e), {| generator := g; clock := clock w |})
    end.

(** [datetime.now()] *)
Definition now : API datetime :=
  fun w =>
    let '(t, c) := datetime_now (clock w) in
    (Ok t, {| generator := generator w; clock := c |}).

(** The module-level table of [demo_data.py] and the engine [risk_engine]
    that [main.py] builds when it is loaded. *)
Variable users : gmap Z demo_user.
Variable risk_engine : RiskEngine.

Definition get_risk_engine : RiskEngine := risk_engine.

Definition not_found_detail (user_id : Z) : string :=
  "User " +:+ pretty user_id
  +:+ " not found. Try demo users: 12345 (high risk), 23456 (medium risk), 34567 (low risk)".

(** [assess_user_risk]: the POST handler of [/api/v1/risk/assess]. *)
Definition assess_user_risk (request : RiskAssessmentRequest.t)
           (engine : RiskEngine) : API RiskAssessmentResponse.t :=
  let demo_data := get_demo_user users (RiskAssessmentRequest.user_id request) in
  match demo_data with
  | Some demo_data =>
      let behavior_data := behavior demo_data in
      let risk_scores :=
        [("7_day", risk_7day demo_data); ("30_day", risk_30day demo_data)] in
      let score_7_day := risk_7day demo_data in     (* risk_scores["7_day"] *)
      let score_30_day := risk_30day demo_data in   (* risk_scores["30_day"] *)
      (* Still calculate risk factors from behavior *)
      api_bind (api_np (predict_risk engine behavior_data)) (fun scores_factors =>
      let risk_factors := snd scores_factors in
      (* Create behavior summary *)
      api_bind (api_lift (UserBehaviorSummary_init behavior_data))
               (fun behavior_summary =>
      (* Determine risk level *)
      api_bind (api_py (get_risk_level risk_scores)) (fun risk_level =>
      (* Get intervention strategy based on dual risk scores *)
      let intervention_strategy :=
        get_intervention_strategy score_7_day score_30_day in
      (* Create risk predictions *)
      api_bind (api_py (float_round score_7_day 3)) (fun rounded_7_day =>
      api_bind (api_lift (RiskPrediction_init 7 rounded_7_day 0.85
                  (if Py.gt score_7_day 0.5
                   then ["Frequency increase likely"] else [])))
               (fun prediction_7_day =>
      api_bind (api_py (float_round score_30_day 3)) (fun rounded_30_day =>
      api_bind (api_lift (RiskPrediction_init 30 rounded_30_day 0.75
                  (if Py.gt score_30_day 0.6
                   then ["Potential loss spiral"] else [])))
               (fun prediction_30_day =>
      let risk_predictions :=
        [("7_day", prediction_7_day); ("30_day", prediction_30_day)] in
      api_bind (match RiskAssessmentRequest.assessment_date request with
                | Some date => api_ret date
                | None => now
                end) (fun date =>
      api_bind (api_py (RiskLevel_of_value risk_level)) (fun level =>
      api_ret {|
        RiskAssessmentResponse.user_id := RiskAssessmentRequest.user_id request;
        RiskAssessmentResponse.account_age_days := 14;
        RiskAssessmentResponse.assessment_date := date;
        RiskAssessmentResponse.behavior_summary := behavior_summary;
        RiskAssessmentResponse.risk_predictions := risk_predictions;
        RiskAssessmentResponse.overall_risk_level := level;
        RiskAssessmentResponse.risk_factors := risk_factors;
        RiskAssessmentResponse.intervention_strategy := intervention_strategy;
        RiskAssessmentResponse.metadata :=
          [("model_version", "1.0.0");
           ("assessment_type", "new_user_14_day")]
      |})))))))))
  | None =>
      (* In production, this would fetch from database *)
      api_raise (HTTPException 404
                   (not_found_detail (RiskAssessmentRequest.user_id request)))
  end.

(** [get_demo_overview]: the four demo patterns, assessed in turn. *)
Record demo_overview := {
  generated_at : datetime;
  patterns : list (string * RiskAssessmentResponse.t)
}.

Definition demo_request (user_id : Z) : RiskAssessmentRequest.t :=
  {| RiskAssessmentRequest.user_id := user_id;
     RiskAssessmentRequest.assessment_date := None |}.

Definition get_demo_overview : API demo_overview :=
  let engine := get_risk_engine in
  api_bind (assess_user_risk (demo_request 12345) engine) (fun immediate_crisis =>
  api_bind (assess_user_risk (demo_request 67890) engine) (fun slow_burn =>
  api_bind (assess_user_risk (demo_request 23456) engine) (fun moderate_risk =>
  api_bind (assess_user_risk (demo_request 34567) engine) (fun controlled =>
  let demo_patterns :=
    [ ("immediate_crisis", immediate_crisis); ("slow_burn", slow_burn);
      ("moderate_risk", moderate_risk); ("controlled", controlled) ] in
  api_bind now (fun generated =>
  api_ret {| generated_at := generated; patterns := demo_patterns |}))))).

(** [get_demo_example]: one demo pattern by name. *)
Definition demo_mapping : list (string * Z) :=
  [ ("HIGH", 12345); ("MEDIUM", 23456); ("LOW", 34567); ("SLOWBURN", 67890) ].

Fixpoint mapping_get (d : list (string * Z)) (k : string) : option Z :=
  match d with
  | [] => None
  | (k', v) :: rest => if String.eqb k' k then Some v else mapping_get rest k
  end.

Definition get_demo_example (risk_level : string)
  : API RiskAssessmentResponse.t :=
  let risk_level := str_upper risk_level in
  match mapping_get demo_mapping risk_level with
  | None =>
      api_raise (HTTPException 400
                   "Risk level must be one of: high, medium, low, slowburn")
  | Some user_id =>
      let request := demo_request user_id in
      let engine := get_risk_engine in
      assess_user_risk request engine
  end.

End Web.

(** * Properties *)

(** ** The order on binary64 numbers

    The primitive comparisons are specified by [SFcompare] on the decoded
    numbers.  [SFcompare] is a total preorder on everything but NaN, which
    is what the threshold rules of the engine rely on. *)

Module FloatOrder.

Definition cmp_join (c1 c2 : comparison) : comparison :=
  match c1, c2 with
  | Eq, c | c, Eq => c
  | Lt, Lt => Lt
  | Gt, Gt => Gt
  | _, _ => Eq
  end.

Ltac cmp_cases :=
  repeat match goal with
  | H : context [Z.compare ?a ?b] |- _ => destruct (Z.compare_spec a b)
  | |- context [Z.compare ?a ?b] => destruct (Z.compare_spec a b)
  | H : context [Pos.compare_cont Eq ?a ?b] |- _ =>
      change (Pos.compare_cont Eq a b) with (Pos.compare a b) in H
  | |- context [Pos.compare_cont Eq ?a ?b] =>
      change (Pos.compare_cont Eq a b) with (Pos.compare a b)
  | H : context [Pos.compare ?a ?b] |- _ => destruct (Pos.compare_spec a b)
  | |- context [Pos.compare ?a ?b] => destruct (Pos.compare_spec a b)
  end.

Lemma SFcompare_antisym x y :
  SFcompare y x = option_map CompOpp (SFcompare x y).
Proof.
  destruct x as [[]|[]| |[] mx ex], y as [[]|[]| |[] my ey];
    simpl; try reflexivity.
  all: rewrite (Z.compare_antisym ex ey); destruct (ex ?= ey); simpl;
    try reflexivity.
  all: change (Pos.compare_cont Eq my mx) with (Pos.compare my mx);
    change (Pos.compare_cont Eq mx my) with (Pos.compare mx my);
    rewrite (Pos.compare_antisym mx my); reflexivity.
Qed.

Lemma SFcompare_trans x y z c1 c2 :
  c1 <> Gt -> c2 <> Gt ->
  SFcompare x y = Some c1 -> SFcompare y z = Some c2 ->
  SFcompare x z = Some (cmp_join c1 c2).
Proof.
  intros N1 N2.
  destruct x as [[]|[]| |[] mx ex], y as [[]|[]| |[] my ey],
           z as [[]|[]| |[] mz ez];
    simpl; intros H1 H2; try discriminate;
    try (injection H1 as <-; injection H2 as <-;
         try reflexivity; try congruence; fail).
  all: injection H1 as <-; injection H2 as <-.
  all: cmp_cases; simpl in *; subst; try reflexivity; try congruence; try lia.
Qed.

(** The comparison of two floats, decoded. *)
Definition cmp (x y : float) : option comparison :=
  SFcompare (Prim2SF x) (Prim2SF y).

Lemma ltb_cmp x y : PrimFloat.ltb x y = true <-> cmp x y = Some Lt.
Proof.
  rewrite FloatAxioms.ltb_spec. unfold SFltb, cmp.
  destruct (SFcompare _ _) as [[]|]; split; congruence.
Qed.

Lemma leb_cmp x y :
  PrimFloat.leb x y = true <-> cmp x y = Some Lt \/ cmp x y = Some Eq.
Proof.
  rewrite FloatAxioms.leb_spec. unfold SFleb, cmp.
  destruct (SFcompare _ _) as [[]|]; split; intuition congruence.
Qed.

Lemma cmp_antisym x y : cmp y x = option_map CompOpp (cmp x y).
Proof. apply SFcompare_antisym. Qed.

Lemma cmp_trans x y z c1 c2 :
  c1 <> Gt -> c2 <> Gt ->
  cmp x y = Some c1 -> cmp y z = Some c2 ->
  cmp x z = Some (cmp_join c1 c2).
Proof. apply SFcompare_trans. Qed.

Ltac by_cmp_trans H1 H2 :=
  match type of H1 with cmp ?x ?y = Some ?c1 =>
  match type of H2 with cmp y ?z = Some ?c2 =>
    let H := fresh in
    pose proof (cmp_trans x y z c1 c2 ltac:(discriminate)
                  ltac:(discriminate) H1 H2) as H;
    simpl in H; auto
  end end.

Lemma ltb_trans x y z :
  PrimFloat.ltb x y = true -> PrimFloat.ltb y z = true ->
  PrimFloat.ltb x z = true.
Proof. rewrite !ltb_cmp. intros H1 H2. by_cmp_trans H1 H2. Qed.

Lemma leb_trans x y z :
  PrimFloat.leb x y = true -> PrimFloat.leb y z = true ->
  PrimFloat.leb x z = true.
Proof. rewrite !leb_cmp. intros [H1|H1] [H2|H2]; by_cmp_trans H1 H2. Qed.

Lemma ltb_leb_trans x y z :
  PrimFloat.ltb x y = true -> PrimFloat.leb y z = true ->
  PrimFloat.ltb x z = true.
Proof. rewrite !ltb_cmp, leb_cmp. intros H1 [H2|H2]; by_cmp_trans H1 H2. Qed.

Lemma leb_ltb_trans x y z :
  PrimFloat.leb x y = true -> PrimFloat.ltb y z = true ->
  PrimFloat.ltb x z = true.
Proof. rewrite !ltb_cmp, leb_cmp. intros [H1|H1] H2; by_cmp_trans H1 H2. Qed.

Lemma ltb_leb x y : PrimFloat.ltb x y = true -> PrimFloat.leb x y = true.
Proof. rewrite ltb_cmp, leb_cmp. auto. Qed.

(** [x < y] excludes [y <= x], and so [y < x]. *)
Lemma ltb_not_leb x y : PrimFloat.ltb x y = true -> PrimFloat.leb y x = false.
Proof.
  rewrite ltb_cmp. intros H.
  destruct (PrimFloat.leb y x) eqn:E; [|reflexivity].
  apply leb_cmp in E. rewrite (cmp_antisym x y), H in E. simpl in E.
  destruct E; discriminate.
Qed.

Lemma ltb_not_ltb x y : PrimFloat.ltb x y = true -> PrimFloat.ltb y x = false.
Proof.
  intros H. destruct (PrimFloat.ltb y x) eqn:E; [|reflexivity].
  apply ltb_leb in E. rewrite (ltb_not_leb _ _ H) in E. discriminate.
Qed.

Lemma leb_not_ltb x y : PrimFloat.leb x y = true -> PrimFloat.ltb y x = false.
Proof.
  intros H. destruct (PrimFloat.ltb y x) eqn:E; [|reflexivity].
  rewrite (ltb_not_leb _ _ E) in H. discriminate.
Qed.

(** A float is a number when it equals itself; NaN does not. *)
Definition is_number (x : float) : bool := PrimFloat.eqb x x.

Lemma is_number_cmp x y :
  is_number x = true -> is_number y = true -> cmp x y <> None.
Proof.
  unfold is_number. rewrite !FloatAxioms.eqb_spec. unfold SFeqb, cmp.
  destruct (Prim2SF x) as [[]|[]| |[] mx ex],
           (Prim2SF y) as [[]|[]| |[] my ey];
    simpl; congruence.
Qed.

Lemma cmp_is_number x y c :
  cmp x y = Some c -> is_number x = true /\ is_number y = true.
Proof.
  unfold is_number. rewrite !FloatAxioms.eqb_spec. unfold SFeqb, cmp.
  destruct (Prim2SF x) as [[]|[]| |[] mx ex],
           (Prim2SF y) as [[]|[]| |[] my ey];
    simpl; try discriminate; intros _;
    rewrite ?Z.compare_refl;
    change (Pos.compare_cont Eq ?a ?a) with (Pos.compare a a);
    rewrite ?Pos.compare_refl; auto.
Qed.

Lemma ltb_is_number x y :
  PrimFloat.ltb x y = true -> is_number x = true /\ is_number y = true.
Proof. rewrite ltb_cmp. apply cmp_is_number. Qed.

Lemma leb_is_number x y :
  PrimFloat.leb x y = true -> is_number x = true /\ is_number y = true.
Proof. rewrite leb_cmp. intros [H|H]; revert H; apply cmp_is_number. Qed.

(** On numbers the order is total. *)
Lemma not_ltb_leb x y :
  is_number x = true -> is_number y = true ->
  PrimFloat.ltb x y = false -> PrimFloat.leb y x = true.
Proof.
  intros Hx Hy H. pose proof (is_number_cmp x y Hx Hy) as Hc.
  apply leb_cmp. rewrite (cmp_antisym x y).
  destruct (cmp x y) as [[]|] eqn:E; simpl; auto.
  - apply ltb_cmp in E. congruence.
  - congruence.
Qed.

Lemma leb_refl x : is_number x = true -> PrimFloat.leb x x = true.
Proof.
  intros H. apply not_ltb_leb; auto.
  destruct (PrimFloat.ltb x x) eqn:E; [|reflexivity].
  pose proof (ltb_not_ltb _ _ E). congruence.
Qed.

End FloatOrder.

(** ** Rounding to nearest in binary64

    The arithmetic of the primitive floats is specified by [SFadd], [SFdiv]
    and the rounding function [binary_round_aux] they share.  This module
    relates that function to the rational numbers: the float it returns is
    the canonical float of the input rounded to nearest, ties to even, and
    rounding is monotone.  Monotonicity of the engine's quotients and sums
    follows. *)

Module Rounding.

Definition pow2 (e : Z) : Q := (2 ^ e)%Q.

Lemma pow2_pos e : (0 < pow2 e)%Q.
Proof. apply Qpower_0_lt. reflexivity. Qed.

Lemma pow2_add a b : (pow2 (a + b) == pow2 a * pow2 b)%Q.
Proof. apply Qpower_plus. discriminate. Qed.

Lemma pow2_0 : (pow2 0 == 1)%Q.
Proof. reflexivity. Qed.

Lemma pow2_1 : (pow2 1 == 2)%Q.
Proof. reflexivity. Qed.

Lemma pow2_succ e : (pow2 (e + 1) == 2 * pow2 e)%Q.
Proof. rewrite pow2_add, pow2_1. ring. Qed.

Lemma pow2_le a b : a <= b -> (pow2 a <= pow2 b)%Q.
Proof. intros H. apply Qpower_le_compat_l; [assumption|discriminate]. Qed.

Lemma pow2_lt a b : a < b -> (pow2 a < pow2 b)%Q.
Proof. intros H. apply Qpower_lt_compat_l; [assumption|reflexivity]. Qed.

Lemma pow2_lt_inv a b : (pow2 a < pow2 b)%Q -> a < b.
Proof. intros H. apply (Qpower_lt_compat_l_inv 2); [assumption|reflexivity]. Qed.

Lemma pow2_le_inv a b : (pow2 a <= pow2 b)%Q -> a <= b.
Proof. intros H. apply (Qpower_le_compat_l_inv 2); [assumption|reflexivity]. Qed.

Lemma pow2_Z e : 0 <= e -> (pow2 e == inject_Z (2 ^ e))%Q.
Proof. intros H. unfold pow2. rewrite Zpower_Qpower by assumption. reflexivity. Qed.

Lemma pow2_opp_mul e : (pow2 e * pow2 (- e) == 1)%Q.
Proof. rewrite <- pow2_add. replace (e + - e) with 0 by lia. reflexivity. Qed.

(** A real [x] is located by an integer [m] and a location [l] when
    [m <= x < m + 1] and [l] tells where [x] lies between the two. *)
Definition located (m : Z) (l : location) (x : Q) : Prop :=
  match l with
  | loc_Exact => (x == inject_Z m)%Q
  | loc_Inexact Lt => (inject_Z m < x /\ x < inject_Z m + (1 # 2))%Q
  | loc_Inexact Eq => (x == inject_Z m + (1 # 2))%Q
  | loc_Inexact Gt => (inject_Z m + (1 # 2) < x /\ x < inject_Z m + 1)%Q
  end.

Lemma located_bounds m l x :
  located m l x -> (inject_Z m <= x /\ x < inject_Z m + 1)%Q.
Proof. destruct l as [|[]]; simpl; intros; lra. Qed.

Lemma inject_Z_xO p : (inject_Z (Zpos p~0) == 2 * inject_Z (Zpos p))%Q.
Proof. change (Zpos p~0) with (2 * Zpos p). rewrite inject_Z_mult. reflexivity. Qed.

Lemma inject_Z_xI p : (inject_Z (Zpos p~1) == 2 * inject_Z (Zpos p) + 1)%Q.
Proof.
  change (Zpos p~1) with (2 * Zpos p + 1).
  rewrite inject_Z_plus, inject_Z_mult. reflexivity.
Qed.

Lemma shr_1_located mrs x :
  0 <= shr_m mrs ->
  located (shr_m mrs) (loc_of_shr_record mrs) x ->
  located (shr_m (shr_1 mrs)) (loc_of_shr_record (shr_1 mrs)) (x * (1 # 2))
  /\ shr_m (shr_1 mrs) = shr_m mrs / 2.
Proof.
  destruct mrs as [m r s]. simpl. intros Hm H.
  destruct m as [|[p|p|]|p]; try lia.
  - split; [|reflexivity].
    destruct r, s; simpl in *; change (inject_Z 0) with 0%Q in *; lra.
  - split; [|rewrite Pos2Z.inj_xI; simpl shr_m; apply Z.div_unique with 1; lia].
    pose proof (inject_Z_xI p). destruct r, s; simpl in *; lra.
  - split; [|rewrite Pos2Z.inj_xO; simpl shr_m; apply Z.div_unique with 0; lia].
    pose proof (inject_Z_xO p). destruct r, s; simpl in *; lra.
  - split; [|reflexivity].
    destruct r, s; simpl in *; change (inject_Z 0) with 0%Q in *;
      change (inject_Z 1) with 1%Q in *; lra.
Qed.


Lemma located_ext m l x y : (x == y)%Q -> located m l x -> located m l y.
Proof. intros E. destruct l as [|[]]; simpl; intros; lra. Qed.

Lemma located_unique m l m' l' x :
  located m l x -> located m' l' x -> m = m' /\ l = l'.
Proof.
  intros H H'.
  assert (E : m = m').
  { apply located_bounds in H as H1. apply located_bounds in H' as H1'.
    destruct (Z.lt_trichotomy m m') as [L|[L|L]]; auto; exfalso.
    - assert (inject_Z (m + 1) <= inject_Z m')%Q by (rewrite <- Zle_Qle; lia).
      rewrite inject_Z_plus in *. change (inject_Z 1) with 1%Q in *. lra.
    - assert (inject_Z (m' + 1) <= inject_Z m)%Q by (rewrite <- Zle_Qle; lia).
      rewrite inject_Z_plus in *. change (inject_Z 1) with 1%Q in *. lra. }
  subst m'. split; [reflexivity|].
  destruct l as [|[]], l' as [|[]]; simpl in *; try reflexivity; exfalso; lra.
Qed.

Lemma loc_of_shr_record_of_loc m l :
  loc_of_shr_record (shr_record_of_loc m l) = l
  /\ shr_m (shr_record_of_loc m l) = m.
Proof. destruct l as [|[]]; split; reflexivity. Qed.

Lemma iter_pos_nat {A} (f : A -> A) n x :
  iter_pos f n x = Nat.iter (Pos.to_nat n) f x.
Proof.
  revert x. induction n as [n IH|n IH|]; intros x; cbn [iter_pos].
  - rewrite !IH. rewrite Pos2Nat.inj_xI. rewrite Nat.iter_succ_r.
    replace (2 * Pos.to_nat n)%nat with (Pos.to_nat n + Pos.to_nat n)%nat by lia.
    rewrite Nat.iter_add. reflexivity.
  - rewrite !IH. rewrite Pos2Nat.inj_xO.
    replace (2 * Pos.to_nat n)%nat with (Pos.to_nat n + Pos.to_nat n)%nat by lia.
    rewrite Nat.iter_add. reflexivity.
  - reflexivity.
Qed.

Lemma shr_iter_located (n : nat) mrs x :
  0 <= shr_m mrs ->
  located (shr_m mrs) (loc_of_shr_record mrs) x ->
  located (shr_m (Nat.iter n shr_1 mrs))
          (loc_of_shr_record (Nat.iter n shr_1 mrs))
          (x * pow2 (- Z.of_nat n))
  /\ shr_m (Nat.iter n shr_1 mrs) = shr_m mrs / 2 ^ Z.of_nat n.
Proof.
  intros Hm H. induction n as [|n [IH1 IH2]].
  - cbn [Nat.iter nat_rect]. change (Z.of_nat 0) with 0.
    split; [|rewrite Z.pow_0_r, Z.div_1_r; reflexivity].
    apply (located_ext _ _ x); [|assumption].
    change (- 0) with 0. rewrite pow2_0. ring.
  - cbn [Nat.iter nat_rect]. fold (Nat.iter n shr_1 mrs) in *.
    assert (Hn : 0 <= shr_m (Nat.iter n shr_1 mrs)).
    { rewrite IH2. apply Z.div_pos; [assumption|]. apply Z.pow_pos_nonneg; lia. }
    destruct (shr_1_located _ _ Hn IH1) as [S1 S2]. split.
    + refine (located_ext _ _ _ _ _ S1).
      replace (- Z.of_nat (S n)) with (- Z.of_nat n + -1) by lia.
      rewrite pow2_add. change (pow2 (-1)) with (1 # 2)%Q. ring.
    + rewrite S2, IH2, Nat2Z.inj_succ, Z.pow_succ_r by lia.
      rewrite Z.div_div by (try apply Z.pow_pos_nonneg; lia).
      f_equal. lia.
Qed.

(** ** Scales *)

Definition at_scale (e m : Z) (l : location) (X : Q) : Prop :=
  located m l (X * pow2 (- e)).

Lemma scale_le a X e : (a <= X * pow2 (- e) <-> a * pow2 e <= X)%Q.
Proof.
  pose proof (pow2_pos e) as P. pose proof (pow2_pos (- e)) as N.
  pose proof (pow2_opp_mul e) as I.
  split; intros H.
  - assert (a * pow2 e <= X * pow2 (- e) * pow2 e)%Q
      by (apply Qmult_le_compat_r; lra).
    assert (X * pow2 (- e) * pow2 e == X)%Q
      by (rewrite <- Qmult_assoc, (Qmult_comm (pow2 (- e))), I; ring).
    lra.
  - assert (a * pow2 e * pow2 (- e) <= X * pow2 (- e))%Q
      by (apply Qmult_le_compat_r; lra).
    assert (a * pow2 e * pow2 (- e) == a)%Q
      by (rewrite <- Qmult_assoc, I; ring).
    lra.
Qed.

Lemma scale_lt a X e : (X * pow2 (- e) < a <-> X < a * pow2 e)%Q.
Proof.
  pose proof (scale_le a X e) as [H1 H2].
  split; intros H; apply Qnot_le_lt; intros C; [apply H2 in C|apply H1 in C];
    lra.
Qed.

Lemma scale_ge a X e : (X * pow2 (- e) <= a <-> X <= a * pow2 e)%Q.
Proof.
  pose proof (pow2_pos e) as P. pose proof (pow2_pos (- e)) as N.
  pose proof (pow2_opp_mul e) as I.
  split; intros H.
  - assert (X * pow2 (- e) * pow2 e <= a * pow2 e)%Q
      by (apply Qmult_le_compat_r; lra).
    assert (X * pow2 (- e) * pow2 e == X)%Q
      by (rewrite <- Qmult_assoc, (Qmult_comm (pow2 (- e))), I; ring).
    lra.
  - assert (X * pow2 (- e) <= a * pow2 e * pow2 (- e))%Q
      by (apply Qmult_le_compat_r; lra).
    assert (a * pow2 e * pow2 (- e) == a)%Q
      by (rewrite <- Qmult_assoc, I; ring).
    lra.
Qed.

Lemma scale_gt a X e : (a < X * pow2 (- e) <-> a * pow2 e < X)%Q.
Proof.
  pose proof (scale_ge a X e) as [H1 H2].
  split; intros H; apply Qnot_le_lt; intros C; [apply H2 in C|apply H1 in C];
    lra.
Qed.

Lemma fexp_eq e : fexp prec emax e = Z.max (e - 53) (-1074).
Proof. reflexivity. Qed.

Lemma shr_spec m l e n X :
  0 <= m -> at_scale e m l X -> 0 <= n ->
  snd (shr (shr_record_of_loc m l) e n) = e + n
  /\ at_scale (e + n)
       (shr_m (fst (shr (shr_record_of_loc m l) e n)))
       (loc_of_shr_record (fst (shr (shr_record_of_loc m l) e n))) X
  /\ shr_m (fst (shr (shr_record_of_loc m l) e n)) = m / 2 ^ n.
Proof.
  intros Hm H Hn. destruct (loc_of_shr_record_of_loc m l) as [L1 L2].
  destruct n as [|p|p]; try lia; unfold shr; cbn [fst snd].
  - rewrite L1, L2, Z.add_0_r, Z.pow_0_r, Z.div_1_r. auto.
  - rewrite iter_pos_nat.
    destruct (shr_iter_located (Pos.to_nat p) (shr_record_of_loc m l)
               (X * pow2 (- e))) as [S1 S2].
    + rewrite L2. assumption.
    + rewrite L1, L2. assumption.
    + rewrite positive_nat_Z, L2 in *. split; [reflexivity|]. split; [|assumption].
      unfold at_scale. refine (located_ext _ _ _ _ _ S1).
      replace (- (e + Z.pos p)) with (- e + - Z.pos p) by lia.
      rewrite pow2_add. ring.
Qed.

Lemma shr_fexp_spec m e l X :
  0 <= m -> at_scale e m l X -> e <= fexp prec emax (Zdigits2 m + e) ->
  snd (shr_fexp prec emax m e l) = fexp prec emax (Zdigits2 m + e)
  /\ at_scale (fexp prec emax (Zdigits2 m + e))
       (shr_m (fst (shr_fexp prec emax m e l)))
       (loc_of_shr_record (fst (shr_fexp prec emax m e l))) X
  /\ shr_m (fst (shr_fexp prec emax m e l))
     = m / 2 ^ (fexp prec emax (Zdigits2 m + e) - e).
Proof.
  intros Hm H He. unfold shr_fexp.
  destruct (shr_spec m l e (fexp prec emax (Zdigits2 m + e) - e) X Hm H ltac:(lia))
    as (S1 & S2 & S3).
  replace (e + (fexp prec emax (Zdigits2 m + e) - e))
    with (fexp prec emax (Zdigits2 m + e)) in * by lia.
  auto.
Qed.

(** ** Binary digits and magnitudes *)

Lemma digits2_pos_size p : digits2_pos p = Pos.size p.
Proof. induction p; simpl; congruence. Qed.

Lemma Zdigits2_log2 m : 0 < m -> Zdigits2 m = Z.log2 m + 1.
Proof.
  destruct m as [|p|p]; try lia. intros _. simpl.
  rewrite digits2_pos_size. destruct p; simpl; lia.
Qed.

Lemma Zdigits2_bounds m :
  0 < m -> 2 ^ (Zdigits2 m - 1) <= m < 2 ^ Zdigits2 m.
Proof.
  intros H. rewrite Zdigits2_log2 by assumption.
  replace (Z.log2 m + 1 - 1) with (Z.log2 m) by lia.
  apply Z.log2_spec. assumption.
Qed.

Lemma Zdigits2_pos m : 0 < m -> 0 < Zdigits2 m.
Proof.
  intros H. rewrite Zdigits2_log2 by assumption.
  pose proof (Z.log2_nonneg m). lia.
Qed.

Lemma Zdigits2_unique m d :
  0 < d -> 2 ^ (d - 1) <= m < 2 ^ d -> Zdigits2 m = d.
Proof.
  intros Hd [H1 H2].
  assert (0 < m) by (pose proof (Z.pow_pos_nonneg 2 (d - 1)); lia).
  rewrite Zdigits2_log2 by assumption.
  enough (Z.log2 m = d - 1) by lia.
  apply Z.log2_unique; [lia|]. replace (Z.succ (d - 1)) with d by lia. lia.
Qed.

Lemma Zdigits2_lt_pow m d : 0 <= d -> 0 <= m < 2 ^ d -> Zdigits2 m <= d.
Proof.
  intros Hd [H1 H2]. destruct (Z.eq_dec m 0) as [->|N]; [simpl; lia|].
  pose proof (Zdigits2_bounds m ltac:(lia)) as [B1 B2].
  destruct (Z.le_gt_cases (Zdigits2 m) d) as [L|L]; [assumption|exfalso].
  assert (2 ^ d <= 2 ^ (Zdigits2 m - 1)) by (apply Z.pow_le_mono_r; lia).
  lia.
Qed.

Lemma Zdigits2_ge_pow m d : 0 <= d -> 2 ^ d <= m -> d + 1 <= Zdigits2 m.
Proof.
  intros Hd H.
  assert (0 < m) by (pose proof (Z.pow_pos_nonneg 2 d); lia).
  pose proof (Zdigits2_bounds m ltac:(lia)) as [B1 B2].
  destruct (Z.le_gt_cases (d + 1) (Zdigits2 m)) as [L|L]; [assumption|exfalso].
  assert (2 ^ Zdigits2 m <= 2 ^ d) by (apply Z.pow_le_mono_r; lia).
  lia.
Qed.

Definition mag_is (X : Q) (k : Z) : Prop :=
  (pow2 (k - 1) <= X /\ X < pow2 k)%Q.

Lemma mag_le X Y k k' : (X <= Y)%Q -> mag_is X k -> mag_is Y k' -> k <= k'.
Proof.
  intros H [H1 _] [_ H2].
  assert (pow2 (k - 1) < pow2 k')%Q by lra.
  apply pow2_lt_inv in H0. lia.
Qed.

Lemma mag_unique X k k' : mag_is X k -> mag_is X k' -> k = k'.
Proof.
  intros H H'.
  pose proof (mag_le X X k k' ltac:(lra) H H').
  pose proof (mag_le X X k' k ltac:(lra) H' H). lia.
Qed.

Lemma inject_Z_pow2 d : 0 <= d -> (inject_Z (2 ^ d) == pow2 d)%Q.
Proof. intros H. symmetry. apply pow2_Z. assumption. Qed.

Lemma at_scale_bounds e m l X :
  at_scale e m l X ->
  (inject_Z m * pow2 e <= X /\ X < (inject_Z m + 1) * pow2 e)%Q.
Proof.
  intros H. apply located_bounds in H. destruct H as [H1 H2].
  apply scale_le in H1. apply scale_lt in H2. auto.
Qed.

Lemma at_scale_mag m e l X :
  0 < m -> at_scale e m l X -> mag_is X (Zdigits2 m + e).
Proof.
  intros Hm H. apply at_scale_bounds in H. destruct H as [H1 H2].
  pose proof (Zdigits2_bounds m Hm) as [B1 B2].
  pose proof (Zdigits2_pos m Hm) as Dp.
  pose proof (pow2_pos e) as P.
  unfold mag_is. split.
  - replace (Zdigits2 m + e - 1) with ((Zdigits2 m - 1) + e) by lia.
    rewrite pow2_add, <- inject_Z_pow2 by lia.
    assert (inject_Z (2 ^ (Zdigits2 m - 1)) <= inject_Z m)%Q
      by (rewrite <- Zle_Qle; assumption).
    assert (inject_Z (2 ^ (Zdigits2 m - 1)) * pow2 e <= inject_Z m * pow2 e)%Q
      by (apply Qmult_le_compat_r; lra).
    lra.
  - rewrite pow2_add, <- inject_Z_pow2 by lia.
    assert (inject_Z (m + 1) <= inject_Z (2 ^ Zdigits2 m))%Q
      by (rewrite <- Zle_Qle; lia).
    rewrite inject_Z_plus in H. change (inject_Z 1) with 1%Q in H.
    assert ((inject_Z m + 1) * pow2 e <= inject_Z (2 ^ Zdigits2 m) * pow2 e)%Q
      by (apply Qmult_le_compat_r; lra).
    lra.
Qed.

(** ** The canonical exponent and the rounded mantissa of a positive real *)

(** [c] is the exponent at which binary64 represents numbers of the size of
    [X]: [emin] below the normal range, the magnitude less [prec] above. *)
Definition canon_exp (X : Q) (c : Z) : Prop :=
  (c = -1074 /\ (X < pow2 (-1021))%Q)
  \/ (-1074 < c /\ mag_is X (c + 53)).

Lemma canon_exp_of_mag X k : mag_is X k -> canon_exp X (fexp prec emax k).
Proof.
  intros [H1 H2]. rewrite fexp_eq. unfold canon_exp.
  destruct (Z.le_gt_cases (k - 53) (-1074)) as [L|L].
  - left. split; [lia|].
    assert (pow2 k <= pow2 (-1021))%Q by (apply pow2_le; lia). lra.
  - right. split; [lia|].
    replace (Z.max (k - 53) (-1074) + 53) with k by lia. split; assumption.
Qed.

Lemma canon_exp_ge X c : canon_exp X c -> -1074 <= c.
Proof. intros [[-> _]|[H _]]; lia. Qed.

Lemma canon_exp_upper X c : canon_exp X c -> (X < pow2 (c + 53))%Q.
Proof. intros [[-> H]|[_ [_ H]]]; assumption. Qed.

Lemma canon_exp_le X Y c c' :
  (X <= Y)%Q -> canon_exp X c -> canon_exp Y c' -> c <= c'.
Proof.
  intros H [[-> HX]|[HX MX]] [[-> HY]|[HY MY]]; try lia.
  - exfalso. destruct MX as [M1 _].
    assert (pow2 (-1021) <= pow2 (c + 53 - 1))%Q by (apply pow2_le; lia).
    lra.
  - pose proof (mag_le _ _ _ _ H MX MY). lia.
Qed.

Lemma canon_exp_unique X c c' : canon_exp X c -> canon_exp X c' -> c = c'.
Proof.
  intros H H'.
  pose proof (canon_exp_le X X c c' ltac:(lra) H H').
  pose proof (canon_exp_le X X c' c ltac:(lra) H' H). lia.
Qed.

Lemma round_nearest_even_bounds m l :
  m <= round_nearest_even m l <= m + 1.
Proof. destruct l as [|[]]; simpl; try destruct (Z.even m); lia. Qed.

Lemma round_nearest_even_mono m l m' l' x y :
  located m l x -> located m' l' y -> (x <= y)%Q ->
  round_nearest_even m l <= round_nearest_even m' l'.
Proof.
  intros H H' L.
  pose proof (round_nearest_even_bounds m l).
  pose proof (round_nearest_even_bounds m' l').
  destruct (Z.lt_trichotomy m m') as [C|[C|C]]; [lia| |exfalso].
  - subst m'.
    destruct l as [|[]], l' as [|[]]; simpl in *;
      try destruct (Z.even m); try lia; exfalso; lra.
  - apply located_bounds in H, H'.
    assert (inject_Z (m' + 1) <= inject_Z m)%Q by (rewrite <- Zle_Qle; lia).
    rewrite inject_Z_plus in *. change (inject_Z 1) with 1%Q in *. lra.
Qed.

(** [z] is the mantissa that rounding to nearest, ties to even, gives [X] at
    its canonical exponent [c]. *)
Definition rounds_to (X : Q) (c z : Z) : Prop :=
  canon_exp X c
  /\ exists m l, 0 <= m /\ at_scale c m l X /\ z = round_nearest_even m l.

Lemma first_pass m e l X :
  (0 < X)%Q -> 0 <= m -> at_scale e m l X ->
  e <= fexp prec emax (Zdigits2 m + e) ->
  canon_exp X (snd (shr_fexp prec emax m e l))
  /\ 0 <= shr_m (fst (shr_fexp prec emax m e l))
  /\ at_scale (snd (shr_fexp prec emax m e l))
       (shr_m (fst (shr_fexp prec emax m e l)))
       (loc_of_shr_record (fst (shr_fexp prec emax m e l))) X.
Proof.
  intros HX Hm H He.
  destruct (shr_fexp_spec m e l X Hm H He) as (S1 & S2 & S3).
  rewrite S1. split; [|split; [|assumption]].
  - destruct (Z.eq_dec m 0) as [->|N].
    + simpl Zdigits2 in *. rewrite fexp_eq in *. left. split; [lia|].
      apply at_scale_bounds in H. change (inject_Z 0) with 0%Q in H.
      assert (pow2 e <= pow2 (-1021))%Q by (apply pow2_le; lia). lra.
    + apply canon_exp_of_mag. apply (at_scale_mag m e l); [lia|assumption].
  - rewrite S3. apply Z.div_pos; [assumption|].
    apply Z.pow_pos_nonneg; lia.
Qed.

Lemma rounds_to_first_pass m e l X :
  (0 < X)%Q -> 0 <= m -> at_scale e m l X ->
  e <= fexp prec emax (Zdigits2 m + e) ->
  rounds_to X (snd (shr_fexp prec emax m e l))
    (round_nearest_even (shr_m (fst (shr_fexp prec emax m e l)))
                        (loc_of_shr_record (fst (shr_fexp prec emax m e l)))).
Proof.
  intros HX Hm H He. destruct (first_pass m e l X HX Hm H He) as (F1 & F2 & F3).
  split; [assumption|]. eauto.
Qed.

Lemma at_scale_lt_pow c m l X d :
  0 <= d -> 0 <= m -> at_scale c m l X -> (X < pow2 (c + d))%Q -> m < 2 ^ d.
Proof.
  intros Hd Hm H HX. apply at_scale_bounds in H. destruct H as [H1 _].
  rewrite pow2_add in HX.
  assert (inject_Z m * pow2 c < pow2 d * pow2 c)%Q
    by (rewrite (Qmult_comm (pow2 d)); lra).
  apply Qmult_lt_r in H; [|apply pow2_pos].
  rewrite <- inject_Z_pow2 in H by assumption.
  rewrite <- Zlt_Qlt in H. assumption.
Qed.

Lemma at_scale_ge_pow c m l X d :
  0 <= d -> at_scale c m l X -> (pow2 (c + d) <= X)%Q -> 2 ^ d <= m.
Proof.
  intros Hd H HX. apply at_scale_bounds in H. destruct H as [_ H2].
  rewrite pow2_add in HX.
  assert (pow2 d * pow2 c < (inject_Z m + 1) * pow2 c)%Q
    by (rewrite (Qmult_comm (pow2 d)); lra).
  apply Qmult_lt_r in H; [|apply pow2_pos].
  rewrite <- inject_Z_pow2 in H by assumption.
  change 1%Q with (inject_Z 1) in H. rewrite <- inject_Z_plus in H.
  rewrite <- Zlt_Qlt in H. lia.
Qed.

Lemma rounds_to_range X c z : rounds_to X c z -> 0 <= z <= 2 ^ 53.
Proof.
  intros (C & m & l & Hm & H & ->).
  pose proof (round_nearest_even_bounds m l).
  pose proof (at_scale_lt_pow c m l X 53 ltac:(lia) Hm H (canon_exp_upper X c C)).
  lia.
Qed.

Lemma rounds_to_normal X c z : rounds_to X c z -> -1074 < c -> 2 ^ 52 <= z.
Proof.
  intros (C & m & l & Hm & H & ->) Hc.
  destruct C as [[-> _]|[_ [M _]]]; [lia|].
  replace (c + 53 - 1) with (c + 52) in M by lia.
  pose proof (round_nearest_even_bounds m l).
  pose proof (at_scale_ge_pow c m l X 52 ltac:(lia) H M). lia.
Qed.

Lemma rounds_to_mono X Y c z c' z' :
  (X <= Y)%Q -> rounds_to X c z -> rounds_to Y c' z' ->
  (inject_Z z * pow2 c <= inject_Z z' * pow2 c')%Q.
Proof.
  intros L R R'.
  pose proof (rounds_to_range X c z R) as Rz.
  destruct R as (C & m & l & Hm & H & Ez).
  destruct R' as (C' & m' & l' & Hm' & H' & Ez').
  pose proof (canon_exp_le X Y c c' L C C') as Lc.
  destruct (Z.eq_dec c c') as [<-|N].
  - apply Qmult_le_compat_r; [|apply Qlt_le_weak, pow2_pos].
    rewrite <- Zle_Qle. subst z z'.
    apply (round_nearest_even_mono m l m' l' (X * pow2 (- c)) (Y * pow2 (- c)));
      try assumption.
    apply Qmult_le_compat_r; [assumption|apply Qlt_le_weak, pow2_pos].
  - assert (Hn : -1074 < c') by (pose proof (canon_exp_ge X c C); lia).
    assert (Rz' : 2 ^ 52 <= z').
    { apply (rounds_to_normal Y c' z'); [|assumption].
      split; [assumption|]. eauto. }
    apply Qle_trans with (pow2 (c + 53)).
    + rewrite Z.add_comm, pow2_add. apply Qmult_le_compat_r;
        [|apply Qlt_le_weak, pow2_pos].
      rewrite <- inject_Z_pow2 by lia. rewrite <- Zle_Qle. lia.
    + apply Qle_trans with (pow2 (c' + 52)); [apply pow2_le; lia|].
      rewrite Z.add_comm, pow2_add. apply Qmult_le_compat_r;
        [|apply Qlt_le_weak, pow2_pos].
      rewrite <- inject_Z_pow2 by lia. rewrite <- Zle_Qle. lia.
Qed.

(** ** From the rounded mantissa to the float *)

(** [f] is the float of sign [s] for the rounded value [z * 2^c]: a zero, a
    finite float in canonical form with that value, or an infinity when the
    value has left the range. *)
Definition float_of (s : bool) (z c : Z) (f : spec_float) : Prop :=
  (z = 0 /\ f = S754_zero s)
  \/ (0 < z
      /\ ((exists m e,
             f = S754_finite s m e /\ bounded prec emax m e = true
             /\ (inject_Z (Zpos m) * pow2 e == inject_Z z * pow2 c)%Q)
          \/ (f = S754_infinity s
              /\ (pow2 1024 <= inject_Z z * pow2 c)%Q))).

Definition finish (s : bool) (r : shr_record * Z) : spec_float :=
  match shr_m (fst r) with
  | Z0 => S754_zero s
  | Zpos m =>
      if snd r <=? emax - prec then S754_finite s m (snd r)
      else S754_infinity s
  | Zneg _ => S754_nan
  end.

Lemma binary_round_aux_finish s m e l :
  binary_round_aux prec emax s m e l
  = finish s (shr_fexp prec emax
                (round_nearest_even
                   (shr_m (fst (shr_fexp prec emax m e l)))
                   (loc_of_shr_record (fst (shr_fexp prec emax m e l))))
                (snd (shr_fexp prec emax m e l)) loc_Exact).
Proof.
  unfold binary_round_aux, finish.
  destruct (shr_fexp prec emax m e l) as [mrs' e']. cbn [fst snd].
  destruct (shr_fexp prec emax _ e' loc_Exact) as [mrs'' e'']. reflexivity.
Qed.

Lemma shr_fexp_no_shift z c :
  fexp prec emax (Zdigits2 z + c) = c ->
  shr_fexp prec emax z c loc_Exact
  = ({| shr_m := z; shr_r := false; shr_s := false |}, c).
Proof.
  intros H. unfold shr_fexp. rewrite H, Z.sub_diag. reflexivity.
Qed.

Lemma second_pass s z c :
  -1074 <= c -> 0 <= z <= 2 ^ 53 -> (-1074 < c -> 2 ^ 52 <= z) ->
  float_of s z c (finish s (shr_fexp prec emax z c loc_Exact)).
Proof.
  intros Hc [Hz1 Hz2] Hn.
  destruct (Z.eq_dec z 0) as [->|Nz].
  { left. split; [reflexivity|].
    assert (c = -1074) by (destruct (Z.eq_dec c (-1074)); [assumption|lia]).
    subst c. reflexivity. }
  right. split; [lia|].
  destruct (Z.eq_dec z (2 ^ 53)) as [->|Nt].
  - assert (E : shr_fexp prec emax (2 ^ 53) c loc_Exact
                = ({| shr_m := 2 ^ 52; shr_r := false; shr_s := false |}, c + 1)).
    { unfold shr_fexp. rewrite fexp_eq.
      change (Zdigits2 (2 ^ 53)) with 54.
      replace (Z.max (54 + c - 53) (-1074) - c) with 1 by lia. reflexivity. }
    rewrite E. unfold finish. cbn [fst snd shr_m].
    change (2 ^ 52) with (Zpos 4503599627370496).
    change (emax - prec) with 971.
    destruct (Z.leb_spec (c + 1) 971) as [L|L].
    + left. exists 4503599627370496%positive, (c + 1).
      split; [reflexivity|]. split.
      * unfold bounded, canonical_mantissa.
        change (Zpos (digits2_pos 4503599627370496)) with 53.
        rewrite fexp_eq. change (emax - prec) with 971.
        apply andb_true_intro. split; [apply Z.eqb_eq|apply Z.leb_le]; lia.
      * rewrite pow2_succ.
        change (inject_Z (Zpos 4503599627370496)) with (inject_Z (2 ^ 52)).
        rewrite !inject_Z_pow2 by lia.
        change (pow2 52) with (4503599627370496 # 1)%Q.
        change (pow2 53) with (9007199254740992 # 1)%Q. ring_simplify.
        reflexivity.
    + right. split; [reflexivity|].
      rewrite inject_Z_pow2 by lia. rewrite <- pow2_add.
      apply pow2_le. lia.
  - assert (Hz : 0 < z < 2 ^ 53) by lia.
    assert (D : fexp prec emax (Zdigits2 z + c) = c).
    { rewrite fexp_eq.
      pose proof (Zdigits2_lt_pow z 53 ltac:(lia) ltac:(lia)).
      pose proof (Zdigits2_pos z ltac:(lia)).
      destruct (Z.eq_dec c (-1074)) as [->|Nc]; [lia|].
      pose proof (Zdigits2_ge_pow z 52 ltac:(lia) ltac:(apply Hn; lia)). lia. }
    rewrite (shr_fexp_no_shift z c D). unfold finish. cbn [fst snd shr_m].
    destruct z as [|p|p]; try lia.
    change (emax - prec) with 971.
    destruct (Z.leb_spec c 971) as [L|L].
    + left. exists p, c. split; [reflexivity|]. split; [|reflexivity].
      unfold bounded, canonical_mantissa.
      change (Zpos (digits2_pos p)) with (Zdigits2 (Zpos p)).
      rewrite D. change (emax - prec) with 971.
      apply andb_true_intro. split; [apply Z.eqb_eq|apply Z.leb_le]; lia.
    + right. split; [reflexivity|].
      apply Qle_trans with (pow2 52 * pow2 c)%Q.
      * rewrite <- pow2_add. apply pow2_le. lia.
      * apply Qmult_le_compat_r; [|apply Qlt_le_weak, pow2_pos].
        rewrite <- inject_Z_pow2 by lia. rewrite <- Zle_Qle. apply Hn. lia.
Qed.

Lemma binary_round_aux_spec s m e l X :
  (0 < X)%Q -> 0 <= m -> at_scale e m l X ->
  e <= fexp prec emax (Zdigits2 m + e) ->
  exists c z,
    rounds_to X c z /\ float_of s z c (binary_round_aux prec emax s m e l).
Proof.
  intros HX Hm H He.
  pose proof (rounds_to_first_pass m e l X HX Hm H He) as R.
  eexists _, _. split; [exact R|].
  rewrite binary_round_aux_finish. apply second_pass.
  - destruct R as [C _]. apply (canon_exp_ge X _ C).
  - apply (rounds_to_range X _ _ R).
  - apply (rounds_to_normal X _ _ R).
Qed.

(** ** Comparing floats in canonical form *)

Definition F2Q (m : positive) (e : Z) : Q := (inject_Z (Zpos m) * pow2 e)%Q.

Lemma bounded_canonical m e :
  bounded prec emax m e = true ->
  fexp prec emax (Zdigits2 (Zpos m) + e) = e /\ e <= 971.
Proof.
  unfold bounded, canonical_mantissa. intros H.
  apply andb_prop in H. destruct H as [H1 H2].
  apply Z.eqb_eq in H1. apply Z.leb_le in H2. auto.
Qed.

Lemma bounded_lt_pow m e :
  bounded prec emax m e = true -> Zpos m < 2 ^ 53 /\ -1074 <= e.
Proof.
  intros H. apply bounded_canonical in H. destruct H as [H _].
  rewrite fexp_eq in H.
  pose proof (Zdigits2_bounds (Zpos m) ltac:(lia)) as [_ B].
  split; [|lia].
  assert (2 ^ Zdigits2 (Zpos m) <= 2 ^ 53) by (apply Z.pow_le_mono_r; lia).
  lia.
Qed.

Lemma bounded_normal m e :
  bounded prec emax m e = true -> -1074 < e -> 2 ^ 52 <= Zpos m.
Proof.
  intros H He. apply bounded_canonical in H. destruct H as [H _].
  rewrite fexp_eq in H.
  pose proof (Zdigits2_bounds (Zpos m) ltac:(lia)) as [B _].
  assert (2 ^ 52 <= 2 ^ (Zdigits2 (Zpos m) - 1))
    by (apply Z.pow_le_mono_r; lia).
  lia.
Qed.

Lemma F2Q_pos m e : (0 < F2Q m e)%Q.
Proof.
  unfold F2Q. apply Qmult_lt_0_compat; [|apply pow2_pos].
  change 0%Q with (inject_Z 0). rewrite <- Zlt_Qlt. lia.
Qed.

Lemma F2Q_upper m e :
  bounded prec emax m e = true -> (F2Q m e < pow2 (e + 53))%Q.
Proof.
  intros H. apply bounded_lt_pow in H. destruct H as [H _].
  unfold F2Q. rewrite Z.add_comm, pow2_add.
  apply Qmult_lt_compat_r; [apply pow2_pos|].
  rewrite <- inject_Z_pow2 by lia. rewrite <- Zlt_Qlt. assumption.
Qed.

Lemma F2Q_lower m e :
  bounded prec emax m e = true -> -1074 < e -> (pow2 (e + 52) <= F2Q m e)%Q.
Proof.
  intros H He. pose proof (bounded_normal m e H He).
  unfold F2Q. rewrite Z.add_comm, pow2_add.
  apply Qmult_le_compat_r; [|apply Qlt_le_weak, pow2_pos].
  rewrite <- inject_Z_pow2 by lia. rewrite <- Zle_Qle. assumption.
Qed.

Lemma F2Q_lt_exp m1 e1 m2 e2 :
  bounded prec emax m1 e1 = true -> bounded prec emax m2 e2 = true ->
  e1 < e2 -> (F2Q m1 e1 < F2Q m2 e2)%Q.
Proof.
  intros B1 B2 L.
  pose proof (F2Q_upper m1 e1 B1).
  pose proof (bounded_lt_pow m1 e1 B1) as [_ ?].
  pose proof (F2Q_lower m2 e2 B2 ltac:(lia)).
  assert (pow2 (e1 + 53) <= pow2 (e2 + 52))%Q by (apply pow2_le; lia).
  lra.
Qed.

(** On canonical positive floats [SFcompare] is the comparison of values. *)
Lemma SFcompare_F2Q m1 e1 m2 e2 :
  bounded prec emax m1 e1 = true -> bounded prec emax m2 e2 = true ->
  SFcompare (S754_finite false m1 e1) (S754_finite false m2 e2)
  = Some (F2Q m1 e1 ?= F2Q m2 e2)%Q.
Proof.
  intros B1 B2. cbn [SFcompare]. f_equal.
  destruct (Z.compare_spec e1 e2) as [E|L|G].
  - subst e2. change (Pos.compare_cont Eq m1 m2) with (Pos.compare m1 m2).
    pose proof (pow2_pos e1) as P. unfold F2Q.
    destruct (Pos.compare_spec m1 m2) as [E|L|G]; symmetry.
    + subst. apply Qeq_alt. reflexivity.
    + apply Qlt_alt. apply Qmult_lt_compat_r; [assumption|].
      rewrite <- Zlt_Qlt. lia.
    + apply Qgt_alt. apply Qmult_lt_compat_r; [assumption|].
      rewrite <- Zlt_Qlt. lia.
  - symmetry. apply Qlt_alt. apply F2Q_lt_exp; assumption.
  - symmetry. apply Qgt_alt. apply F2Q_lt_exp; assumption.
Qed.

Lemma SFleb_F2Q m1 e1 m2 e2 :
  bounded prec emax m1 e1 = true -> bounded prec emax m2 e2 = true ->
  SFleb (S754_finite false m1 e1) (S754_finite false m2 e2) = true
  <-> (F2Q m1 e1 <= F2Q m2 e2)%Q.
Proof.
  intros B1 B2. unfold SFleb. rewrite (SFcompare_F2Q _ _ _ _ B1 B2).
  rewrite Qle_alt. destruct (F2Q m1 e1 ?= F2Q m2 e2)%Q; split; congruence.
Qed.

(** ** Rounding is monotone *)

Lemma float_of_cases s z c f :
  float_of s z c f ->
  match f with
  | S754_zero s' => s' = s /\ z = 0
  | S754_finite s' m e =>
      s' = s /\ bounded prec emax m e = true
      /\ (F2Q m e == inject_Z z * pow2 c)%Q
  | S754_infinity s' => s' = s /\ (pow2 1024 <= inject_Z z * pow2 c)%Q
  | S754_nan => False
  end.
Proof.
  intros [[-> ->]|[Hz [(m & e & -> & B & V)|[-> V]]]]; auto.
Qed.

Lemma rounded_leb X Y c z c' z' f f' :
  (X <= Y)%Q ->
  rounds_to X c z -> float_of false z c f ->
  rounds_to Y c' z' -> float_of false z' c' f' ->
  SFleb f f' = true.
Proof.
  intros L R F R' F'.
  pose proof (rounds_to_mono X Y c z c' z' L R R') as V.
  pose proof (rounds_to_range X c z R) as [Z0 _].
  pose proof (rounds_to_range Y c' z' R') as [Z0' _].
  apply float_of_cases in F, F'.
  destruct f as [s|s| |s m e], f' as [s'|s'| |s' m' e'];
    try contradiction;
    repeat match goal with H : _ /\ _ |- _ => destruct H end; subst;
    try reflexivity.
  all: change (inject_Z 0) with 0%Q in *.
  all: pose proof (pow2_pos 1024).
  all: repeat match goal with
       | B : bounded _ _ ?m ?e = true |- _ =>
           pose proof (F2Q_pos m e); pose proof (F2Q_upper m e B);
           let H := fresh in pose proof (bounded_canonical m e B) as [_ H];
           assert (pow2 (e + 53) <= pow2 1024)%Q by (apply pow2_le; lia);
           revert B
       end; intros.
  all: try (apply SFleb_F2Q; [assumption|assumption|lra]).
  all: exfalso; lra.
Qed.

(** ** Division *)

Lemma new_location_located m2 r q :
  0 < m2 -> 0 <= r < m2 ->
  located q (new_location m2 r) (inject_Z q + inject_Z r / inject_Z m2).
Proof.
  intros Hm [Hr1 Hr2].
  set (rho := (inject_Z r / inject_Z m2)%Q).
  assert (M : (0 < inject_Z m2)%Q)
    by (change 0%Q with (inject_Z 0); rewrite <- Zlt_Qlt; assumption).
  assert (rho_lt : forall a b : Z, 0 < b -> a * m2 < b * r ->
                                   (inject_Z a / inject_Z b < rho)%Q).
  { intros a b Hb H. unfold rho.
    assert (0 < inject_Z b)%Q
      by (change 0%Q with (inject_Z 0); rewrite <- Zlt_Qlt; assumption).
    apply Qlt_shift_div_l; [assumption|].
    unfold Qdiv. rewrite <- Qmult_assoc, (Qmult_comm (/ _)), Qmult_assoc.
    apply Qlt_shift_div_r; [assumption|].
    rewrite <- !inject_Z_mult, <- Zlt_Qlt. lia. }
  assert (rho_gt : forall a b : Z, 0 < b -> b * r < a * m2 ->
                                   (rho < inject_Z a / inject_Z b)%Q).
  { intros a b Hb H. unfold rho.
    assert (0 < inject_Z b)%Q
      by (change 0%Q with (inject_Z 0); rewrite <- Zlt_Qlt; assumption).
    apply Qlt_shift_div_r; [assumption|].
    unfold Qdiv. rewrite <- Qmult_assoc, (Qmult_comm (/ _)), Qmult_assoc.
    apply Qlt_shift_div_l; [assumption|].
    rewrite <- !inject_Z_mult, <- Zlt_Qlt. lia. }
  assert (rho_eq : forall a b : Z, 0 < b -> b * r = a * m2 ->
                                   (rho == inject_Z a / inject_Z b)%Q).
  { intros a b Hb H. unfold rho.
    assert (0 < inject_Z b)%Q
      by (change 0%Q with (inject_Z 0); rewrite <- Zlt_Qlt; assumption).
    assert (inject_Z b * inject_Z r == inject_Z a * inject_Z m2)%Q
      by (rewrite <- !inject_Z_mult, H; reflexivity).
    field_simplify_eq; [lra|split; lra]. }
  assert (Q2 : (inject_Z 1 / inject_Z 2 == 1 # 2)%Q) by reflexivity.
  assert (Q1 : (inject_Z 1 / inject_Z 1 == 1)%Q) by reflexivity.
  assert (Q0 : (inject_Z 0 / inject_Z 1 == 0)%Q) by reflexivity.
  fold rho. clearbody rho.
  pose proof (rho_eq 0 1 ltac:(lia)) as E0. rewrite Q0 in E0.
  pose proof (rho_eq 1 2 ltac:(lia)) as E2. rewrite Q2 in E2.
  pose proof (rho_lt 0 1 ltac:(lia)) as R0. rewrite Q0 in R0.
  pose proof (rho_gt 1 1 ltac:(lia)) as R1. rewrite Q1 in R1.
  pose proof (rho_lt 1 2 ltac:(lia)) as L2. rewrite Q2 in L2.
  pose proof (rho_gt 1 2 ltac:(lia)) as G2. rewrite Q2 in G2.
  clear rho_lt rho_gt rho_eq.
  unfold new_location. destruct (Z.even m2) eqn:Ev.
  - unfold new_location_even. destruct (Z.eqb_spec r 0) as [->|Nr].
    + specialize (E0 ltac:(lia)). simpl. lra.
    + specialize (R0 ltac:(lia)). specialize (R1 ltac:(lia)).
      destruct (Z.compare_spec (2 * r) m2) as [E|L|G]; simpl.
      * specialize (E2 ltac:(lia)). lra.
      * specialize (G2 ltac:(lia)). lra.
      * specialize (L2 ltac:(lia)). lra.
  - unfold new_location_odd. destruct (Z.eqb_spec r 0) as [->|Nr].
    + specialize (E0 ltac:(lia)). simpl. lra.
    + specialize (R0 ltac:(lia)). specialize (R1 ltac:(lia)).
      assert (Od : 2 * r <> m2).
      { intros E. rewrite <- E, Z.even_mul in Ev. discriminate. }
      destruct (Z.compare_spec (2 * r + 1) m2) as [E|L|G]; simpl.
      * specialize (G2 ltac:(lia)). lra.
      * specialize (G2 ltac:(lia)). lra.
      * specialize (L2 ltac:(lia)). lra.
Qed.

Lemma fexp_mono a b : a <= b -> fexp prec emax a <= fexp prec emax b.
Proof. rewrite !fexp_eq. lia. Qed.

Lemma div_core_spec m1 e1 m2 e2 :
  0 < m1 -> 0 < m2 ->
  let '(q, e', l) := SFdiv_core_binary prec emax m1 e1 m2 e2 in
  0 <= q
  /\ at_scale e' q l
       ((inject_Z m1 * pow2 e1) / (inject_Z m2 * pow2 e2))
  /\ e' <= fexp prec emax (Zdigits2 q + e').
Proof.
  intros H1 H2. unfold SFdiv_core_binary.
  set (d1 := Zdigits2 m1). set (d2 := Zdigits2 m2).
  set (e' := Z.min (fexp prec emax (d1 + e1 - (d2 + e2))) (e1 - e2)).
  set (s := e1 - e2 - e').
  assert (Hs : 0 <= s) by (unfold s, e'; lia).
  set (m' := match s with Z.pos _ => Z.shiftl m1 s | 0 => m1 | Z.neg _ => 0 end).
  assert (Em : m' = m1 * 2 ^ s).
  { unfold m'. destruct s as [|p|p]; try lia.
    apply Z.shiftl_mul_pow2. lia. }
  clearbody m'.
  pose proof (Z_div_mod m' m2 ltac:(lia)) as DM.
  destruct (Z.div_eucl m' m2) as [q r]. destruct DM as [DM [R1 R2]].
  assert (P2 : 0 < 2 ^ s) by (apply Z.pow_pos_nonneg; lia).
  assert (Hq : 0 <= q) by nia.
  split; [assumption|]. split.
  - unfold at_scale.
    refine (located_ext _ _ _ _ _ (new_location_located m2 r q H2 (conj R1 R2))).
    assert (M2 : (0 < inject_Z m2)%Q)
      by (change 0%Q with (inject_Z 0); rewrite <- Zlt_Qlt; assumption).
    assert (E : (inject_Z m1 * pow2 s == inject_Z m2 * inject_Z q + inject_Z r)%Q).
    { rewrite pow2_Z by assumption.
      rewrite <- !inject_Z_mult, <- inject_Z_plus, <- Em, DM. reflexivity. }
    assert (S : (pow2 s == pow2 e1 * pow2 (- e2) * pow2 (- e'))%Q).
    { unfold s. rewrite <- !pow2_add. apply Qpower_comp; [reflexivity|lia]. }
    pose proof (pow2_pos e2). pose proof (pow2_opp_mul e2).
    rewrite S in E.
    field_simplify_eq; [|split; lra].
    assert (Hp : (pow2 e1 == pow2 e1 * (pow2 e2 * pow2 (- e2)))%Q)
      by (rewrite H0; ring).
    rewrite Hp. nra.
  - pose proof (Zdigits2_bounds m1 H1) as [B1 _].
    pose proof (Zdigits2_bounds m2 H2) as [_ B2].
    pose proof (Zdigits2_pos m1 H1). pose proof (Zdigits2_pos m2 H2).
    fold d1 in B1, H. fold d2 in B2, H0.
    clearbody d1 d2.
    destruct (Z.le_gt_cases 1 (d1 + s - d2)) as [L|L].
    + assert (2 ^ (d1 + s - 1 - d2) <= q).
      { assert (A : 0 < 2 ^ (d1 + s - 1 - d2)) by (apply Z.pow_pos_nonneg; lia).
        assert (E : 2 ^ (d1 - 1) * 2 ^ s = 2 ^ (d1 + s - 1 - d2) * 2 ^ d2).
        { rewrite <- !Z.pow_add_r by lia. f_equal. lia. }
        nia. }
      pose proof (Zdigits2_ge_pow q (d1 + s - 1 - d2) ltac:(lia) H3).
      apply (Z.le_trans _ (fexp prec emax (d1 + e1 - (d2 + e2)))).
      * apply Z.le_min_l.
      * apply fexp_mono. unfold s in H4. clearbody e'. lia.
    + assert (D : 0 <= Zdigits2 q) by (destruct q; simpl; lia).
      assert (e' <= fexp prec emax (d1 + e1 - (d2 + e2))) by apply Z.le_min_l.
      unfold s in L. clearbody e'. rewrite fexp_eq in *. lia.
Qed.

Lemma SFdiv_finite_spec m1 e1 m2 e2 :
  exists c z,
    rounds_to (F2Q m1 e1 / F2Q m2 e2) c z
    /\ float_of false z c
         (SFdiv prec emax (S754_finite false m1 e1) (S754_finite false m2 e2)).
Proof.
  cbn [SFdiv xorb].
  pose proof (div_core_spec (Zpos m1) e1 (Zpos m2) e2 ltac:(lia) ltac:(lia)) as H.
  destruct (SFdiv_core_binary prec emax (Zpos m1) e1 (Zpos m2) e2) as [[q e'] l].
  destruct H as (Hq & Hl & He).
  apply binary_round_aux_spec; try assumption.
  pose proof (F2Q_pos m1 e1). pose proof (F2Q_pos m2 e2).
  apply Qlt_shift_div_l; lra.
Qed.

(** Division is monotone in the dividend and antitone in the divisor. *)
Lemma SFdiv_finite_mono m1 e1 m2 e2 m1' e1' m2' e2' :
  (F2Q m1 e1 <= F2Q m1' e1')%Q -> (F2Q m2' e2' <= F2Q m2 e2)%Q ->
  SFleb (SFdiv prec emax (S754_finite false m1 e1) (S754_finite false m2 e2))
        (SFdiv prec emax (S754_finite false m1' e1') (S754_finite false m2' e2'))
  = true.
Proof.
  intros L1 L2.
  destruct (SFdiv_finite_spec m1 e1 m2 e2) as (c & z & R & F).
  destruct (SFdiv_finite_spec m1' e1' m2' e2') as (c' & z' & R' & F').
  refine (rounded_leb _ _ c z c' z' _ _ _ R F R' F').
  pose proof (F2Q_pos m1 e1). pose proof (F2Q_pos m2 e2).
  pose proof (F2Q_pos m1' e1'). pose proof (F2Q_pos m2' e2').
  apply Qle_shift_div_l; [assumption|].
  apply Qle_trans with (F2Q m1 e1 / F2Q m2 e2 * F2Q m2 e2)%Q.
  - apply Qmult_le_l; [|assumption].
    apply Qlt_shift_div_l; lra.
  - assert (F2Q m1 e1 / F2Q m2 e2 * F2Q m2 e2 == F2Q m1 e1)%Q
      by (field; lra).
    lra.
Qed.

(** ** Addition *)

Lemma iter_xO m d : Zpos (Pos.iter xO m d) = Zpos m * 2 ^ Zpos d.
Proof.
  induction d as [|d IH] using Pos.peano_ind.
  - simpl. lia.
  - rewrite Pos.iter_succ, Pos2Z.inj_xO, IH, Pos2Z.inj_succ, Z.pow_succ_r by lia.
    lia.
Qed.

Lemma shl_align_spec m e e' :
  let r := shl_align m e e' in
  snd r = Z.min e e' /\ Zpos (fst r) = Zpos m * 2 ^ (e - snd r).
Proof.
  unfold shl_align. destruct (e' - e) as [|d|d] eqn:E; cbn [fst snd].
  - split; [lia|]. rewrite Z.sub_diag. lia.
  - split; [lia|]. rewrite Z.sub_diag. lia.
  - split; [lia|]. rewrite iter_xO. f_equal. f_equal. lia.
Qed.

Lemma F2Q_shl m e e' m' :
  e' <= e -> Zpos m' = Zpos m * 2 ^ (e - e') -> (F2Q m' e' == F2Q m e)%Q.
Proof.
  intros L E. unfold F2Q. rewrite E, inject_Z_mult, inject_Z_pow2 by lia.
  rewrite <- Qmult_assoc, <- pow2_add.
  replace (e - e' + e') with e by lia. reflexivity.
Qed.

Lemma binary_round_spec m e :
  exists c z,
    rounds_to (F2Q m e) c z
    /\ float_of false z c (binary_round prec emax false m e).
Proof.
  unfold binary_round.
  change (Zpos (digits2_pos m)) with (Zdigits2 (Zpos m)).
  pose proof (shl_align_spec m e (fexp prec emax (Zdigits2 (Zpos m) + e)))
    as [S1 S2].
  destruct (shl_align m e _) as [mz ez]. cbn [fst snd] in *.
  assert (Le : ez <= e) by lia.
  apply binary_round_aux_spec.
  - apply F2Q_pos.
  - lia.
  - unfold at_scale. simpl located.
    rewrite <- (F2Q_shl m e ez mz Le S2). unfold F2Q.
    rewrite <- Qmult_assoc, pow2_opp_mul. ring.
  - destruct (Z.le_gt_cases e (fexp prec emax (Zdigits2 (Zpos m) + e))) as [L|L].
    + assert (ez = e) by lia. clear S1. subst ez.
      rewrite Z.sub_diag, Z.pow_0_r in S2.
      assert (mz = m) by lia. subst mz. assumption.
    + assert (Ez : ez = fexp prec emax (Zdigits2 (Zpos m) + e)) by lia.
      clear S1.
      enough (Zdigits2 (Zpos mz) + ez = Zdigits2 (Zpos m) + e) as -> by lia.
      pose proof (Zdigits2_bounds (Zpos m) ltac:(lia)) as [B1 B2].
      pose proof (Zdigits2_pos (Zpos m) ltac:(lia)).
      enough (Zdigits2 (Zpos mz) = Zdigits2 (Zpos m) + (e - ez)) by lia.
      apply Zdigits2_unique; [lia|]. rewrite S2.
      replace (Zdigits2 (Zpos m) + (e - ez) - 1)
        with ((Zdigits2 (Zpos m) - 1) + (e - ez)) by lia.
      rewrite !Z.pow_add_r by lia.
      assert (0 < 2 ^ (e - ez)) by (apply Z.pow_pos_nonneg; lia).
      nia.
Qed.

Lemma SFadd_finite_spec m1 e1 m2 e2 :
  exists c z,
    rounds_to (F2Q m1 e1 + F2Q m2 e2) c z
    /\ float_of false z c
         (SFadd prec emax (S754_finite false m1 e1) (S754_finite false m2 e2)).
Proof.
  cbn [SFadd cond_Zopp].
  pose proof (shl_align_spec m1 e1 (Z.min e1 e2)) as [A1 A2].
  pose proof (shl_align_spec m2 e2 (Z.min e1 e2)) as [B1 B2].
  destruct (shl_align m1 e1 (Z.min e1 e2)) as [a ea].
  destruct (shl_align m2 e2 (Z.min e1 e2)) as [b eb].
  cbn [fst snd] in *.
  change (Zpos a + Zpos b) with (Zpos (a + b)). cbn [binary_normalize].
  destruct (binary_round_spec (a + b) (Z.min e1 e2)) as (c & z & R & F).
  exists c, z. split; [|assumption].
  destruct R as (C & R). 
  assert (E : (F2Q (a + b) (Z.min e1 e2) == F2Q m1 e1 + F2Q m2 e2)%Q).
  { rewrite <- (F2Q_shl m1 e1 ea a ltac:(lia) A2).
    rewrite <- (F2Q_shl m2 e2 eb b ltac:(lia) B2).
    replace ea with (Z.min e1 e2) by lia. replace eb with (Z.min e1 e2) by lia.
    unfold F2Q. rewrite Pos2Z.inj_add, inject_Z_plus. ring. }
  split.
  - destruct C as [[-> H]|[Hc [M1 M2]]]; [left|right]; split; auto;
      try split; lra.
  - destruct R as (m & l & Hm & Hl & Hz). exists m, l.
    split; [assumption|]. split; [|assumption].
    unfold at_scale in *. refine (located_ext _ _ _ _ _ Hl).
    rewrite E. reflexivity.
Qed.

Lemma SFadd_finite_mono m1 e1 m2 e2 m1' e1' m2' e2' :
  (F2Q m1 e1 <= F2Q m1' e1')%Q -> (F2Q m2 e2 <= F2Q m2' e2')%Q ->
  SFleb (SFadd prec emax (S754_finite false m1 e1) (S754_finite false m2 e2))
        (SFadd prec emax (S754_finite false m1' e1') (S754_finite false m2' e2'))
  = true.
Proof.
  intros L1 L2.
  destruct (SFadd_finite_spec m1 e1 m2 e2) as (c & z & R & F).
  destruct (SFadd_finite_spec m1' e1' m2' e2') as (c' & z' & R' & F').
  refine (rounded_leb _ _ c z c' z' _ _ _ R F R' F'). lra.
Qed.

(** ** Non-negative floats *)

(** Zeros, positive finite floats in canonical form, and plus infinity. *)
Definition nonneg (f : spec_float) : Prop :=
  match f with
  | S754_zero _ => True
  | S754_infinity s => s = false
  | S754_finite s m e => s = false /\ bounded prec emax m e = true
  | S754_nan => False
  end.

Lemma nonneg_of_leb f :
  valid_binary f = true -> SFleb (S754_zero false) f = true -> nonneg f.
Proof. destruct f as [s|[]| |[] m e]; simpl; try discriminate; auto. Qed.

Lemma nonneg_of_one_leb m0 e0 f :
  valid_binary f = true -> SFleb (S754_finite false m0 e0) f = true ->
  nonneg f.
Proof. destruct f as [s|[]| |[] m e]; simpl; try discriminate; auto. Qed.

Lemma float_of_nonneg z c f : float_of false z c f -> nonneg f.
Proof.
  intros H. apply float_of_cases in H.
  destruct f as [s|s| |s m e]; simpl; tauto.
Qed.

Lemma SFleb_zero_nonneg s f : nonneg f -> SFleb (S754_zero s) f = true.
Proof.
  intros H. destruct f as [s'|[]| |[] m e]; simpl in *; try reflexivity;
    try contradiction; try discriminate; destruct H; discriminate.
Qed.

Lemma SFleb_nonneg_inf f : nonneg f -> SFleb f (S754_infinity false) = true.
Proof.
  intros H. destruct f as [s'|[]| |[] m e]; simpl in *; try reflexivity;
    try contradiction; try discriminate; destruct H; discriminate.
Qed.

Lemma SFleb_nonneg_refl f : nonneg f -> SFleb f f = true.
Proof.
  intros H. destruct f as [s'|[]| |[] m e]; simpl in H; try reflexivity;
    try contradiction; try discriminate; try (destruct H; discriminate).
  destruct H as [_ B]. apply SFleb_F2Q; try assumption. lra.
Qed.

(** A float in canonical form is the rounding of its own value. *)
Lemma rounded_self m e :
  binary_round prec emax false m e = S754_finite false m e ->
  exists c z,
    rounds_to (F2Q m e) c z /\ float_of false z c (S754_finite false m e).
Proof. intros E. rewrite <- E. apply binary_round_spec. Qed.

Section Monotone.

(** The divisor or summand that stays fixed: a positive float in canonical
    form that rounds to itself. *)
Variables (mk : positive) (ek : Z).
Hypothesis k_bounded : bounded prec emax mk ek = true.
Hypothesis k_round :
  binary_round prec emax false mk ek = S754_finite false mk ek.

Let K := S754_finite false mk ek.

Ltac nonneg_cases f H m e :=
  destruct f as [?|[]| |[] m e]; simpl in H;
  try contradiction; try discriminate H;
  try match type of H with
      | _ /\ _ => let A := fresh in destruct H as [A ?]; discriminate A
      end.

Lemma SFdiv_by_nonneg f : nonneg f -> nonneg (SFdiv prec emax f K).
Proof.
  intros H. nonneg_cases f H m e; try exact I; try reflexivity.
  destruct (SFdiv_finite_spec m e mk ek) as (c & z' & _ & F).
  apply (float_of_nonneg z' c). assumption.
Qed.

Lemma SFdiv_by_mono f g :
  nonneg f -> nonneg g -> SFleb f g = true ->
  SFleb (SFdiv prec emax f K) (SFdiv prec emax g K) = true.
Proof.
  intros Hf Hg L. pose proof (SFdiv_by_nonneg g Hg) as Ng.
  pose proof (SFdiv_by_nonneg f Hf) as Nf.
  nonneg_cases f Hf m e; nonneg_cases g Hg m' e'; try discriminate L;
    try (apply SFleb_zero_nonneg; assumption);
    try (apply SFleb_nonneg_inf; assumption).
  destruct Hf as [_ B], Hg as [_ B'].
  apply SFdiv_finite_mono; [|lra].
  apply SFleb_F2Q; assumption.
Qed.

Lemma SFadd_to_nonneg f : nonneg f -> nonneg (SFadd prec emax K f).
Proof.
  intros H. nonneg_cases f H m e; try reflexivity; try (simpl; auto; fail).
  destruct (SFadd_finite_spec mk ek m e) as (c & z' & _ & F).
  apply (float_of_nonneg z' c). assumption.
Qed.

Lemma SFadd_to_mono f g :
  nonneg f -> nonneg g -> SFleb f g = true ->
  SFleb (SFadd prec emax K f) (SFadd prec emax K g) = true.
Proof.
  intros Hf Hg L. pose proof (SFadd_to_nonneg g Hg) as Ng.
  pose proof (SFadd_to_nonneg f Hf) as Nf.
  nonneg_cases f Hf m e; nonneg_cases g Hg m' e'; try discriminate L;
    try (apply SFleb_nonneg_inf; assumption).
  - apply SFleb_nonneg_refl. assumption.
  - change (SFadd prec emax K (S754_zero s)) with K.
    destruct (rounded_self mk ek k_round) as (c & z' & R & F).
    destruct (SFadd_finite_spec mk ek m' e') as (c' & z'' & R' & F').
    refine (rounded_leb _ _ c z' c' z'' _ _ _ R F R' F').
    pose proof (F2Q_pos m' e'). lra.
  - destruct Hf as [_ B], Hg as [_ B'].
    apply SFadd_finite_mono; [lra|].
    apply SFleb_F2Q; assumption.
Qed.

(** Dividing [K] by a float that is at least some positive float. *)
Lemma SFdiv_of_nonneg m0 e0 f :
  nonneg f -> SFleb (S754_finite false m0 e0) f = true ->
  nonneg (SFdiv prec emax K f).
Proof.
  intros H L. nonneg_cases f H m e; try discriminate L; try exact I.
  destruct (SFdiv_finite_spec mk ek m e) as (c & z' & _ & F).
  apply (float_of_nonneg z' c). assumption.
Qed.

Lemma SFdiv_of_anti m0 e0 f g :
  nonneg f -> nonneg g ->
  SFleb (S754_finite false m0 e0) f = true -> SFleb f g = true ->
  SFleb (SFdiv prec emax K g) (SFdiv prec emax K f) = true.
Proof.
  intros Hf Hg L0 L.
  pose proof (SFdiv_of_nonneg m0 e0 f Hf L0) as Nf.
  nonneg_cases f Hf m e; nonneg_cases g Hg m' e'; try discriminate L;
    try discriminate L0;
    try (apply SFleb_zero_nonneg; assumption);
    try reflexivity.
  destruct Hf as [_ B], Hg as [_ B'].
  apply SFdiv_finite_mono; [lra|].
  apply SFleb_F2Q; assumption.
Qed.

End Monotone.

End Rounding.

(** ** The quotient [1 / (1 + gap/5)] in binary64 *)

Module Rebet.

Import Rounding.

Definition one_sf : spec_float := S754_finite false 4503599627370496 (-52).
Definition five_sf : spec_float := S754_finite false 5629499534213120 (-50).

Lemma Prim2SF_zero : Prim2SF 0 = S754_zero false.
Proof. vm_compute. reflexivity. Qed.

Lemma Prim2SF_one : Prim2SF 1 = one_sf.
Proof. vm_compute. reflexivity. Qed.

Lemma Prim2SF_five : Prim2SF 5 = five_sf.
Proof. vm_compute. reflexivity. Qed.

Lemma one_bounded : bounded prec emax 4503599627370496 (-52) = true.
Proof. vm_compute. reflexivity. Qed.

Lemma one_round :
  binary_round prec emax false 4503599627370496 (-52) = one_sf.
Proof. vm_compute. reflexivity. Qed.

Lemma five_round :
  binary_round prec emax false 5629499534213120 (-50) = five_sf.
Proof. vm_compute. reflexivity. Qed.

(** The value the code computes for a gap, when no division raises. *)
Definition rebet (gap : float) : float := (1 / (1 + gap / 5))%float.

Lemma Prim2SF_rebet gap :
  Prim2SF (rebet gap)
  = SFdiv prec emax one_sf
      (SFadd prec emax one_sf (SFdiv prec emax (Prim2SF gap) five_sf)).
Proof.
  unfold rebet. rewrite div_spec, add_spec, div_spec.
  rewrite Prim2SF_one, Prim2SF_five. reflexivity.
Qed.

Lemma Prim2SF_nonneg g :
  PrimFloat.leb 0 g = true -> nonneg (Prim2SF g).
Proof.
  rewrite FloatAxioms.leb_spec, Prim2SF_zero.
  apply nonneg_of_leb. apply Prim2SF_valid.
Qed.

Lemma fifth_nonneg g :
  nonneg (Prim2SF g) -> nonneg (SFdiv prec emax (Prim2SF g) five_sf).
Proof. apply (SFdiv_by_nonneg 5629499534213120 (-50)). Qed.

Lemma denominator_sf_ge_one y :
  nonneg y ->
  nonneg (SFadd prec emax one_sf y)
  /\ SFleb one_sf (SFadd prec emax one_sf y) = true.
Proof.
  intros Hy. split.
  - apply (SFadd_to_nonneg _ _ one_bounded). assumption.
  - change one_sf with (SFadd prec emax one_sf (S754_zero false)) at 1.
    apply (SFadd_to_mono _ _ one_bounded one_round); [exact I|assumption|].
    apply SFleb_zero_nonneg. assumption.
Qed.

(** For a gap that is at least 0, the denominator [1 + gap/5] is at least 1. *)
Lemma denominator_ge_one gap :
  PrimFloat.leb 0 gap = true ->
  PrimFloat.leb 1 (1 + gap / 5) = true.
Proof.
  intros H. rewrite FloatAxioms.leb_spec, add_spec, div_spec.
  rewrite Prim2SF_one, Prim2SF_five.
  apply denominator_sf_ge_one, fifth_nonneg, Prim2SF_nonneg, H.
Qed.

(** The quotient does not increase when the gap grows. *)
Lemma rebet_antitone g1 g2 :
  PrimFloat.leb 0 g1 = true -> PrimFloat.leb g1 g2 = true ->
  PrimFloat.leb (rebet g2) (rebet g1) = true.
Proof.
  intros H0 H12.
  pose proof (FloatOrder.leb_trans _ _ _ H0 H12) as H2.
  apply Prim2SF_nonneg in H0, H2.
  rewrite FloatAxioms.leb_spec in H12 |- *. rewrite !Prim2SF_rebet.
  pose proof (fifth_nonneg _ H0) as D1. pose proof (fifth_nonneg _ H2) as D2.
  destruct (denominator_sf_ge_one _ D1) as [A1 L1].
  destruct (denominator_sf_ge_one _ D2) as [A2 L2].
  apply (SFdiv_of_anti _ _ 4503599627370496 (-52)); try assumption.
  apply (SFadd_to_mono _ _ one_bounded one_round); try assumption.
  apply (SFdiv_by_mono 5629499534213120 (-50)); assumption.
Qed.


Lemma ltb_neq x y : PrimFloat.ltb x y = true -> PrimFloat.eqb y x = false.
Proof.
  rewrite FloatOrder.ltb_cmp, FloatAxioms.eqb_spec. unfold SFeqb. intros H.
  change (SFcompare (Prim2SF y) (Prim2SF x)) with (FloatOrder.cmp y x).
  rewrite (FloatOrder.cmp_antisym x y), H. reflexivity.
Qed.

(** On a gap that is at least 0 neither division raises. *)
Lemma immediate_rebet_pct_returns gap :
  PrimFloat.leb 0 gap = true ->
  PrimFloat.eqb (1 + gap / 5) 0 = false
  /\ immediate_rebet_pct gap = Return (rebet gap).
Proof.
  intros H.
  assert (E : PrimFloat.eqb (1 + gap / 5) 0 = false).
  { apply ltb_neq.
    apply (FloatOrder.ltb_leb_trans _ 1); [reflexivity|].
    apply denominator_ge_one, H. }
  split; [exact E|].
  unfold immediate_rebet_pct, float_truediv.
  change (PrimFloat.eqb 5 0) with false. cbn [pybind]. rewrite E. reflexivity.
Qed.

Definition DBL_MAX : float := 0x1.fffffffffffffp+1023%float.

Lemma Prim2SF_DBL_MAX :
  Prim2SF DBL_MAX = S754_finite false 9007199254740991 971.
Proof. vm_compute. reflexivity. Qed.

Lemma Prim2SF_infinity : Prim2SF infinity = S754_infinity false.
Proof. vm_compute. reflexivity. Qed.

(** Every finite float that is at least 0 is at most [DBL_MAX]. *)
Lemma finite_le_DBL_MAX x :
  PrimFloat.leb 0 x = true -> PrimFloat.ltb x infinity = true ->
  PrimFloat.leb x DBL_MAX = true.
Proof.
  intros H0 Hf. apply Prim2SF_nonneg in H0.
  rewrite FloatAxioms.ltb_spec, Prim2SF_infinity in Hf.
  rewrite FloatAxioms.leb_spec, Prim2SF_DBL_MAX.
  destruct (Prim2SF x) as [s|[]| |[] m e]; simpl in H0;
    try contradiction; try discriminate; try reflexivity;
    try (destruct H0; discriminate).
  destruct H0 as [_ B].
  pose proof (bounded_canonical m e B) as [_ Le].
  pose proof (bounded_lt_pow m e B) as [Lm _].
  change (2 ^ 53) with 9007199254740992 in Lm.
  assert (Lm' : Z.pos m <= Z.pos 9007199254740991) by lia.
  revert Lm'. generalize 9007199254740991%positive. intros M Lm'.
  unfold SFleb. cbn [SFcompare].
  destruct (Z.compare_spec e 971) as [E|L|G]; [|reflexivity|lia].
  change (Pos.compare_cont Eq m M) with (Pos.compare m M).
  destruct (Pos.compare_spec m M) as [E'|L'|G']; [reflexivity|reflexivity|].
  lia.
Qed.

End Rebet.

(** ** The intervention decision table *)

(** The three guarded rules of section 4.2 of the specification, in the
    order in which it lists them; the fourth rule is the default. *)
Definition rule_1 (risk_7day risk_30day : float) : bool :=
  Py.gt risk_7day 0.7 && Py.gt risk_30day 0.7.

Definition rule_2 (risk_7day risk_30day : float) : bool :=
  Py.lt risk_7day 0.4 && Py.gt risk_30day 0.6.

Definition rule_3 (risk_7day risk_30day : float) : bool :=
  (Py.le 0.4 risk_7day && Py.le risk_7day 0.7)
  || (Py.le 0.4 risk_30day && Py.le risk_30day 0.7).

Definition decision_table
  : list ((float -> float -> bool) * InterventionStrategy) :=
  [ (rule_1, IMMEDIATE_CRISIS); (rule_2, SLOW_BURN); (rule_3, MODERATE_RISK) ].

(** First match wins. *)
Fixpoint first_match (rules : list ((float -> float -> bool) * InterventionStrategy))
         (otherwise : InterventionStrategy) (risk_7day risk_30day : float)
  : InterventionStrategy :=
  match rules with
  | [] => otherwise
  | (guard, strategy) :: rest =>
      if guard risk_7day risk_30day then strategy
      else first_match rest otherwise risk_7day risk_30day
  end.

Lemma strategies_distinct :
  IMMEDIATE_CRISIS <> SLOW_BURN /\ IMMEDIATE_CRISIS <> MODERATE_RISK /\
  IMMEDIATE_CRISIS <> CONTROLLED /\ SLOW_BURN <> MODERATE_RISK /\
  SLOW_BURN <> CONTROLLED /\ MODERATE_RISK <> CONTROLLED.
Proof. repeat split; discriminate. Qed.

(** C1. For every pair of floats, [get_intervention_strategy] is the
    first-match evaluation of the four rules in their fixed order: the result
    is IMMEDIATE_CRISIS exactly when rule 1 holds, SLOW_BURN exactly when rule
    1 fails and rule 2 holds, MODERATE_RISK exactly when rules 1 and 2 fail
    and rule 3 holds, and CONTROLLED exactly when all three fail.  Each
    pattern carries its urgency; (0.75, 0.75), (0.2, 0.65), (0.5, 0.9) and
    (0.1, 0.1) give the four patterns in turn. *)
Theorem get_intervention_strategy_first_match :
  (forall r7 r30,
     get_intervention_strategy r7 r30
     = first_match decision_table CONTROLLED r7 r30)
  /\ (forall r7 r30,
        let s := get_intervention_strategy r7 r30 in
        (s = IMMEDIATE_CRISIS <-> rule_1 r7 r30 = true)
        /\ (s = SLOW_BURN <-> rule_1 r7 r30 = false /\ rule_2 r7 r30 = true)
        /\ (s = MODERATE_RISK <->
            rule_1 r7 r30 = false /\ rule_2 r7 r30 = false
            /\ rule_3 r7 r30 = true)
        /\ (s = CONTROLLED <->
            rule_1 r7 r30 = false /\ rule_2 r7 r30 = false
            /\ rule_3 r7 r30 = false))
  /\ (pattern IMMEDIATE_CRISIS = "IMMEDIATE_CRISIS"
      /\ urgency IMMEDIATE_CRISIS = "URGENT"
      /\ length (actions IMMEDIATE_CRISIS) = 4%nat)
  /\ (pattern SLOW_BURN = "SLOW_BURN" /\ urgency SLOW_BURN = "PREVENTIVE"
      /\ length (actions SLOW_BURN) = 4%nat)
  /\ (pattern MODERATE_RISK = "MODERATE_RISK"
      /\ urgency MODERATE_RISK = "MONITOR"
      /\ length (actions MODERATE_RISK) = 3%nat)
  /\ (pattern CONTROLLED = "CONTROLLED" /\ urgency CONTROLLED = "STANDARD"
      /\ length (actions CONTROLLED) = 2%nat)
  /\ get_intervention_strategy 0.75 0.75 = IMMEDIATE_CRISIS
  /\ get_intervention_strategy 0.2 0.65 = SLOW_BURN
  /\ get_intervention_strategy 0.5 0.9 = MODERATE_RISK
  /\ get_intervention_strategy 0.1 0.1 = CONTROLLED.
Proof.
  split; [reflexivity|].
  split.
  - intros r7 r30 s. subst s.
    pose proof strategies_distinct as (D1 & D2 & D3 & D4 & D5 & D6).
    unfold get_intervention_strategy.
    fold (rule_1 r7 r30) (rule_2 r7 r30) (rule_3 r7 r30).
    destruct (rule_1 r7 r30), (rule_2 r7 r30), (rule_3 r7 r30);
      repeat split; intros; try reflexivity; try congruence;
      repeat match goal with H : _ /\ _ |- _ => destruct H end;
      try discriminate; exfalso; eauto.
  - repeat split; vm_compute; reflexivity.
Qed.

(** C9. A 7-day score above 0.7 paired with a 30-day score below 0.4 falls
    through rules 1 to 3 and receives the CONTROLLED pattern with STANDARD
    urgency. *)
Theorem high_short_low_long_is_controlled (risk_7day risk_30day : float) :
  Py.gt risk_7day 0.7 = true ->
  Py.lt risk_30day 0.4 = true ->
  get_intervention_strategy risk_7day risk_30day = CONTROLLED
  /\ pattern (get_intervention_strategy risk_7day risk_30day) = "CONTROLLED"
  /\ urgency (get_intervention_strategy risk_7day risk_30day) = "STANDARD".
Proof.
  unfold Py.gt, Py.lt. intros H7 H30.
  assert (E : get_intervention_strategy risk_7day risk_30day = CONTROLLED).
  { unfold get_intervention_strategy, Py.gt, Py.lt, Py.le.
    assert (A1 : PrimFloat.ltb 0.7 risk_30day = false).
    { apply FloatOrder.ltb_not_ltb.
      apply (FloatOrder.ltb_trans _ _ _ H30). reflexivity. }
    assert (A2 : PrimFloat.ltb 0.6 risk_30day = false).
    { apply FloatOrder.ltb_not_ltb.
      apply (FloatOrder.ltb_trans _ _ _ H30). reflexivity. }
    assert (A3 : PrimFloat.leb risk_7day 0.7 = false)
      by (apply FloatOrder.ltb_not_leb; assumption).
    assert (A4 : PrimFloat.leb 0.4 risk_30day = false)
      by (apply FloatOrder.ltb_not_leb; assumption).
    rewrite H7, A1, A2, A3, A4. simpl.
    rewrite !andb_false_r. reflexivity. }
  rewrite E. repeat split.
Qed.

Lemma high_short_low_long_is_controlled_witness :
  get_intervention_strategy 0.8 0.3 = CONTROLLED
  /\ pattern (get_intervention_strategy 0.8 0.3) = "CONTROLLED"
  /\ urgency (get_intervention_strategy 0.8 0.3) = "STANDARD".
Proof.
  apply (high_short_low_long_is_controlled 0.8 0.3); reflexivity.
Defined.

(** ** The risk-level classifier *)

Lemma max_loop_In maxitem items :
  In (max_loop maxitem items) (maxitem :: items).
Proof.
  revert maxitem. induction items as [|item rest IH]; intros maxitem; simpl.
  - auto.
  - destruct (IH (if Py.gt item maxitem then item else maxitem)) as [E|E].
    + rewrite <- E. destruct (Py.gt item maxitem); auto.
    + auto.
Qed.

(** When no score is a NaN, [max] returns an upper bound of the scores. *)
Lemma max_loop_upper maxitem items :
  FloatOrder.is_number maxitem = true ->
  Forall (fun x => FloatOrder.is_number x = true) items ->
  forall x, In x (maxitem :: items) ->
            Py.le x (max_loop maxitem items) = true.
Proof.
  unfold Py.le. revert maxitem.
  induction items as [|item rest IH]; intros maxitem Hm Hall x Hx; simpl.
  - destruct Hx as [<-|[]]. apply FloatOrder.leb_refl, Hm.
  - inversion Hall as [|? ? Hi Hrest]; subst.
    set (m' := if Py.gt item maxitem then item else maxitem).
    assert (Hm' : FloatOrder.is_number m' = true)
      by (subst m'; destruct (Py.gt item maxitem); assumption).
    assert (Hle : PrimFloat.leb maxitem m' = true
                  /\ PrimFloat.leb item m' = true).
    { subst m'. unfold Py.gt. destruct (PrimFloat.ltb maxitem item) eqn:E.
      - split; [apply FloatOrder.ltb_leb, E | apply FloatOrder.leb_refl, Hi].
      - split; [apply FloatOrder.leb_refl, Hm
               | apply FloatOrder.not_ltb_leb; assumption]. }
    destruct Hle as [Hle1 Hle2].
    pose proof (IH m' Hm' Hrest) as IH'.
    destruct Hx as [<-|[<-|Hx]].
    + apply (FloatOrder.leb_trans _ m'); [assumption | apply IH'; left; reflexivity].
    + apply (FloatOrder.leb_trans _ m'); [assumption | apply IH'; left; reflexivity].
    + apply IH'. right. assumption.
Qed.

(** The thresholds applied to the maximum score. *)
Definition level_of_max (m : float) : string :=
  if Py.gt m 0.7 then "HIGH"
  else if Py.gt m 0.4 && Py.le m 0.7 then "MEDIUM"
  else "LOW".

Lemma level_of_max_cases m :
  (if Py.gt m 0.7 then "HIGH" else if Py.gt m 0.4 then "MEDIUM" else "LOW")
  = level_of_max m.
Proof.
  unfold level_of_max, Py.gt, Py.le.
  destruct (PrimFloat.ltb 0.7 m) eqn:E7; [reflexivity|].
  destruct (PrimFloat.ltb 0.4 m) eqn:E4; [|reflexivity].
  rewrite FloatOrder.not_ltb_leb; auto.
  apply (FloatOrder.ltb_is_number _ _ E4).
Qed.

(** C2. For every non-empty score set, [max] returns one of the scores, [m],
    and [get_risk_level] returns HIGH when [m > 0.7], MEDIUM when
    [0.4 < m <= 0.7] and LOW otherwise; it never returns CRITICAL, a maximum
    of exactly 0.4 gives LOW, and when no score is a NaN [m] is at least
    every score.  The three score sets of the specification give HIGH,
    MEDIUM and LOW. *)
Theorem get_risk_level_thresholds (risk_scores : list (string * float)) :
  risk_scores <> [] ->
  exists m,
    py_max (dict_values risk_scores) = Return m
    /\ In m (dict_values risk_scores)
    /\ (Forall (fun x => FloatOrder.is_number x = true) (dict_values risk_scores) ->
        forall x, In x (dict_values risk_scores) -> Py.le x m = true)
    /\ get_risk_level risk_scores = Return (level_of_max m)
    /\ get_risk_level risk_scores <> Return (RiskLevel_value CRITICAL)
    /\ (m = 0.4%float -> get_risk_level risk_scores = Return "LOW")
    /\ get_risk_level [("7_day", 0.71%float); ("30_day", 0.0%float)]
       = Return "HIGH"
    /\ get_risk_level [("7_day", 0.41%float); ("30_day", 0.3%float)]
       = Return "MEDIUM"
    /\ get_risk_level [("7_day", 0.4%float); ("30_day", 0.39%float)]
       = Return "LOW".
Proof.
  intros Hne. destruct risk_scores as [|[k v] rest]; [congruence|].
  exists (max_loop v (dict_values rest)).
  assert (E : get_risk_level ((k, v) :: rest)
              = Return (level_of_max (max_loop v (dict_values rest)))).
  { unfold get_risk_level. simpl.
    rewrite <- level_of_max_cases.
    destruct (Py.gt _ 0.7); [reflexivity|].
    destruct (Py.gt _ 0.4); reflexivity. }
  split; [reflexivity|].
  split; [apply (max_loop_In v (dict_values rest))|].
  split.
  { intros Hall x Hx. simpl in Hall. inversion Hall; subst.
    apply max_loop_upper; assumption. }
  split; [exact E|].
  split.
  { rewrite E. unfold level_of_max.
    destruct (Py.gt _ 0.7); [discriminate|].
    destruct (_ && _); discriminate. }
  split.
  { intros Hm. rewrite E, Hm. reflexivity. }
  repeat split; vm_compute; reflexivity.
Qed.

Lemma get_risk_level_thresholds_witness :
  exists m,
    py_max (dict_values [("7_day", 0.432%float); ("30_day", 0.389%float)])
    = Return m
    /\ In m (dict_values [("7_day", 0.432%float); ("30_day", 0.389%float)])
    /\ get_risk_level [("7_day", 0.432%float); ("30_day", 0.389%float)]
       = Return (level_of_max m).
Proof.
  destruct (get_risk_level_thresholds
              [("7_day", 0.432%float); ("30_day", 0.389%float)])
    as (m & H1 & H2 & _ & H4 & _).
  - discriminate.
  - exists m. auto.
Defined.

(** C10. [get_risk_level] needs a non-empty score set: on the empty mapping
    the maximum of no values raises [ValueError] and no level is returned,
    and no guard precedes it -- the empty mapping is the only input on
    which the operation raises. *)
Theorem get_risk_level_empty_raises :
  get_risk_level [] = Raise ValueError
  /\ (forall level, get_risk_level [] <> Return level)
  /\ (forall risk_scores e,
        get_risk_level risk_scores = Raise e <-> risk_scores = [] /\ e = ValueError).
Proof.
  split; [reflexivity|]. split; [discriminate|].
  intros risk_scores e. split.
  - destruct risk_scores as [|[k v] rest]; unfold get_risk_level; simpl.
    + intros H. injection H as <-. auto.
    + destruct (Py.gt _ 0.7); [discriminate|].
      destruct (Py.gt _ 0.4); discriminate.
  - intros [-> ->]. reflexivity.
Qed.

(** ** A concrete generator

    To run the engine, the NumPy interface is instantiated with a generator
    whose state records the last seed and the number of variates drawn since;
    the variate drawn in state [(k, n)] is 0.25 when [k + n] is even and 0.75
    otherwise, and a row hashes to its length. *)
Definition counting_variate (g : Z * nat) : float :=
  if Z.even (fst g + Z.of_nat (snd g)) then 0.25%float else 0.75%float.

Definition counting_numpy : NumPy := {|
  RandomState := Z * nat;
  np_random_seed := fun k => (k, O);
  np_random_beta := fun _ _ g => (counting_variate g, (fst g, S (snd g)));
  hash_str := fun row => Z.of_nat (length row)
|}.

(** ** [np.array] *)

Lemma np_array_row (row : list pyval) :
  np_array [row] = [map (astype (result_type row)) row].
Proof. unfold np_array. simpl. rewrite app_nil_r. reflexivity. Qed.

Lemma discover_dtype_int (n : Z) :
  (- 2 ^ 63 <= n < 2 ^ 64
   /\ (discover_dtype (PyInt n) = int64 \/ discover_dtype (PyInt n) = uint64))
  \/ (~ - 2 ^ 63 <= n < 2 ^ 64 /\ discover_dtype (PyInt n) = object).
Proof.
  unfold discover_dtype.
  destruct (Z.leb_spec (- 2 ^ 63) n), (Z.ltb_spec n (2 ^ 63)),
    (Z.leb_spec 0 n), (Z.ltb_spec n (2 ^ 64)); cbn [andb];
    first [ left; split; [lia|]; (left; reflexivity) || (right; reflexivity)
          | right; split; [lia|reflexivity] ].
Qed.

(** ** The feature extractor *)

Lemma fold_insert_lookup_None (kvs : list (string * pyval))
      (acc : gmap string pyval) (k : string) :
  fold_left (fun m kv => <[kv.1 := kv.2]> m) kvs acc !! k = None
  <-> acc !! k = None /\ ~ In k (map fst kvs).
Proof.
  revert acc. induction kvs as [|[k' v'] rest IH]; intros acc; simpl.
  - tauto.
  - rewrite IH, lookup_insert_None. tauto.
Qed.

Lemma dict_display_lookup_None (kvs : list (string * pyval)) (k : string) :
  dict_display kvs !! k = None <-> ~ In k (map fst kvs).
Proof.
  unfold dict_display. rewrite fold_insert_lookup_None, lookup_empty. tauto.
Qed.

(** The keys of [features] are the fourteen configured names. *)
Lemma features_dict_keys {numpy : NumPy} behavior_data features f :
  features_dict behavior_data = Return features ->
  (features !! f = None <-> ~ In f (feature_names (RiskEngine_init None))).
Proof.
  unfold features_dict.
  destruct (int_truediv _ _) as [bpd|e]; [|discriminate]. simpl.
  destruct (immediate_rebet_pct _) as [pct|e]; [|discriminate]. simpl.
  intros E. injection E as <-. apply dict_display_lookup_None.
Qed.

(** The derivation table of section 4.1 of the specification: the fourteen
    slots in order, given the two quotients. *)
Definition feature_table (b : UserBehaviorSummary)
           (bets_per_day immediate_rebet : float) : list pyval :=
  [ PyInt (total_bets b);                      (* bet_count *)
    PyFloat (avg_bet_amount b);                (* avg_bet *)
    PyFloat (avg_bet_amount b * 0.5)%float;    (* std_bet *)
    PyFloat (loss_rate b);                     (* loss_rate *)
    PyFloat (total_loss_amount b);             (* total_loss *)
    PyInt (betting_days b);                    (* unique_days *)
    PyFloat bets_per_day;                      (* bets_per_day *)
    PyFloat (median_loss_gap_minutes b);       (* loss_gaps *)
    PyFloat immediate_rebet;                   (* immediate_rebet_pct *)
    PyInt (betting_days b * 2);                (* session_count *)
    PyInt 45;                                  (* session_avg_duration *)
    PyFloat (session_variance b);              (* session_duration_cv *)
    PyInt (total_deposits b);                  (* deposit_count *)
    PyFloat (avg_deposit b) ].                 (* avg_deposit *)

(** C8. A configured feature name that the computed mapping does not hold
    does not make the extraction fail: the matrix is returned with one slot
    per configured name and 0 in the slot of that name, stored as the array
    stores its numbers (the float 0.0 in a float64 array, the integer 0 in
    an integer or object array).  The names the mapping holds are exactly the
    fourteen of [__init__]. *)
Theorem unknown_feature_defaults_to_zero {numpy : NumPy}
        (self : RiskEngine) (b : UserBehaviorSummary)
        (features : gmap string pyval) (i : nat) (f : string) :
  features_dict b = Return features ->
  nth_error (feature_names self) i = Some f ->
  features !! f = None ->
  ~ In f (feature_names (RiskEngine_init None))
  /\ exists row,
       prepare_features self b = Return [row]
       /\ length row = length (feature_names self)
       /\ nth_error row i
          = Some (match result_type
                          (map (fun f => dict_get features f (PyInt 0))
                               (feature_names self)) with
                  | float64 => PyFloat 0
                  | _ => PyInt 0
                  end).
Proof.
  intros Hd Hi Hf. split.
  - apply (features_dict_keys b features f Hd), Hf.
  - unfold prepare_features. rewrite Hd. cbn [pybind]. rewrite np_array_row.
    eexists. split; [reflexivity|].
    split; [rewrite !length_map; reflexivity|].
    rewrite !nth_error_map, Hi. simpl. unfold dict_get. rewrite Hf.
    destruct (result_type _); reflexivity.
Qed.

Lemma unknown_feature_defaults_to_zero_witness :
  exists row,
    prepare_features (numpy := counting_numpy)
      {| models := []; feature_names := ["early_bet_count"; "early_streak"] |}
      demo_12345
    = Return [row]
    /\ nth_error row 1 = Some (PyInt 0).
Proof.
  assert (E : exists features, features_dict demo_12345 = Return features).
  { unfold features_dict.
    replace (int_truediv (total_bets demo_12345)
                         (Z.max (betting_days demo_12345) 1))
      with (Return 20.5%float) by (vm_compute; reflexivity).
    replace (immediate_rebet_pct (median_loss_gap_minutes demo_12345))
      with (Return (1 / (1 + 2.3 / 5))%float) by (vm_compute; reflexivity).
    cbn [pybind]. eexists. reflexivity. }
  destruct E as [features E].
  destruct (unknown_feature_defaults_to_zero (numpy := counting_numpy)
              {| models := []; feature_names := ["early_bet_count"; "early_streak"] |}
              demo_12345 features 1 "early_streak" E eq_refl)
    as (_ & row & H1 & _ & _).
  - apply (features_dict_keys (numpy := counting_numpy) demo_12345 features _ E).
    vm_compute. intuition discriminate.
  - exists row. split; [exact H1|].
    assert (R : row = [PyInt 287; PyInt 0]).
    { pose proof H1 as H. vm_compute in H. injection H as <-. reflexivity. }
    rewrite R. reflexivity.
Defined.

(** ** The risk-factor rules *)

(** The five rules of section 4.2 of the specification, in its order. *)
Definition risk_factor_rules : list ((UserBehaviorSummary -> bool) * string) :=
  [ (fun b => Py.lt (median_loss_gap_minutes b) 5,
     "Immediate loss chasing behavior");
    (fun b => total_deposits b >? 20, "High deposit frequency");
    (fun b => Py.gt (late_night_percentage b) 0.4,
     "Excessive late-night gambling");
    (fun b => Py.gt (session_variance b) 2, "Erratic session patterns");
    (fun b => Py.gt (loss_rate b) 0.8, "Very high loss rate") ].

(** The factor strings of the rules that hold, in rule order. *)
Definition triggered (b : UserBehaviorSummary) : list string :=
  map snd (List.filter (fun rule => fst rule b) risk_factor_rules).

Lemma identify_risk_factors_triggered b :
  identify_risk_factors b = triggered b.
Proof.
  unfold identify_risk_factors, triggered, risk_factor_rules. simpl.
  destruct (Py.lt (median_loss_gap_minutes b) 5),
           (total_deposits b >? 20),
           (Py.gt (late_night_percentage b) 0.4),
           (Py.gt (session_variance b) 2),
           (Py.gt (loss_rate b) 0.8); reflexivity.
Qed.

Lemma predict_risk_returns {numpy : NumPy} self b g scores factors g' :
  predict_risk self b g = (Return (scores, factors), g') ->
  exists X g0,
    prepare_features self b = Return X
    /\ score_windows (models self) X [] g0 = (Return scores, g')
    /\ g0 = g
    /\ factors = identify_risk_factors b.
Proof.
  unfold predict_risk, np_bind, np_lift, np_ret.
  destruct (prepare_features self b) as [X|e]; [|discriminate].
  destruct (score_windows (models self) X [] g) as [[sc|e] g1] eqn:E;
    [|discriminate].
  intros H. injection H as <- <- <-. exists X, g. auto.
Qed.

(** The fallback model on a matrix with first row [row]: the probability
    and the generator state it leaves depend on [row] alone. *)
Definition mock_draw {numpy : NumPy} (row : list pyval) : float * RandomState :=
  np_random_beta 2 2 (np_random_seed (hash_str row mod 100)).

Lemma MockModel_predict_proba_row {numpy : NumPy} row rest g :
  MockModel_predict_proba (row :: rest) g
  = (Return [[(1 - fst (mock_draw row))%float; fst (mock_draw row)]],
     snd (mock_draw row)).
Proof.
  unfold MockModel_predict_proba, np_bind, np_lift, mock_draw. simpl.
  destruct (np_random_beta _ _ _). reflexivity.
Qed.

(** With the fallback models both windows receive the same score. *)
Lemma mock_predict_risk {numpy : NumPy} b row rest g :
  prepare_features (RiskEngine_init None) b = Return (row :: rest) ->
  predict_risk (RiskEngine_init None) b g
  = (Return ([("7_day", fst (mock_draw row)); ("30_day", fst (mock_draw row))],
             identify_risk_factors b),
     snd (mock_draw row)).
Proof.
  intros E. unfold predict_risk, np_bind at 1, np_lift at 1. rewrite E.
  cbn [RiskEngine_init models _load_models _create_mock_models score_windows
       model predict_proba MockModel].
  unfold np_bind at 1 2. rewrite MockModel_predict_proba_row.
  unfold np_bind at 1, np_lift at 1. cbn [getitem2 getitem nth_error pybind].
  unfold np_bind at 1. rewrite MockModel_predict_proba_row.
  reflexivity.
Qed.

(** C3. The risk factors [predict_risk] returns are the strings of the five
    rules that hold of the raw summary, in rule order: each string is present
    exactly when its predicate holds, whatever the other rules do.  The
    behavior of the specification (gap 2.3, 23 deposits, late-night share
    0.45, session variance 3.2, loss rate 0.82, 14 betting days, 287 bets)
    triggers all five, for any values of its three other fields. *)
Theorem predict_risk_factors :
  (forall b, identify_risk_factors b = triggered b)
  /\ (forall (numpy : NumPy) self b g scores factors g',
        predict_risk self b g = (Return (scores, factors), g') ->
        factors = triggered b)
  /\ (forall b,
        let fs := triggered b in
        (In "Immediate loss chasing behavior" fs
         <-> Py.lt (median_loss_gap_minutes b) 5 = true)
        /\ (In "High deposit frequency" fs <-> total_deposits b > 20)
        /\ (In "Excessive late-night gambling" fs
            <-> Py.gt (late_night_percentage b) 0.4 = true)
        /\ (In "Erratic session patterns" fs
            <-> Py.gt (session_variance b) 2 = true)
        /\ (In "Very high loss rate" fs <-> Py.gt (loss_rate b) 0.8 = true))
  /\ (forall (numpy : NumPy) g avg_bet avg_dep total_loss,
        exists scores g',
          predict_risk (RiskEngine_init None)
            {| total_bets := 287; avg_bet_amount := avg_bet;
               total_deposits := 23; avg_deposit := avg_dep;
               loss_rate := 0.82; median_loss_gap_minutes := 2.3;
               late_night_percentage := 0.45; session_variance := 3.2;
               total_loss_amount := total_loss; betting_days := 14 |} g
          = (Return (scores,
                     [ "Immediate loss chasing behavior";
                       "High deposit frequency";
                       "Excessive late-night gambling";
                       "Erratic session patterns";
                       "Very high loss rate" ]), g')).
Proof.
  split; [exact identify_risk_factors_triggered|]. split; [|split].
  - intros numpy self b g scores factors g' H.
    destruct (predict_risk_returns _ _ _ _ _ _ H) as (X & g0 & _ & _ & _ & ->).
    apply identify_risk_factors_triggered.
  - intros b fs. subst fs. unfold triggered, risk_factor_rules. simpl.
    destruct (Py.lt (median_loss_gap_minutes b) 5),
             (Z.gtb_spec (total_deposits b) 20),
             (Py.gt (late_night_percentage b) 0.4),
             (Py.gt (session_variance b) 2),
             (Py.gt (loss_rate b) 0.8); simpl;
      repeat split; intros; try reflexivity; try lia; auto 10;
      repeat match goal with H : _ \/ _ |- _ => destruct H end;
      try discriminate; try contradiction; try lia.
  - intros numpy g avg_bet avg_dep total_loss.
    match goal with |- context [predict_risk ?e ?b] =>
      destruct (prepare_features e b) as [[|row rest]|e'] eqn:E;
        [vm_compute in E; discriminate E | | vm_compute in E; discriminate E];
      rewrite (mock_predict_risk b row rest g E)
    end.
    eexists _, _. reflexivity.
Qed.

(** ** The fallback probability model *)

(** C7, as the code has it.  The probability the fallback model returns is a
    function of its input alone: whatever state the process-wide generator is
    in, the call seeds it with [hash(str(X[0])) % 100], a seed in [0, 100),
    and returns the first beta(2, 2) variate drawn after that.  The engine
    puts no bound of its own on it: the probability lies in [0, 1] provided
    the first beta(2, 2) variate NumPy draws after seeding with 0, ..., 99
    does.  The call is not free of effects: it leaves the process-wide
    generator in the state that follows this draw, whatever state other
    callers had put it in. *)
Theorem mock_model_function_of_input {numpy : NumPy} :
  (forall X g1 g2,
     fst (predict_proba MockModel X g1) = fst (predict_proba MockModel X g2))
  /\ (forall row rest g,
        exists p,
          predict_proba MockModel (row :: rest) g
          = (Return [[(1 - p)%float; p]],
             snd (np_random_beta 2 2 (np_random_seed (hash_str row mod 100))))
          /\ p = fst (np_random_beta 2 2 (np_random_seed (hash_str row mod 100)))
          /\ 0 <= hash_str row mod 100 < 100
          /\ getitem2 [[(1 - p)%float; p]] 0 1 = Return p
          /\ ((forall seed,
                 0 <= seed < 100 ->
                 Py.le 0 (fst (np_random_beta 2 2 (np_random_seed seed))) = true
                 /\ Py.le (fst (np_random_beta 2 2 (np_random_seed seed))) 1
                    = true) ->
              Py.le 0 p = true /\ Py.le p 1 = true))
  /\ (forall row rest g1 g2,
        snd (predict_proba MockModel (row :: rest) g1)
        = snd (predict_proba MockModel (row :: rest) g2)).
Proof.
  split; [|split].
  - intros [|row rest] g1 g2; [reflexivity|].
    simpl. rewrite !MockModel_predict_proba_row. reflexivity.
  - intros row rest g. exists (fst (mock_draw row)).
    simpl. rewrite MockModel_predict_proba_row.
    assert (S : 0 <= hash_str row mod 100 < 100)
      by (apply Z.mod_pos_bound; lia).
    split; [reflexivity|]. split; [reflexivity|].
    split; [exact S|]. split; [reflexivity|].
    intros beta_range. apply (beta_range _ S).
  - intros row rest g1 g2. simpl.
    rewrite !MockModel_predict_proba_row. reflexivity.
Qed.

Lemma mock_model_function_of_input_witness :
  exists p,
    fst (predict_proba (MockModel (numpy := counting_numpy))
           [[PyFloat 287]] (7, 3%nat))
    = Return [[(1 - p)%float; p]]
    /\ Py.le 0 p = true /\ Py.le p 1 = true.
Proof.
  destruct (proj1 (proj2 (mock_model_function_of_input
                            (numpy := counting_numpy)))
              [PyFloat 287] [] (7, 3%nat))
    as (p & E & _ & _ & _ & R).
  exists p. split; [rewrite E; reflexivity|].
  apply R. intros seed _. unfold counting_numpy, counting_variate. simpl.
  destruct (Z.even _); split; reflexivity.
Defined.

(** C7, as the specification has it, fails: the fallback model's call is
    observable by another user of the process-wide generator.  A caller who
    seeds the generator with 7 draws 0.75 next; with a call of the fallback
    model in between, the same draw gives 0.25. *)
Lemma mock_model_call_is_observable :
  let g := np_random_seed (NumPy := counting_numpy) 7 in
  let X := [[PyInt 287]] in
  fst (np_random_beta 2 2 g) = 0.75%float
  /\ fst (np_random_beta 2 2 (snd (predict_proba MockModel X g))) = 0.25%float
  /\ snd (predict_proba MockModel X g) = (1, 1%nat)
  /\ g = (7, 0%nat).
Proof. vm_compute. repeat split. Qed.

(** ** [immediate_rebet_pct] as a function of the gap *)

(** C5, as the code has it.  For a gap that is at least 0 both divisions are
    defined and the feature is [1 / (1 + gap/5)] in binary64.  It never
    increases when the gap grows, lies in (0, 1] for every finite gap and is
    exactly 1.0 at gap 0 (0.0 at an infinite gap). *)
Theorem immediate_rebet_pct_non_increasing :
  (forall gap,
     Py.ge gap 0 = true ->
     immediate_rebet_pct gap = Return (1 / (1 + gap / 5))%float)
  /\ (forall gap1 gap2,
        Py.ge gap1 0 = true -> Py.le gap1 gap2 = true ->
        Py.le (1 / (1 + gap2 / 5)) (1 / (1 + gap1 / 5)) = true)
  /\ (forall gap,
        Py.ge gap 0 = true -> Py.lt gap infinity = true ->
        Py.lt 0 (1 / (1 + gap / 5)) = true
        /\ Py.le (1 / (1 + gap / 5)) 1 = true)
  /\ immediate_rebet_pct 0 = Return 1%float
  /\ immediate_rebet_pct infinity = Return 0%float.
Proof.
  unfold Py.ge, Py.le, Py.lt.
  split; [|split; [|split; [|split]]].
  - intros gap H. apply (Rebet.immediate_rebet_pct_returns gap H).
  - intros gap1 gap2 H0 H12. apply (Rebet.rebet_antitone gap1 gap2 H0 H12).
  - intros gap H0 Hf. split.
    + apply (FloatOrder.ltb_leb_trans _ (Rebet.rebet Rebet.DBL_MAX)).
      * vm_compute. reflexivity.
      * apply Rebet.rebet_antitone; [assumption|].
        apply Rebet.finite_le_DBL_MAX; assumption.
    + change 1%float with (Rebet.rebet 0) at 3.
      apply Rebet.rebet_antitone; [reflexivity|assumption].
  - vm_compute. reflexivity.
  - vm_compute. reflexivity.
Qed.

(** C5, as the specification has it, fails: the feature is not strictly
    decreasing.  The gap 2.3 of demo user 12345 and the next binary64 number
    above it give the same value, and so do the gaps 0 and 1e-17.  The
    infinite gap, which is at least 0, gives 0, outside (0, 1]. *)
Lemma immediate_rebet_pct_plateau :
  Py.lt 2.3 2.3000000000000003 = true
  /\ immediate_rebet_pct 2.3 = immediate_rebet_pct 2.3000000000000003
  /\ immediate_rebet_pct 2.3 = Return 0.68493150684931503%float
  /\ Py.lt 0 1e-17 = true
  /\ immediate_rebet_pct 0 = Return 1%float
  /\ immediate_rebet_pct 1e-17 = Return 1%float
  /\ Py.ge infinity 0 = true
  /\ immediate_rebet_pct infinity = Return 0%float
  /\ Py.lt 0 0 = false.
Proof. vm_compute. repeat split. Qed.

(** ** [predict_risk] does not raise *)

Section TrueDivision.
Import Rounding.

(** The least quotient that rounds out of the binary64 range: half an ulp
    above the largest float. *)
Definition overflow_threshold : Z := 2 ^ 1024 - 2 ^ 970.

Lemma overflow_threshold_eq :
  (inject_Z overflow_threshold
   == (inject_Z (2 ^ 53 - 1) + (1 # 2)) * pow2 971)%Q.
Proof.
  rewrite pow2_Z by lia. unfold overflow_threshold.
  vm_compute. reflexivity.
Qed.

(** A positive real below the threshold rounds to a finite value. *)
Lemma rounds_to_below_overflow X c z :
  (X < inject_Z overflow_threshold)%Q -> rounds_to X c z ->
  (inject_Z z * pow2 c < pow2 1024)%Q.
Proof.
  intros HX R. pose proof (rounds_to_range X c z R) as [Z0 Z1].
  assert (Zq : (inject_Z z <= pow2 53)%Q)
    by (rewrite <- inject_Z_pow2 by lia; rewrite <- Zle_Qle; assumption).
  pose proof (pow2_pos c) as Pc.
  assert (Small : c <= 970 -> (inject_Z z * pow2 c < pow2 1024)%Q).
  { intros Hc. apply Qle_lt_trans with (pow2 53 * pow2 c)%Q.
    - apply Qmult_le_compat_r; lra.
    - rewrite <- pow2_add. apply pow2_lt. lia. }
  destruct (Z.le_gt_cases c 970) as [Hc|Hc]; [auto|].
  destruct R as (C & m & l & Hm & Hl & ->).
  assert (c = 971).
  { destruct C as [[-> _]|[_ [M _]]]; [lia|].
    assert (inject_Z overflow_threshold < pow2 1024)%Q.
    { rewrite pow2_Z by lia. rewrite <- Zlt_Qlt. vm_compute. reflexivity. }
    assert (pow2 (c + 53 - 1) < pow2 1024)%Q by lra.
    apply pow2_lt_inv in H0. lia. }
  subst c. clear Small Hc C.
  rewrite overflow_threshold_eq in HX. apply scale_lt in HX.
  unfold at_scale in Hl. set (x := (X * pow2 (Z.opp 971))%Q) in *. clearbody x.
  assert (Le : round_nearest_even m l <= 2 ^ 53 - 1).
  { pose proof (located_bounds m l x Hl) as [B1 B2].
    pose proof (round_nearest_even_bounds m l).
    destruct (Z.lt_trichotomy m (2 ^ 53 - 1)) as [L|[E|G]]; [lia| |exfalso].
    - subst m. destruct l as [|[]]; simpl in *; try lia; exfalso; lra.
    - assert (inject_Z (2 ^ 53 - 1 + 1) <= inject_Z m)%Q
        by (rewrite <- Zle_Qle; lia).
      rewrite inject_Z_plus in H0. change (inject_Z 1) with 1%Q in H0. lra. }
  apply Qle_lt_trans with (inject_Z (2 ^ 53 - 1) * pow2 971)%Q.
  - apply Qmult_le_compat_r; [|lra]. rewrite <- Zle_Qle. assumption.
  - rewrite !pow2_Z by lia. rewrite <- inject_Z_mult, <- Zlt_Qlt.
    vm_compute. reflexivity.
Qed.

(** A quotient of non-negative integers below the threshold is a float: the
    division raises neither [ZeroDivisionError] nor [OverflowError]. *)
Lemma int_truediv_returns a b :
  0 <= a -> 0 < b -> a < overflow_threshold * b ->
  exists q, int_truediv a b = Return q.
Proof.
  intros Ha Hb Hab. unfold int_truediv.
  destruct (Z.eqb_spec b 0) as [|_]; [lia|].
  destruct (Z.eqb_spec a 0) as [|Na]; [eexists; reflexivity|].
  replace (a <? 0) with false by (symmetry; apply Z.ltb_ge; lia).
  replace (b <? 0) with false by (symmetry; apply Z.ltb_ge; lia).
  cbn [xorb]. rewrite !Z.abs_eq by lia.
  pose proof (div_core_spec a 0 b 0 ltac:(lia) ltac:(lia)) as H.
  destruct (SFdiv_core_binary prec emax a 0 b 0) as [[q e] l].
  destruct H as (Hq & Hl & He).
  assert (A : (0 < inject_Z a)%Q)
    by (change 0%Q with (inject_Z 0); rewrite <- Zlt_Qlt; lia).
  assert (B : (0 < inject_Z b)%Q)
    by (change 0%Q with (inject_Z 0); rewrite <- Zlt_Qlt; lia).
  assert (P0 : (pow2 0 == 1)%Q) by reflexivity.
  assert (B' : (0 < inject_Z b * pow2 0)%Q) by (rewrite P0; lra).
  assert (X0 : (0 < inject_Z a * pow2 0 / (inject_Z b * pow2 0))%Q).
  { apply Qlt_shift_div_l; [assumption|]. rewrite P0. lra. }
  destruct (binary_round_aux_spec false q e l _ X0 Hq Hl He)
    as (c & z & R & F).
  assert (L : (inject_Z a * pow2 0 / (inject_Z b * pow2 0)
               < inject_Z overflow_threshold)%Q).
  { apply Qlt_shift_div_r; [assumption|].
    rewrite P0. rewrite !Qmult_1_r, <- inject_Z_mult, <- Zlt_Qlt. assumption. }
  pose proof (rounds_to_below_overflow _ c z L R) as Lt.
  apply float_of_cases in F.
  destruct (binary_round_aux prec emax false q e l) as [s|s| |s m' e'].
  - eexists. reflexivity.
  - exfalso. destruct F as [_ F]. lra.
  - contradiction.
  - eexists. reflexivity.
Qed.

(** From the threshold on, rounding leaves the range. *)
Lemma rounds_to_overflow X c z :
  (inject_Z overflow_threshold <= X)%Q -> rounds_to X c z ->
  (pow2 1024 <= inject_Z z * pow2 c)%Q.
Proof.
  intros HX R.
  assert (T : (pow2 1023 < inject_Z overflow_threshold)%Q).
  { rewrite pow2_Z by lia. rewrite <- Zlt_Qlt. vm_compute. reflexivity. }
  pose proof (pow2_pos c) as Pc.
  assert (Hc : 971 <= c).
  { destruct R as [[[-> H]|[Hc [_ M]]] _].
    - exfalso. assert (pow2 (-1021) < pow2 1023)%Q by (apply pow2_lt; lia). lra.
    - assert (pow2 1023 < pow2 (c + 53))%Q by lra.
      apply pow2_lt_inv in H. lia. }
  destruct (Z.eq_dec c 971) as [->|N].
  - destruct R as (C & m & l & Hm & Hl & ->).
    rewrite overflow_threshold_eq in HX. apply scale_le in HX.
    unfold at_scale in Hl. set (x := (X * pow2 (Z.opp 971))%Q) in *.
    clearbody x.
    assert (Ge : 2 ^ 53 <= round_nearest_even m l).
    { pose proof (located_bounds m l x Hl) as [B1 B2].
      pose proof (round_nearest_even_bounds m l).
      destruct (Z.lt_trichotomy m (2 ^ 53 - 1)) as [L|[E|G]]; [exfalso| |lia].
      - assert (inject_Z (m + 1) <= inject_Z (2 ^ 53 - 1))%Q
          by (rewrite <- Zle_Qle; lia).
        rewrite inject_Z_plus in H0. change (inject_Z 1) with 1%Q in H0. lra.
      - subst m. destruct l as [|[]]; simpl in *; try lia; exfalso; lra. }
    apply Qle_trans with (inject_Z (2 ^ 53) * pow2 971)%Q.
    + rewrite inject_Z_pow2, <- pow2_add by lia. apply pow2_le. lia.
    + apply Qmult_le_compat_r; [|lra]. rewrite <- Zle_Qle. assumption.
  - pose proof (rounds_to_normal X c z R ltac:(lia)) as Hz.
    apply Qle_trans with (pow2 52 * pow2 c)%Q.
    + rewrite <- pow2_add. apply pow2_le. lia.
    + apply Qmult_le_compat_r; [|lra].
      rewrite <- inject_Z_pow2 by lia. rewrite <- Zle_Qle. assumption.
Qed.

(** From the threshold on, the division raises [OverflowError]. *)
Lemma int_truediv_overflow a b :
  0 < b -> overflow_threshold * b <= a ->
  int_truediv a b = Raise OverflowError.
Proof.
  intros Hb Hab.
  assert (Ha : 0 < a).
  { assert (0 < overflow_threshold) by (vm_compute; reflexivity). nia. }
  unfold int_truediv.
  destruct (Z.eqb_spec b 0) as [|_]; [lia|].
  destruct (Z.eqb_spec a 0) as [|_]; [lia|].
  replace (a <? 0) with false by (symmetry; apply Z.ltb_ge; lia).
  replace (b <? 0) with false by (symmetry; apply Z.ltb_ge; lia).
  cbn [xorb]. rewrite !Z.abs_eq by lia.
  pose proof (div_core_spec a 0 b 0 ltac:(lia) ltac:(lia)) as H.
  destruct (SFdiv_core_binary prec emax a 0 b 0) as [[q e] l].
  destruct H as (Hq & Hl & He).
  assert (A : (0 < inject_Z a)%Q)
    by (change 0%Q with (inject_Z 0); rewrite <- Zlt_Qlt; lia).
  assert (B : (0 < inject_Z b)%Q)
    by (change 0%Q with (inject_Z 0); rewrite <- Zlt_Qlt; lia).
  assert (P0 : (pow2 0 == 1)%Q) by reflexivity.
  assert (B' : (0 < inject_Z b * pow2 0)%Q) by (rewrite P0; lra).
  assert (X0 : (0 < inject_Z a * pow2 0 / (inject_Z b * pow2 0))%Q).
  { apply Qlt_shift_div_l; [assumption|]. rewrite P0. lra. }
  destruct (binary_round_aux_spec false q e l _ X0 Hq Hl He)
    as (c & z & R & F).
  assert (L : (inject_Z overflow_threshold
               <= inject_Z a * pow2 0 / (inject_Z b * pow2 0))%Q).
  { apply Qle_shift_div_l; [assumption|].
    rewrite P0. rewrite !Qmult_1_r, <- inject_Z_mult, <- Zle_Qle. assumption. }
  pose proof (rounds_to_overflow _ c z L R) as Ge.
  apply float_of_cases in F.
  destruct (binary_round_aux prec emax false q e l) as [s|s| |s m' e'].
  - exfalso. destruct F as [_ ->]. pose proof (pow2_pos 1024).
    change (inject_Z 0) with 0%Q in Ge. lra.
  - reflexivity.
  - contradiction.
  - exfalso. destruct F as (_ & Bd & V).
    pose proof (F2Q_upper m' e' Bd). pose proof (bounded_canonical m' e' Bd) as [_ ?].
    assert (pow2 (e' + 53) <= pow2 1024)%Q by (apply pow2_le; lia).
    lra.
Qed.

End TrueDivision.

(** The invariants of section 3 of the specification. *)
Definition section_3_invariants (b : UserBehaviorSummary) : Prop :=
  0 <= total_bets b
  /\ Py.ge (avg_bet_amount b) 0 = true
  /\ 0 <= total_deposits b
  /\ Py.ge (avg_deposit b) 0 = true
  /\ Py.le 0 (loss_rate b) = true /\ Py.le (loss_rate b) 1 = true
  /\ Py.ge (median_loss_gap_minutes b) 0 = true
  /\ Py.le 0 (late_night_percentage b) = true
  /\ Py.le (late_night_percentage b) 1 = true
  /\ Py.ge (session_variance b) 0 = true
  /\ Py.ge (total_loss_amount b) 0 = true
  /\ 1 <= betting_days b.

(** The contract of a probability model: on a one-row matrix it returns a
    matrix that has an entry [0, 1]. *)
Definition answers {numpy : NumPy} (m : ProbabilityModel) : Prop :=
  forall row g,
  exists proba prob g',
    predict_proba m [row] g = (Return proba, g')
    /\ getitem2 proba 0 1 = Return prob.

Lemma MockModel_answers {numpy : NumPy} : answers MockModel.
Proof.
  intros row g. simpl. rewrite MockModel_predict_proba_row.
  eexists _, _, _. split; reflexivity.
Qed.

Lemma dict_setitem_keys {V} (d : list (string * V)) k v w :
  In w (dict_keys (dict_setitem d k v)) <-> In w (dict_keys d) \/ w = k.
Proof.
  induction d as [|[k' v'] rest IH]; simpl.
  - intuition.
  - destruct (String.eqb_spec k' k) as [->|N]; simpl.
    + intuition.
    + rewrite IH. intuition.
Qed.

Lemma score_windows_returns {numpy : NumPy} items row acc g :
  Forall (fun item => answers (model (snd item))) items ->
  exists scores g',
    score_windows items [row] acc g = (Return scores, g')
    /\ forall w, In w (dict_keys scores)
                 <-> In w (dict_keys acc) \/ In w (dict_keys items).
Proof.
  intros H. revert acc g.
  induction H as [|[window info] rest Hm _ IH]; intros acc g.
  - exists acc, g. split; [reflexivity|]. simpl. intuition.
  - destruct (Hm row g) as (proba & prob & g1 & E1 & E2).
    destruct (IH (dict_setitem acc window prob) g1) as (scores & g' & E & K).
    exists scores, g'. split.
    + cbn [score_windows]. unfold np_bind at 1. simpl in E1. rewrite E1.
      unfold np_bind at 1, np_lift at 1. rewrite E2. exact E.
    + intros w. rewrite K, dict_setitem_keys. simpl. intuition.
Qed.

(** C6, for the inputs whose bets-per-day quotient rounds to a binary64
    number.  For every summary that satisfies the invariants of section 3 and
    whose [total_bets] is below [overflow_threshold] (2^1024 - 2^970) times
    [max(betting_days, 1)], and every engine whose models honour the model contract, neither division of
    the feature extraction raises (the integer divisor is at least 1, the
    float denominator [1 + gap/5] is not 0), the feature matrix is returned,
    and [predict_risk] returns a score for exactly the configured windows
    together with the risk factors. *)
Theorem predict_risk_never_raises {numpy : NumPy}
        (self : RiskEngine) (b : UserBehaviorSummary) :
  section_3_invariants b ->
  total_bets b < overflow_threshold * Z.max (betting_days b) 1 ->
  Forall (fun item => answers (model (snd item))) (models self) ->
  forall g,
  exists bets_per_day row scores g',
    Z.max (betting_days b) 1 <> 0
    /\ int_truediv (total_bets b) (Z.max (betting_days b) 1)
       = Return bets_per_day
    /\ PrimFloat.eqb (1 + median_loss_gap_minutes b / 5) 0 = false
    /\ prepare_features self b = Return [row]
    /\ length row = length (feature_names self)
    /\ predict_risk self b g
       = (Return (scores, identify_risk_factors b), g')
    /\ forall w, In w (dict_keys scores) <-> In w (dict_keys (models self)).
Proof.
  intros Inv Hq Hm g.
  destruct Inv as (Hb & _ & _ & _ & _ & _ & Hgap & _ & _ & _ & _ & Hd).
  unfold Py.ge in Hgap.
  destruct (int_truediv_returns (total_bets b) (Z.max (betting_days b) 1)
              Hb ltac:(lia) Hq) as [bpd Ebpd].
  destruct (Rebet.immediate_rebet_pct_returns _ Hgap) as [Ez Er].
  assert (Ef : exists row,
             prepare_features self b = Return [row]
             /\ length row = length (feature_names self)).
  { unfold prepare_features, features_dict. rewrite Ebpd, Er. cbn [pybind].
    rewrite np_array_row. eexists. split; [reflexivity|].
    rewrite !length_map. reflexivity. }
  destruct Ef as (row & Ef & Lrow).
  destruct (score_windows_returns (models self) row [] g Hm)
    as (scores & g' & Es & K).
  exists bpd, row, scores, g'.
  split; [lia|]. split; [exact Ebpd|]. split; [exact Ez|].
  split; [exact Ef|]. split; [exact Lrow|]. split.
  - unfold predict_risk, np_bind at 1, np_lift at 1. rewrite Ef.
    unfold np_bind at 1. rewrite Es. reflexivity.
  - intros w. rewrite K. simpl. intuition.
Qed.

Lemma demo_12345_invariants : section_3_invariants demo_12345.
Proof. repeat split; try (vm_compute; congruence). Qed.

Lemma mock_models_answer {numpy : NumPy} :
  Forall (fun item => answers (model (snd item)))
         (models (RiskEngine_init None)).
Proof. repeat constructor; apply MockModel_answers. Qed.

Lemma predict_risk_never_raises_witness :
  exists scores g',
    predict_risk (numpy := counting_numpy) (RiskEngine_init None) demo_12345
                 (0, 0%nat)
    = (Return (scores, identify_risk_factors demo_12345), g')
    /\ forall w, In w (dict_keys scores) <-> In w ["7_day"; "30_day"].
Proof.
  destruct (predict_risk_never_raises (numpy := counting_numpy)
              (RiskEngine_init None) demo_12345 demo_12345_invariants)
    with (g := (0, 0%nat))
    as (_ & _ & scores & g' & _ & _ & _ & _ & _ & E & K).
  - vm_compute. reflexivity.
  - apply mock_models_answer.
  - exists scores, g'. split; [exact E|exact K].
Defined.

(** C6, as the specification has it, fails.  A summary with 2^1024 bets on
    one betting day satisfies the invariants of section 3, and the quotient
    [total_bets / max(betting_days, 1)] raises [OverflowError]. *)
Lemma predict_risk_overflow :
  let b := {| total_bets := 2 ^ 1024; avg_bet_amount := 1543.25;
              total_deposits := 23; avg_deposit := 2500.00;
              loss_rate := 0.82; median_loss_gap_minutes := 2.3;
              late_night_percentage := 0.45; session_variance := 3.2;
              total_loss_amount := 45230.50; betting_days := 1 |} in
  section_3_invariants b
  /\ int_truediv (total_bets b) (Z.max (betting_days b) 1) = Raise OverflowError
  /\ prepare_features (numpy := counting_numpy) (RiskEngine_init None) b
     = Raise OverflowError
  /\ predict_risk (numpy := counting_numpy) (RiskEngine_init None) b (0, 0%nat)
     = (Raise OverflowError, (0, 0%nat)).
Proof.
  cbv zeta. split; [|split; [|split]].
  - repeat split; try (vm_compute; congruence).
  - vm_compute. reflexivity.
  - vm_compute. reflexivity.
  - vm_compute. reflexivity.
Qed.

(** The bound on [total_bets] is exact: from the threshold on, the feature
    extraction raises [OverflowError], whatever the engine and the other
    fields. *)
Lemma prepare_features_overflow {numpy : NumPy}
      (self : RiskEngine) (b : UserBehaviorSummary) :
  overflow_threshold * Z.max (betting_days b) 1 <= total_bets b ->
  prepare_features self b = Raise OverflowError.
Proof.
  intros H. unfold prepare_features, features_dict.
  rewrite int_truediv_overflow by lia. reflexivity.
Qed.

(** ** The feature row as the array stores it *)

(** The integer a float denotes, when it denotes one. *)
Definition Z_of_float (x : float) : option Z :=
  match Prim2SF x with
  | S754_zero _ => Some 0
  | S754_finite s m e =>
      if 0 <=? e then Some ((if s then -1 else 1) * (Zpos m * 2 ^ e))
      else if Zpos m mod 2 ^ (- e) =? 0
           then Some ((if s then -1 else 1) * (Zpos m / 2 ^ (- e)))
           else None
  | _ => None
  end.

Section Conversion.
Import Rounding.

(** A positive integer of at most 53 bits is its own rounding. *)
Lemma rounds_to_integer p c z :
  Zpos p <= 2 ^ 53 -> rounds_to (F2Q p 0) c z ->
  (inject_Z z * pow2 c == inject_Z (Zpos p))%Q.
Proof.
  intros Hp (C & m & l & Hm & Hl & ->).
  assert (X : (F2Q p 0 == inject_Z (Zpos p))%Q)
    by (unfold F2Q; rewrite pow2_0; ring).
  assert (K : exists k, (F2Q p 0 * pow2 (- c) == inject_Z k)%Q).
  { assert (Le : c <= 0 -> exists k, (F2Q p 0 * pow2 (- c) == inject_Z k)%Q).
    { intros Hc. exists (Zpos p * 2 ^ (- c)).
      rewrite X, inject_Z_mult, inject_Z_pow2 by lia. reflexivity. }
    destruct C as [[-> _]|[_ [M _]]]; [apply Le; lia|].
    destruct (Z.le_gt_cases c 0) as [Hc|Hc]; [auto|].
    assert (B : (inject_Z (Zpos p) <= pow2 53)%Q)
      by (rewrite <- inject_Z_pow2 by lia; rewrite <- Zle_Qle; assumption).
    assert (pow2 (c + 53 - 1) <= pow2 53)%Q by (rewrite <- X in B; lra).
    apply pow2_le_inv in H. assert (c = 1) by lia. subst c.
    exists (2 ^ 52).
    assert (E : (F2Q p 0 == pow2 53)%Q).
    { change (1 + 53 - 1) with 53 in M. rewrite <- X in B. lra. }
    rewrite E, <- pow2_add. rewrite inject_Z_pow2 by lia. reflexivity. }
  destruct K as [k K].
  destruct (located_unique m l k loc_Exact _ Hl K) as [-> ->].
  change (round_nearest_even k loc_Exact) with k.
  rewrite <- K, <- X, <- Qmult_assoc, (Qmult_comm (pow2 (- c))), pow2_opp_mul.
  ring.
Qed.

Lemma float_of_int_exact n :
  0 <= n <= 2 ^ 53 -> Z_of_float (float_of_int n) = Some n.
Proof.
  intros [H0 H1]. destruct n as [|p|p]; [reflexivity| |lia].
  unfold float_of_int. cbn [binary_normalize].
  destruct (binary_round_spec p 0) as (c & z & R & F).
  pose proof (rounds_to_integer p c z H1 R) as V.
  assert (P : (0 < inject_Z (Zpos p))%Q)
    by (change 0%Q with (inject_Z 0); rewrite <- Zlt_Qlt; lia).
  destruct F as [[-> _]|[_ [(m & e & -> & Bd & E)|[_ Inf]]]].
  - exfalso. change (inject_Z 0) with 0%Q in V. lra.
  - rewrite V in E. unfold Z_of_float.
    rewrite Prim2SF_SF2Prim by exact Bd.
    destruct (Z.leb_spec 0 e) as [He|He].
    + f_equal. rewrite Z.mul_1_l.
      rewrite <- inject_Z_pow2, <- inject_Z_mult in E by lia.
      apply (proj1 (inject_Z_injective _ _)) in E. exact E.
    + assert (M : Zpos m = Zpos p * 2 ^ (- e)).
      { apply (proj1 (inject_Z_injective _ _)).
        rewrite inject_Z_mult, inject_Z_pow2 by lia.
        rewrite <- E, <- Qmult_assoc, pow2_opp_mul. ring. }
      assert (0 < 2 ^ (- e)) by (apply Z.pow_pos_nonneg; lia).
      rewrite M, Z.mod_mul, Z.div_mul by lia. simpl. f_equal; lia.
  - exfalso. rewrite V in Inf.
    assert (inject_Z (Zpos p) <= pow2 53)%Q
      by (rewrite <- inject_Z_pow2 by lia; rewrite <- Zle_Qle; assumption).
    assert (pow2 53 < pow2 1024)%Q by (apply pow2_lt; lia). lra.
Qed.

End Conversion.

(** The row as a float64 array holds it: the integer slots converted. *)
Definition float64_table (b : UserBehaviorSummary)
           (bets_per_day immediate_rebet : float) : list pyval :=
  [ PyFloat (float_of_int (total_bets b));         (* bet_count *)
    PyFloat (avg_bet_amount b);                    (* avg_bet *)
    PyFloat (avg_bet_amount b * 0.5)%float;        (* std_bet *)
    PyFloat (loss_rate b);                         (* loss_rate *)
    PyFloat (total_loss_amount b);                 (* total_loss *)
    PyFloat (float_of_int (betting_days b));       (* unique_days *)
    PyFloat bets_per_day;                          (* bets_per_day *)
    PyFloat (median_loss_gap_minutes b);           (* loss_gaps *)
    PyFloat immediate_rebet;                       (* immediate_rebet_pct *)
    PyFloat (float_of_int (betting_days b * 2));   (* session_count *)
    PyFloat 45;                                    (* session_avg_duration *)
    PyFloat (session_variance b);                  (* session_duration_cv *)
    PyFloat (float_of_int (total_deposits b));     (* deposit_count *)
    PyFloat (avg_deposit b) ].                     (* avg_deposit *)

(** The integers of the row that the summary supplies. *)
Definition row_integers (b : UserBehaviorSummary) : list Z :=
  [total_bets b; betting_days b; betting_days b * 2; total_deposits b].

Lemma feature_table_float64 b bets_per_day immediate_rebet :
  Forall (fun n => - 2 ^ 63 <= n < 2 ^ 64) (row_integers b) ->
  map (astype (result_type (feature_table b bets_per_day immediate_rebet)))
      (feature_table b bets_per_day immediate_rebet)
  = float64_table b bets_per_day immediate_rebet.
Proof.
  intros H.
  assert (D : result_type (feature_table b bets_per_day immediate_rebet)
              = float64).
  { unfold row_integers in H. rewrite !Forall_cons_iff in H.
    destruct H as (H1 & H2 & H3 & H4 & _).
    unfold result_type, feature_table. cbn [fold_left].
    destruct (discover_dtype_int (total_bets b))
      as [[_ [->| ->]]|[? _]]; [| |contradiction];
    (destruct (discover_dtype_int (betting_days b))
      as [[_ [->| ->]]|[? _]]; [| |contradiction]);
    (destruct (discover_dtype_int (betting_days b * 2))
      as [[_ [->| ->]]|[? _]]; [| |contradiction]);
    (destruct (discover_dtype_int (total_deposits b))
      as [[_ [->| ->]]|[? _]]; [| |contradiction]);
    reflexivity. }
  rewrite D. reflexivity.
Qed.

Lemma feature_table_object b bets_per_day immediate_rebet :
  Exists (fun n => ~ - 2 ^ 63 <= n < 2 ^ 64) (row_integers b) ->
  map (astype (result_type (feature_table b bets_per_day immediate_rebet)))
      (feature_table b bets_per_day immediate_rebet)
  = feature_table b bets_per_day immediate_rebet.
Proof.
  intros H.
  assert (D : result_type (feature_table b bets_per_day immediate_rebet)
              = object).
  { unfold row_integers in H. rewrite !Exists_cons, Exists_nil in H.
    unfold result_type, feature_table. cbn [fold_left].
    destruct (discover_dtype_int (total_bets b))
      as [[F1 [->| ->]]|[_ ->]];
    (destruct (discover_dtype_int (betting_days b))
      as [[F2 [->| ->]]|[_ ->]]);
    (destruct (discover_dtype_int (betting_days b * 2))
      as [[F3 [->| ->]]|[_ ->]]);
    (destruct (discover_dtype_int (total_deposits b))
      as [[F4 [->| ->]]|[_ ->]]);
    first [reflexivity | exfalso; tauto]. }
  rewrite D. reflexivity.
Qed.

(** C4, for the inputs the code serves.  The extractor evaluates
    [total_bets / max(betting_days, 1)] and
    [1 / (1 + median_loss_gap_minutes / 5)] and returns [np.array] of one row
    holding the fourteen slots of section 4.1 in their fixed order.  For a
    summary that satisfies the invariants of section 3 and whose [total_bets]
    is below [overflow_threshold] times [max(betting_days, 1)], the matrix is
    returned, one row of fourteen values.  When [total_bets] and
    [total_deposits] are below 2^64 and [betting_days] is below 2^63, the row
    is a float64 row: the float slots hold their passthrough or derivation,
    the integer slots hold the float nearest to theirs, which is the integer
    itself up to 2^53.  Otherwise the row holds the fourteen Python numbers
    as they are.  Summaries and engines that agree on the nine fields and on
    the feature names that the extractor reads give identical results; for
    demo user 12345 the row is computed in full. *)
Theorem prepare_features_table {numpy : NumPy} :
  (forall loaded b,
     prepare_features (RiskEngine_init loaded) b
     = let* bets_per_day :=
         int_truediv (total_bets b) (Z.max (betting_days b) 1) in
       let* immediate_rebet :=
         float_truediv 1 (1 + median_loss_gap_minutes b / 5)%float in
       Return (np_array [feature_table b bets_per_day immediate_rebet]))
  /\ (forall loaded b,
        section_3_invariants b ->
        total_bets b < overflow_threshold * Z.max (betting_days b) 1 ->
        exists bets_per_day row,
          int_truediv (total_bets b) (Z.max (betting_days b) 1)
          = Return bets_per_day
          /\ prepare_features (RiskEngine_init loaded) b = Return [row]
          /\ length row = 14%nat
          /\ (total_bets b < 2 ^ 64 -> betting_days b < 2 ^ 63 ->
              total_deposits b < 2 ^ 64 ->
              row = float64_table b bets_per_day
                      (1 / (1 + median_loss_gap_minutes b / 5))%float)
          /\ (2 ^ 64 <= total_bets b \/ 2 ^ 63 <= betting_days b
              \/ 2 ^ 64 <= total_deposits b ->
              row = feature_table b bets_per_day
                      (1 / (1 + median_loss_gap_minutes b / 5))%float))
  /\ (forall n, 0 <= n <= 2 ^ 53 -> Z_of_float (float_of_int n) = Some n)
  /\ (forall loaded b X,
        prepare_features (RiskEngine_init loaded) b = Return X ->
        exists row, X = [row] /\ length row = 14%nat)
  /\ (forall self1 self2 b1 b2,
        feature_names self1 = feature_names self2 ->
        total_bets b1 = total_bets b2 ->
        avg_bet_amount b1 = avg_bet_amount b2 ->
        total_deposits b1 = total_deposits b2 ->
        avg_deposit b1 = avg_deposit b2 ->
        loss_rate b1 = loss_rate b2 ->
        median_loss_gap_minutes b1 = median_loss_gap_minutes b2 ->
        session_variance b1 = session_variance b2 ->
        total_loss_amount b1 = total_loss_amount b2 ->
        betting_days b1 = betting_days b2 ->
        prepare_features self1 b1 = prepare_features self2 b2)
  /\ (forall loaded,
        prepare_features (RiskEngine_init loaded) demo_12345
        = Return [[ PyFloat 287; PyFloat 1543.25; PyFloat 771.625;
                    PyFloat 0.82; PyFloat 45230.5; PyFloat 14; PyFloat 20.5;
                    PyFloat 2.3; PyFloat (1 / (1 + 2.3 / 5)); PyFloat 28;
                    PyFloat 45; PyFloat 3.2; PyFloat 23; PyFloat 2500 ]]).
Proof.
  assert (T : forall loaded b,
     prepare_features (RiskEngine_init loaded) b
     = let* bets_per_day :=
         int_truediv (total_bets b) (Z.max (betting_days b) 1) in
       let* immediate_rebet :=
         float_truediv 1 (1 + median_loss_gap_minutes b / 5)%float in
       Return (np_array [feature_table b bets_per_day immediate_rebet])).
  { intros loaded b. unfold prepare_features, features_dict.
    destruct (int_truediv _ _) as [bpd|e]; [|reflexivity]. simpl.
    change (immediate_rebet_pct (median_loss_gap_minutes b))
      with (float_truediv 1 (1 + median_loss_gap_minutes b / 5)%float).
    destruct (float_truediv _ _) as [pct|e]; reflexivity. }
  split; [exact T|]. split; [|split; [|split; [|split]]].
  - intros loaded b Inv Hq.
    destruct Inv as (Hb & _ & Hdep & _ & _ & _ & Hgap & _ & _ & _ & _ & Hd).
    destruct (int_truediv_returns (total_bets b) (Z.max (betting_days b) 1)
                Hb ltac:(lia) Hq) as [bpd Ebpd].
    destruct (Rebet.immediate_rebet_pct_returns _ Hgap) as [Ez _].
    assert (P : prepare_features (RiskEngine_init loaded) b
                = Return (np_array
                            [feature_table b bpd
                               (1 / (1 + median_loss_gap_minutes b / 5))%float])).
    { rewrite T, Ebpd. cbn [pybind]. unfold float_truediv. rewrite Ez.
      reflexivity. }
    rewrite P, np_array_row. eexists bpd, _.
    split; [exact Ebpd|]. split; [reflexivity|].
    split; [rewrite length_map; reflexivity|]. split.
    + intros B1 B2 B3. apply feature_table_float64.
      unfold row_integers. repeat constructor; lia.
    + intros B. apply feature_table_object.
      unfold row_integers. rewrite !Exists_cons. lia.
  - apply float_of_int_exact.
  - intros loaded b X. rewrite T.
    destruct (int_truediv _ _) as [bpd|e]; [|discriminate]. simpl.
    destruct (float_truediv _ _) as [pct|e]; [|discriminate]. simpl.
    rewrite np_array_row. intros E. injection E as <-.
    eexists. split; reflexivity.
  - intros self1 self2 [] [] N. simpl. intros. subst.
    unfold prepare_features, features_dict. simpl. rewrite N. reflexivity.
  - intros loaded. rewrite T. vm_compute. reflexivity.
Qed.

(** C4, as the specification has it, fails twice.  With 2^53 + 1 bets the
    summary satisfies the invariants of section 3 and the row is returned,
    but its slot [bet_count] holds the float 9007199254740992.0, which is
    2^53 and not [total_bets].  With 2^1024 bets on one betting day the
    summary satisfies the invariants too, and the extractor returns no row:
    it raises [OverflowError]. *)
Lemma prepare_features_rounds_large_counts :
  let b := {| total_bets := 2 ^ 53 + 1; avg_bet_amount := 1543.25;
              total_deposits := 23; avg_deposit := 2500.00;
              loss_rate := 0.82; median_loss_gap_minutes := 2.3;
              late_night_percentage := 0.45; session_variance := 3.2;
              total_loss_amount := 45230.50; betting_days := 14 |} in
  let huge := {| total_bets := 2 ^ 1024; avg_bet_amount := 1543.25;
                 total_deposits := 23; avg_deposit := 2500.00;
                 loss_rate := 0.82; median_loss_gap_minutes := 2.3;
                 late_night_percentage := 0.45; session_variance := 3.2;
                 total_loss_amount := 45230.50; betting_days := 1 |} in
  section_3_invariants b
  /\ (exists row,
        prepare_features (numpy := counting_numpy) (RiskEngine_init None) b
        = Return [row]
        /\ nth_error row 0 = Some (PyFloat 9007199254740992)
        /\ Z_of_float 9007199254740992 = Some (2 ^ 53)
        /\ 2 ^ 53 <> total_bets b)
  /\ section_3_invariants huge
  /\ prepare_features (numpy := counting_numpy) (RiskEngine_init None) huge
     = Raise OverflowError.
Proof.
  cbv zeta. split; [|split; [|split]].
  - repeat split; try (vm_compute; congruence).
  - eexists. split; [vm_compute; reflexivity|].
    split; [reflexivity|]. split; [vm_compute; reflexivity|].
    vm_compute. discriminate.
  - repeat split; try (vm_compute; congruence).
  - vm_compute. reflexivity.
Qed.

(** * Further properties of the engine *)

(** ** The risk level as a function of the scores *)

Lemma get_risk_level_max k v rest :
  get_risk_level ((k, v) :: rest)
  = Return (level_of_max (max_loop v (dict_values rest))).
Proof.
  unfold get_risk_level. simpl. rewrite <- level_of_max_cases.
  destruct (Py.gt _ 0.7); [reflexivity|].
  destruct (Py.gt _ 0.4); reflexivity.
Qed.

(** The three levels, read off the maximum. *)
Lemma level_of_max_high m : level_of_max m = "HIGH" <-> Py.gt m 0.7 = true.
Proof.
  unfold level_of_max. destruct (Py.gt m 0.7); [tauto|].
  destruct (_ && _); split; discriminate.
Qed.

Lemma gt_07_gt_04 m : Py.gt m 0.7 = true -> Py.gt m 0.4 = true.
Proof.
  unfold Py.gt. intros H.
  apply (FloatOrder.ltb_trans _ 0.7); [reflexivity|assumption].
Qed.

Lemma level_of_max_low m : level_of_max m = "LOW" <-> Py.gt m 0.4 = false.
Proof.
  unfold level_of_max.
  destruct (Py.gt m 0.7) eqn:E7.
  - rewrite (gt_07_gt_04 m E7). split; discriminate.
  - destruct (Py.gt m 0.4) eqn:E4; simpl.
    + replace (Py.le m 0.7) with true; [split; discriminate|].
      symmetry. apply FloatOrder.not_ltb_leb; [reflexivity| |exact E7].
      apply (FloatOrder.ltb_is_number _ _ E4).
    + tauto.
Qed.

Lemma level_of_max_medium m :
  level_of_max m = "MEDIUM" <-> Py.gt m 0.7 = false /\ Py.gt m 0.4 = true.
Proof.
  pose proof (level_of_max_high m) as Hh.
  pose proof (level_of_max_low m) as Hl.
  unfold level_of_max in *.
  destruct (Py.gt m 0.7) eqn:E7.
  - split; [discriminate|intros []; discriminate].
  - destruct (Py.gt m 0.4) eqn:E4; simpl in *.
    + destruct (Py.le m 0.7); [tauto|].
      destruct Hl as [Hl _]. specialize (Hl eq_refl). discriminate.
    + split; [discriminate|intros []; discriminate].
Qed.

Definition no_nan (risk_scores : list (string * float)) : Prop :=
  Forall (fun x => FloatOrder.is_number x = true) (dict_values risk_scores).

(** Without NaN scores the maximum exceeds a threshold exactly when some
    score does. *)
Lemma max_loop_exceeds t v rest :
  FloatOrder.is_number v = true ->
  Forall (fun x => FloatOrder.is_number x = true) rest ->
  Py.gt (max_loop v rest) t = true
  <-> Exists (fun x => Py.gt x t = true) (v :: rest).
Proof.
  intros Hv Hrest. split.
  - intros H. apply Exists_exists. exists (max_loop v rest).
    split; [apply max_loop_In|exact H].
  - intros H. apply Exists_exists in H. destruct H as (x & Hx & Hgt).
    pose proof (max_loop_upper v rest Hv Hrest x Hx) as Hle.
    unfold Py.gt, Py.le in *.
    apply (FloatOrder.ltb_leb_trans _ x); assumption.
Qed.

Lemma not_exceeds_le t x :
  FloatOrder.is_number t = true -> FloatOrder.is_number x = true ->
  Py.gt x t = false <-> Py.le x t = true.
Proof.
  intros Ht Hx. unfold Py.gt, Py.le. split.
  - apply FloatOrder.not_ltb_leb; assumption.
  - apply FloatOrder.leb_not_ltb.
Qed.

Lemma Forall_not_Exists_gt t (xs : list float) :
  FloatOrder.is_number t = true ->
  Forall (fun x => FloatOrder.is_number x = true) xs ->
  ~ Exists (fun x => Py.gt x t = true) xs
  <-> Forall (fun x => Py.le x t = true) xs.
Proof.
  intros Ht Hxs. rewrite !Forall_forall, Exists_exists.
  rewrite Forall_forall in Hxs. split.
  - intros H x Hx. apply not_exceeds_le; auto.
    destruct (Py.gt x t) eqn:E; [|reflexivity]. exfalso. eauto.
  - intros H (x & Hx & Hgt).
    apply (not_exceeds_le t x Ht (Hxs x Hx)) in H; [congruence|assumption].
Qed.

(** X1. When no score is a NaN, the level is a function of the set of
    scores: HIGH exactly when some score exceeds 0.7, LOW exactly when every
    score is at most 0.4, MEDIUM exactly when no score exceeds 0.7 and some
    score exceeds 0.4.  So the level does not depend on the order of the
    windows. *)
Theorem get_risk_level_by_scores (risk_scores : list (string * float)) :
  risk_scores <> [] ->
  no_nan risk_scores ->
  (get_risk_level risk_scores = Return "HIGH"
   <-> Exists (fun x => Py.gt x 0.7 = true) (dict_values risk_scores))
  /\ (get_risk_level risk_scores = Return "MEDIUM"
      <-> Forall (fun x => Py.le x 0.7 = true) (dict_values risk_scores)
          /\ Exists (fun x => Py.gt x 0.4 = true) (dict_values risk_scores))
  /\ (get_risk_level risk_scores = Return "LOW"
      <-> Forall (fun x => Py.le x 0.4 = true) (dict_values risk_scores))
  /\ (forall reordered,
        Permutation (dict_values risk_scores) (dict_values reordered) ->
        get_risk_level reordered = get_risk_level risk_scores).
Proof.
  intros Hne Hnan.
  assert (Main : forall rs, rs <> [] -> no_nan rs ->
    (get_risk_level rs = Return "HIGH"
     <-> Exists (fun x => Py.gt x 0.7 = true) (dict_values rs))
    /\ (get_risk_level rs = Return "MEDIUM"
        <-> Forall (fun x => Py.le x 0.7 = true) (dict_values rs)
            /\ Exists (fun x => Py.gt x 0.4 = true) (dict_values rs))
    /\ (get_risk_level rs = Return "LOW"
        <-> Forall (fun x => Py.le x 0.4 = true) (dict_values rs))).
  { clear. intros [|[k v] rest] Hne Hnan; [congruence|].
    unfold no_nan in Hnan. simpl in Hnan.
    pose proof Hnan as Hall. inversion Hnan as [|? ? Hv Hrest]; subst.
    rewrite get_risk_level_max. simpl dict_values.
    set (m := max_loop v (dict_values rest)).
    pose proof (max_loop_exceeds 0.7 v _ Hv Hrest) as E7.
    pose proof (max_loop_exceeds 0.4 v _ Hv Hrest) as E4.
    fold m in E7, E4.
    pose proof (Forall_not_Exists_gt 0.7 _ eq_refl Hall) as N7.
    pose proof (Forall_not_Exists_gt 0.4 _ eq_refl Hall) as N4.
    split; [|split].
    - rewrite <- E7, <- level_of_max_high. split; congruence.
    - rewrite <- N7, <- E4, <- E7. split.
      + intros H. injection H as H. apply level_of_max_medium in H.
        destruct H as [H7 H4]. split; [congruence|assumption].
      + intros [H7 H4]. f_equal. apply level_of_max_medium.
        split; [|assumption]. destruct (Py.gt m 0.7); congruence.
    - rewrite <- N4, <- E4. split.
      + intros H. injection H as H. apply level_of_max_low in H. congruence.
      + intros H. f_equal. apply level_of_max_low.
        destruct (Py.gt m 0.4); congruence. }
  destruct (Main risk_scores Hne Hnan) as (H1 & H2 & H3).
  split; [exact H1|]. split; [exact H2|]. split; [exact H3|].
  intros rs' P.
  assert (Hne' : rs' <> []).
  { intros ->. apply Permutation_sym, Permutation_nil in P.
    destruct risk_scores; [congruence|discriminate]. }
  assert (Hnan' : no_nan rs').
  { unfold no_nan in *. rewrite <- P. assumption. }
  destruct (Main rs' Hne' Hnan') as (H1' & H2' & H3').
  rewrite <- P in H1', H2', H3'.
  destruct risk_scores as [|[k v] rest]; [congruence|].
  rewrite get_risk_level_max in H1, H2, H3 |- *.
  set (m := max_loop v (dict_values rest)) in *.
  assert (T : level_of_max m = "HIGH" \/ level_of_max m = "MEDIUM"
              \/ level_of_max m = "LOW").
  { unfold level_of_max. destruct (Py.gt m 0.7); [|destruct (_ && _)]; auto. }
  destruct T as [T|[T|T]]; rewrite T in *.
  - apply H1', H1. reflexivity.
  - apply H2', H2. reflexivity.
  - apply H3', H3. reflexivity.
Qed.

Lemma get_risk_level_by_scores_witness :
  get_risk_level [("7_day", 0.235%float); ("30_day", 0.712%float)]
  = get_risk_level [("30_day", 0.712%float); ("7_day", 0.235%float)].
Proof.
  refine (proj2 (proj2 (proj2
    (get_risk_level_by_scores
       [("30_day", 0.712%float); ("7_day", 0.235%float)] _ _))) _ _).
  - discriminate.
  - repeat constructor.
  - apply perm_swap.
Defined.

(** ** NaN scores *)

Lemma gt_nan_l x y : FloatOrder.is_number x = false -> Py.gt x y = false.
Proof.
  intros H. unfold Py.gt. destruct (PrimFloat.ltb y x) eqn:E; [|reflexivity].
  apply FloatOrder.ltb_is_number in E. destruct E. congruence.
Qed.

Lemma gt_nan_r x y : FloatOrder.is_number x = false -> Py.gt y x = false.
Proof.
  intros H. unfold Py.gt. destruct (PrimFloat.ltb x y) eqn:E; [|reflexivity].
  apply FloatOrder.ltb_is_number in E. destruct E. congruence.
Qed.

(** A NaN that starts the scan stays the maximum. *)
Lemma max_loop_nan x items :
  FloatOrder.is_number x = false -> max_loop x items = x.
Proof.
  intros H. induction items as [|item rest IH]; [reflexivity|].
  simpl. rewrite (gt_nan_r x item H). exact IH.
Qed.

(** A NaN met later never replaces the running maximum. *)
Lemma max_loop_skip_nan x m pre post :
  FloatOrder.is_number x = false ->
  max_loop m (pre ++ x :: post) = max_loop m (pre ++ post).
Proof.
  intros H. revert m. induction pre as [|item rest IH]; intros m; simpl.
  - rewrite (gt_nan_l x m H). reflexivity.
  - apply IH.
Qed.

(** X2. [max] compares with [>], and every comparison with a NaN is false.
    So a NaN score in the first window is the maximum whatever the other
    scores are, and the level is LOW; a NaN score in a later window is
    passed over, and the level is the one of the other scores. *)
Theorem get_risk_level_nan (x : float) :
  FloatOrder.is_number x = false ->
  (forall window rest, get_risk_level ((window, x) :: rest) = Return "LOW")
  /\ (forall first before window after,
        get_risk_level (first :: before ++ (window, x) :: after)
        = get_risk_level (first :: before ++ after)).
Proof.
  intros H. split.
  - intros window rest. rewrite get_risk_level_max, (max_loop_nan x _ H).
    f_equal. apply level_of_max_low. apply gt_nan_l, H.
  - intros [k v] before window after. rewrite !get_risk_level_max.
    unfold dict_values. rewrite !map_app. simpl.
    rewrite (max_loop_skip_nan x v _ _ H). reflexivity.
Qed.

Lemma get_risk_level_nan_witness :
  get_risk_level [("7_day", nan); ("30_day", 0.9%float)] = Return "LOW"
  /\ get_risk_level [("7_day", 0.9%float); ("30_day", nan)]
     = get_risk_level [("7_day", 0.9%float)].
Proof.
  destruct (get_risk_level_nan nan eq_refl) as [H1 H2]. split.
  - apply H1.
  - apply (H2 ("7_day", 0.9%float) [] "30_day" []).
Defined.

(** ** The level and the strategy of one pair of scores *)

Lemma strategy_rules r7 r30 :
  (get_intervention_strategy r7 r30 = IMMEDIATE_CRISIS
   <-> rule_1 r7 r30 = true)
  /\ (get_intervention_strategy r7 r30 = SLOW_BURN
      <-> rule_1 r7 r30 = false /\ rule_2 r7 r30 = true)
  /\ (rule_1 r7 r30 = false -> rule_2 r7 r30 = false ->
      get_intervention_strategy r7 r30 = MODERATE_RISK
      \/ get_intervention_strategy r7 r30 = CONTROLLED)
  /\ (rule_1 r7 r30 = false -> rule_2 r7 r30 = false ->
      rule_3 r7 r30 = true ->
      get_intervention_strategy r7 r30 = MODERATE_RISK).
Proof.
  pose proof strategies_distinct as (D1 & D2 & D3 & D4 & D5 & D6).
  unfold get_intervention_strategy.
  fold (rule_1 r7 r30) (rule_2 r7 r30) (rule_3 r7 r30).
  destruct (rule_1 r7 r30), (rule_2 r7 r30), (rule_3 r7 r30);
    repeat split; intros; auto; try congruence;
    repeat match goal with H : _ /\ _ |- _ => destruct H end;
    try discriminate; exfalso; eauto.
Qed.

(** The two scores as [assess_user_risk] stores them. *)
Definition dual_scores (r7 r30 : float) : list (string * float) :=
  [("7_day", r7); ("30_day", r30)].

Lemma dual_level r7 r30 :
  get_risk_level (dual_scores r7 r30)
  = Return (level_of_max (if Py.gt r30 r7 then r30 else r7)).
Proof. unfold dual_scores. rewrite get_risk_level_max. reflexivity. Qed.

(** X3. The level and the strategy computed from the same two scores agree
    as follows, NaN scores included: IMMEDIATE_CRISIS comes only with level
    HIGH; SLOW_BURN only with HIGH or MEDIUM; level MEDIUM only with
    SLOW_BURN or MODERATE_RISK; level LOW only with MODERATE_RISK or
    CONTROLLED.  Level HIGH goes with every strategy, and 0.4 is LOW yet
    MODERATE_RISK. *)
Theorem risk_level_and_strategy :
  (forall r7 r30,
     get_intervention_strategy r7 r30 = IMMEDIATE_CRISIS ->
     get_risk_level (dual_scores r7 r30) = Return "HIGH")
  /\ (forall r7 r30,
        get_intervention_strategy r7 r30 = SLOW_BURN ->
        get_risk_level (dual_scores r7 r30) = Return "HIGH"
        \/ get_risk_level (dual_scores r7 r30) = Return "MEDIUM")
  /\ (forall r7 r30,
        get_risk_level (dual_scores r7 r30) = Return "MEDIUM" ->
        get_intervention_strategy r7 r30 = SLOW_BURN
        \/ get_intervention_strategy r7 r30 = MODERATE_RISK)
  /\ (forall r7 r30,
        get_risk_level (dual_scores r7 r30) = Return "LOW" ->
        get_intervention_strategy r7 r30 = MODERATE_RISK
        \/ get_intervention_strategy r7 r30 = CONTROLLED)
  /\ (get_risk_level (dual_scores 0.9 0.8) = Return "HIGH"
      /\ get_intervention_strategy 0.9 0.8 = IMMEDIATE_CRISIS)
  /\ (get_risk_level (dual_scores 0.3 0.8) = Return "HIGH"
      /\ get_intervention_strategy 0.3 0.8 = SLOW_BURN)
  /\ (get_risk_level (dual_scores 0.5 0.8) = Return "HIGH"
      /\ get_intervention_strategy 0.5 0.8 = MODERATE_RISK)
  /\ (get_risk_level (dual_scores 0.8 0.3) = Return "HIGH"
      /\ get_intervention_strategy 0.8 0.3 = CONTROLLED)
  /\ (get_risk_level (dual_scores 0.4 0.4) = Return "LOW"
      /\ get_intervention_strategy 0.4 0.4 = MODERATE_RISK).
Proof.
  assert (A1 : forall r7 r30,
     get_intervention_strategy r7 r30 = IMMEDIATE_CRISIS ->
     get_risk_level (dual_scores r7 r30) = Return "HIGH").
  { intros r7 r30 H. apply (proj1 (strategy_rules r7 r30)) in H.
    unfold rule_1 in H. apply andb_prop in H. destruct H as [H7 H30].
    rewrite dual_level. f_equal. apply level_of_max_high.
    destruct (Py.gt r30 r7); assumption. }
  assert (A2 : forall r7 r30,
     get_intervention_strategy r7 r30 = SLOW_BURN ->
     get_risk_level (dual_scores r7 r30) = Return "HIGH"
     \/ get_risk_level (dual_scores r7 r30) = Return "MEDIUM").
  { intros r7 r30 H.
    apply (proj1 (proj2 (strategy_rules r7 r30))) in H. destruct H as [_ H].
    unfold rule_2 in H. apply andb_prop in H. destruct H as [H7 H30].
    unfold Py.lt, Py.gt in H7, H30.
    assert (G : Py.gt r30 r7 = true).
    { unfold Py.gt. apply (FloatOrder.ltb_trans _ 0.4); [assumption|].
      apply (FloatOrder.ltb_trans _ 0.6); [reflexivity|assumption]. }
    rewrite dual_level, G.
    assert (G4 : Py.gt r30 0.4 = true).
    { unfold Py.gt. apply (FloatOrder.ltb_trans _ 0.6); [reflexivity|assumption]. }
    destruct (Py.gt r30 0.7) eqn:G7.
    - left. f_equal. apply level_of_max_high, G7.
    - right. f_equal. apply level_of_max_medium. auto. }
  assert (A4 : forall r7 r30,
     get_risk_level (dual_scores r7 r30) = Return "LOW" ->
     get_intervention_strategy r7 r30 = MODERATE_RISK
     \/ get_intervention_strategy r7 r30 = CONTROLLED).
  { intros r7 r30 H.
    destruct (strategy_rules r7 r30) as (S1 & S2 & S3 & _).
    destruct (rule_1 r7 r30) eqn:R1.
    { rewrite (A1 r7 r30 (proj2 S1 eq_refl)) in H. discriminate. }
    destruct (rule_2 r7 r30) eqn:R2.
    { destruct (A2 r7 r30 (proj2 S2 (conj eq_refl eq_refl))) as [E|E];
        rewrite E in H; discriminate. }
    apply S3; reflexivity. }
  split; [exact A1|]. split; [exact A2|]. split; [|split; [exact A4|]].
  - intros r7 r30 H. rewrite dual_level in H. injection H as H.
    apply level_of_max_medium in H. destruct H as [H7 H4].
    destruct (strategy_rules r7 r30) as (S1 & S2 & _ & S4).
    assert (R1 : rule_1 r7 r30 = false).
    { unfold rule_1. destruct (Py.gt r30 r7) eqn:G.
      - rewrite H7. apply andb_false_r.
      - rewrite H7. reflexivity. }
    destruct (rule_2 r7 r30) eqn:R2; [left; apply S2; auto|].
    right. apply S4; [assumption|reflexivity|].
    unfold rule_3. unfold Py.gt, Py.le in *.
    assert (In_band : forall m,
      PrimFloat.ltb 0.7 m = false -> PrimFloat.ltb 0.4 m = true ->
      PrimFloat.leb 0.4 m && PrimFloat.leb m 0.7 = true).
    { intros m M7 M4. rewrite (FloatOrder.ltb_leb _ _ M4). simpl.
      apply FloatOrder.not_ltb_leb; [reflexivity| |assumption].
      apply (FloatOrder.ltb_is_number _ _ M4). }
    destruct (PrimFloat.ltb r7 r30).
    + rewrite (In_band r30 H7 H4). apply orb_true_r.
    + rewrite (In_band r7 H7 H4). reflexivity.
  - repeat split; vm_compute; reflexivity.
Qed.

(** ** The engine with the fallback models *)

Lemma prepare_features_row {numpy : NumPy} self b X :
  prepare_features self b = Return X -> exists row, X = [row].
Proof.
  unfold prepare_features.
  destruct (features_dict b) as [features|e]; [|discriminate].
  intros H. injection H as <-. eexists. reflexivity.
Qed.

Lemma equal_scores_strategy p :
  get_intervention_strategy p p <> SLOW_BURN
  /\ (get_intervention_strategy p p = IMMEDIATE_CRISIS
      <-> get_risk_level (dual_scores p p) = Return "HIGH")
  /\ (get_intervention_strategy p p = MODERATE_RISK
      <-> Py.le 0.4 p = true /\ Py.le p 0.7 = true).
Proof.
  destruct (strategy_rules p p) as (S1 & S2 & S3 & S4).
  assert (R2 : rule_2 p p = false).
  { unfold rule_2, Py.lt, Py.gt.
    destruct (PrimFloat.ltb p 0.4) eqn:E; [|reflexivity]. simpl.
    apply FloatOrder.ltb_not_ltb.
    apply (FloatOrder.ltb_trans _ 0.4); [assumption|reflexivity]. }
  split; [|split].
  - intros H. apply S2 in H. destruct H. congruence.
  - rewrite S1, dual_level. unfold rule_1.
    replace (if Py.gt p p then p else p) with p by (destruct (Py.gt p p); auto).
    rewrite andb_diag. rewrite <- level_of_max_high. split; congruence.
  - pose proof strategies_distinct as (D1 & D2 & D3 & D4 & D5 & D6).
    assert (R3 : rule_3 p p = Py.le 0.4 p && Py.le p 0.7)
      by (unfold rule_3; apply orb_diag).
    assert (R1 : rule_3 p p = true -> rule_1 p p = false).
    { rewrite R3. unfold rule_1, Py.le, Py.gt. intros H.
      apply andb_prop in H. destruct H as [_ H].
      rewrite (FloatOrder.leb_not_ltb _ _ H). reflexivity. }
    rewrite <- andb_true_iff, <- R3. split.
    + intros H. destruct (rule_3 p p) eqn:E3; [reflexivity|].
      unfold get_intervention_strategy in H.
      fold (rule_1 p p) (rule_2 p p) (rule_3 p p) in H.
      rewrite R2, E3 in H. destruct (rule_1 p p); congruence.
    + intros H. apply S4; auto.
Qed.

(** X4. Both fallback models seed the process-wide generator from the same
    feature row, so whenever [predict_risk] returns with the fallback models
    the 7-day and the 30-day score are the same number.  On such scores the
    strategy is never SLOW_BURN, and it is IMMEDIATE_CRISIS exactly when the
    level is HIGH. *)
Theorem mock_scores_are_equal {numpy : NumPy}
        (b : UserBehaviorSummary) (g g' : RandomState)
        (scores : list (string * float)) (factors : list string) :
  predict_risk (RiskEngine_init None) b g = (Return (scores, factors), g') ->
  exists p,
    scores = dual_scores p p
    /\ get_intervention_strategy p p <> SLOW_BURN
    /\ (get_intervention_strategy p p = IMMEDIATE_CRISIS
        <-> get_risk_level scores = Return "HIGH").
Proof.
  intros H.
  destruct (prepare_features (RiskEngine_init None) b) as [X|e] eqn:E.
  - destruct (prepare_features_row _ _ _ E) as [row ->].
    rewrite (mock_predict_risk b row [] g E) in H.
    injection H as <- _ _.
    exists (fst (mock_draw row)).
    destruct (equal_scores_strategy (fst (mock_draw row))) as (N & I & _).
    split; [reflexivity|]. split; [exact N|exact I].
  - unfold predict_risk, np_bind, np_lift in H. rewrite E in H. discriminate.
Qed.

Lemma mock_scores_are_equal_witness :
  exists p, [("7_day", 0.25%float); ("30_day", 0.25%float)] = dual_scores p p.
Proof.
  destruct (mock_scores_are_equal (numpy := counting_numpy)
              demo_12345 (0, 0%nat) (14, 1%nat)
              [("7_day", 0.25%float); ("30_day", 0.25%float)]
              (identify_risk_factors demo_12345)) as (p & E & _).
  - vm_compute. reflexivity.
  - exists p. exact E.
Defined.

(** ** The strategy of a NaN score *)

Lemma compare_nan x y :
  FloatOrder.is_number x = false ->
  PrimFloat.ltb x y = false /\ PrimFloat.ltb y x = false
  /\ PrimFloat.leb x y = false /\ PrimFloat.leb y x = false.
Proof.
  intros H.
  assert (L : forall a b, PrimFloat.ltb a b = true ->
                          FloatOrder.is_number a = true
                          /\ FloatOrder.is_number b = true)
    by apply FloatOrder.ltb_is_number.
  assert (M : forall a b, PrimFloat.leb a b = true ->
                          FloatOrder.is_number a = true
                          /\ FloatOrder.is_number b = true)
    by apply FloatOrder.leb_is_number.
  repeat split.
  - destruct (PrimFloat.ltb x y) eqn:E; [|reflexivity].
    destruct (L _ _ E). congruence.
  - destruct (PrimFloat.ltb y x) eqn:E; [|reflexivity].
    destruct (L _ _ E). congruence.
  - destruct (PrimFloat.leb x y) eqn:E; [|reflexivity].
    destruct (M _ _ E). congruence.
  - destruct (PrimFloat.leb y x) eqn:E; [|reflexivity].
    destruct (M _ _ E). congruence.
Qed.

(** X5. When one of the two scores is a NaN, every comparison with it is
    false, so rules 1 and 2 fail whatever the other score is, even a high
    one: the strategy is MODERATE_RISK when the other score lies in
    [0.4, 0.7] and CONTROLLED otherwise, never IMMEDIATE_CRISIS or
    SLOW_BURN. *)
Theorem get_intervention_strategy_nan (x other : float) :
  FloatOrder.is_number x = false ->
  let by_other :=
    if Py.le 0.4 other && Py.le other 0.7 then MODERATE_RISK
    else CONTROLLED in
  get_intervention_strategy x other = by_other
  /\ get_intervention_strategy other x = by_other
  /\ by_other <> IMMEDIATE_CRISIS /\ by_other <> SLOW_BURN.
Proof.
  intros H by_other.
  pose proof (compare_nan x 0.7 H) as (A1 & A2 & A3 & A4).
  pose proof (compare_nan x 0.4 H) as (B1 & B2 & B3 & B4).
  pose proof (compare_nan x 0.6 H) as (C1 & C2 & C3 & C4).
  unfold get_intervention_strategy, Py.gt, Py.lt, Py.le in *.
  rewrite A2, B1, B4, C2. cbn [andb orb].
  rewrite !andb_false_r. cbn [orb].
  rewrite orb_false_r.
  split; [reflexivity|]. split.
  - destruct (PrimFloat.ltb other 0.4); reflexivity.
  - subst by_other. destruct (_ && _); split; discriminate.
Qed.

Lemma get_intervention_strategy_nan_witness :
  get_intervention_strategy nan 0.9 = CONTROLLED
  /\ get_intervention_strategy 0.9 nan = CONTROLLED.
Proof.
  destruct (get_intervention_strategy_nan nan 0.9 eq_refl) as (H1 & H2 & _).
  split; [exact H1|exact H2].
Defined.

(** ** What the engine does not read *)

(** The engine with every stored threshold replaced. *)
Definition with_thresholds {numpy : NumPy} (f : string -> float -> float)
           (self : RiskEngine) : RiskEngine := {|
  models :=
    map (fun item =>
           (fst item, {| model := model (snd item);
                         threshold := f (fst item) (threshold (snd item)) |}))
        (models self);
  feature_names := feature_names self
|}.

Lemma score_windows_thresholds {numpy : NumPy} f items X acc g :
  score_windows
    (map (fun item =>
            (fst item, {| model := model (snd item);
                          threshold := f (fst item) (threshold (snd item)) |}))
         items) X acc g
  = score_windows items X acc g.
Proof.
  revert acc g. induction items as [|[window info] rest IH]; intros acc g.
  - reflexivity.
  - cbn [map score_windows fst snd model]. unfold np_bind.
    destruct (predict_proba (model info) X g) as [[proba|e] g1]; [|reflexivity].
    unfold np_lift. destruct (getitem2 proba 0 1) as [prob|e]; [|reflexivity].
    apply IH.
Qed.

(** The summary with another late-night share. *)
Definition with_late_night (x : float) (b : UserBehaviorSummary)
  : UserBehaviorSummary := {|
  total_bets := total_bets b; avg_bet_amount := avg_bet_amount b;
  total_deposits := total_deposits b; avg_deposit := avg_deposit b;
  loss_rate := loss_rate b;
  median_loss_gap_minutes := median_loss_gap_minutes b;
  late_night_percentage := x; session_variance := session_variance b;
  total_loss_amount := total_loss_amount b; betting_days := betting_days b
|}.

(** X6. Two things the engine stores or receives and never reads.  The
    threshold kept with each model (0.6 and 0.5 for the fallback models) has
    no effect: with any other thresholds the features, the scores, the risk
    factors and the generator are the same.  The late-night share is not
    among the features: changing it changes neither the feature matrix nor
    the scores nor the generator, only the risk factors can differ. *)
Theorem unread_inputs {numpy : NumPy}
        (self : RiskEngine) (b : UserBehaviorSummary) (g : RandomState) :
  (forall f,
     prepare_features (with_thresholds f self) b = prepare_features self b
     /\ predict_risk (with_thresholds f self) b g = predict_risk self b g)
  /\ (forall x,
        prepare_features self (with_late_night x b) = prepare_features self b
        /\ match predict_risk self b g with
           | (Return (scores, _), g') =>
               predict_risk self (with_late_night x b) g
               = (Return (scores,
                          identify_risk_factors (with_late_night x b)), g')
           | (Raise e, g') =>
               predict_risk self (with_late_night x b) g = (Raise e, g')
           end)
  /\ identify_risk_factors (with_late_night 0.5 demo_12345)
     <> identify_risk_factors (with_late_night 0.3 demo_12345).
Proof.
  split; [|split].
  - intros f. split; [reflexivity|].
    unfold predict_risk, np_bind at 1 3.
    change (prepare_features (with_thresholds f self) b)
      with (prepare_features self b).
    unfold np_lift. destruct (prepare_features self b) as [X|e]; [|reflexivity].
    unfold np_bind. cbn [with_thresholds models].
    rewrite score_windows_thresholds. reflexivity.
  - intros x.
    assert (E : prepare_features self (with_late_night x b)
                = prepare_features self b) by reflexivity.
    split; [exact E|].
    unfold predict_risk, np_bind at 1 3 4, np_lift. rewrite E.
    destruct (prepare_features self b) as [X|e]; [|reflexivity].
    unfold np_bind.
    destruct (score_windows (models self) X [] g) as [[scores|e] g'];
      reflexivity.
  - vm_compute. discriminate.
Qed.

(** ** The order of the scores *)

Lemma dict_setitem_fresh {V} (d : list (string * V)) k v :
  ~ In k (dict_keys d) -> dict_setitem d k v = d ++ [(k, v)].
Proof.
  induction d as [|[k' v'] rest IH]; simpl; intros N; [reflexivity|].
  destruct (String.eqb_spec k' k) as [->|_]; [tauto|].
  rewrite IH by tauto. reflexivity.
Qed.

Lemma score_windows_in_order {numpy : NumPy} items X acc g scores g' :
  NoDup (dict_keys acc ++ dict_keys items) ->
  score_windows items X acc g = (Return scores, g') ->
  dict_keys scores = dict_keys acc ++ dict_keys items.
Proof.
  revert acc g. induction items as [|[window info] rest IH]; intros acc g N.
  - simpl. intros H. injection H as <- _. rewrite app_nil_r. reflexivity.
  - cbn [score_windows]. unfold np_bind at 1.
    destruct (predict_proba (model info) X g) as [[proba|e] g1];
      [|discriminate].
    unfold np_bind at 1, np_lift.
    destruct (getitem2 proba 0 1) as [prob|e]; [|discriminate].
    assert (F : ~ In window (dict_keys acc)).
    { simpl in N. apply NoDup_remove_2 in N. rewrite in_app_iff in N. tauto. }
    rewrite (dict_setitem_fresh acc window prob F).
    intros H. apply IH in H.
    + rewrite H. unfold dict_keys. rewrite map_app, <- app_assoc. reflexivity.
    + unfold dict_keys in *. rewrite map_app, <- app_assoc. exact N.
Qed.

(** X7. [predict_risk] returns one score per window, in the order of the
    mapping [self.models]: the windows of the scores are those of the
    mapping, in its order (the keys of a mapping are distinct).  So the
    first score that [get_risk_level] scans is that of the first window of
    the mapping. *)
Theorem predict_risk_scores_in_order {numpy : NumPy}
        (self : RiskEngine) (b : UserBehaviorSummary) (g g' : RandomState)
        (scores : list (string * float)) (factors : list string) :
  NoDup (dict_keys (models self)) ->
  predict_risk self b g = (Return (scores, factors), g') ->
  dict_keys scores = dict_keys (models self)
  /\ length (dict_values scores) = length (models self).
Proof.
  intros N P.
  destruct (predict_risk_returns _ _ _ _ _ _ P) as (X & g0 & _ & S & _ & _).
  pose proof (score_windows_in_order _ _ [] _ _ _ N S) as K.
  simpl in K. split; [exact K|].
  unfold dict_values, dict_keys in *. rewrite length_map.
  rewrite <- (length_map fst scores), K, length_map. reflexivity.
Qed.

Lemma predict_risk_scores_in_order_witness :
  dict_keys [("7_day", 0.25%float); ("30_day", 0.25%float)]
  = dict_keys (models (RiskEngine_init (numpy := counting_numpy) None)).
Proof.
  refine (proj1 (predict_risk_scores_in_order (numpy := counting_numpy)
            (RiskEngine_init None) demo_12345 (0, 0%nat) (14, 1%nat)
            [("7_day", 0.25%float); ("30_day", 0.25%float)]
            (identify_risk_factors demo_12345) _ _)).
  - repeat constructor; simpl; intuition discriminate.
  - vm_compute. reflexivity.
Defined.

(** ** Failing models *)

(** The scoring loop over two stretches of the mapping. *)
Lemma score_windows_app {numpy : NumPy} before after X acc g :
  score_windows (before ++ after) X acc g
  = match score_windows before X acc g with
    | (Return acc', g') => score_windows after X acc' g'
    | (Raise e, g') => (Raise e, g')
    end.
Proof.
  revert acc g. induction before as [|[window info] rest IH]; intros acc g.
  - reflexivity.
  - rewrite <- app_comm_cons. cbn [score_windows]. unfold np_bind.
    destruct (predict_proba (model info) X g) as [[proba|e] g1]; [|reflexivity].
    unfold np_lift.
    destruct (getitem2 proba 0 1) as [prob|e]; [|reflexivity].
    apply IH.
Qed.

(** X8. [predict_risk] has no handler.  When the feature extraction raises,
    the exception leaves [predict_risk] and no model is asked (the generator
    is untouched).  Otherwise the models are asked in the order of the
    mapping, and when one raises, or returns a matrix without an entry at
    [0, 1] (an [IndexError]), that exception leaves [predict_risk] with the
    generator as that model left it: the later models are not asked and
    neither scores nor risk factors are returned. *)
Theorem predict_risk_propagates {numpy : NumPy}
        (self : RiskEngine) (b : UserBehaviorSummary) :
  (forall e g,
     prepare_features self b = Raise e ->
     predict_risk self b g = (Raise e, g))
  /\ (forall X before window info after scores g g1 g2 e,
        prepare_features self b = Return X ->
        models self = before ++ (window, info) :: after ->
        score_windows before X [] g = (Return scores, g1) ->
        (predict_proba (model info) X g1 = (Raise e, g2)
         \/ exists proba,
              predict_proba (model info) X g1 = (Return proba, g2)
              /\ getitem2 proba 0 1 = Raise e) ->
        predict_risk self b g = (Raise e, g2))
  /\ (forall p : float,
        getitem2 ([] : list (list float)) 0 1 = Raise IndexError
        /\ getitem2 [[p]] 0 1 = Raise IndexError
        /\ getitem2 [[(1 - p)%float; p]] 0 1 = Return p).
Proof.
  split; [|split].
  - intros e g E. unfold predict_risk, np_bind, np_lift. rewrite E.
    reflexivity.
  - intros X before window info after scores g g1 g2 e E M S F.
    unfold predict_risk, np_bind at 1, np_lift at 1. rewrite E, M.
    unfold np_bind at 1. rewrite score_windows_app, S.
    cbn [score_windows]. unfold np_bind at 1.
    destruct F as [F|(proba & F & I)]; rewrite F; [reflexivity|].
    unfold np_bind at 1, np_lift. rewrite I. reflexivity.
  - intros p. repeat split.
Qed.

(** ** The one gap at which the denominator vanishes *)

Section ZeroDenominator.
Import Rounding.

Definition minus_one_sf : spec_float :=
  S754_finite true 4503599627370496 (-52).
Definition minus_five_sf : spec_float :=
  S754_finite true 5629499534213120 (-50).

Lemma eqb_zero x :
  PrimFloat.eqb x 0 = true -> exists s, Prim2SF x = S754_zero s.
Proof.
  rewrite FloatAxioms.eqb_spec, Rebet.Prim2SF_zero. unfold SFeqb.
  destruct (Prim2SF x) as [s|[]| |[] m e]; simpl; try discriminate.
  eauto.
Qed.

(** Rounding a real that is at least the least positive float does not
    give 0. *)
Lemma rounds_to_pos X c z :
  (pow2 (-1074) <= X)%Q -> rounds_to X c z -> 0 < z.
Proof.
  intros HX R. pose proof R as (C & m & l & Hm & H & ->).
  pose proof (canon_exp_ge X c C) as Hc.
  destruct (Z.eq_dec c (-1074)) as [->|N].
  - pose proof (at_scale_ge_pow (-1074) m l X 0 ltac:(lia) H HX).
    pose proof (round_nearest_even_bounds m l). simpl in *. lia.
  - pose proof (rounds_to_normal X c _ R ltac:(lia)). lia.
Qed.

Lemma finish_zero s s' r s0 :
  finish s r = S754_zero s0 -> finish s' r = S754_zero s'.
Proof.
  unfold finish. destruct (shr_m (fst r)); [reflexivity| |discriminate].
  destruct (snd r <=? emax - prec); discriminate.
Qed.

Lemma binary_round_not_zero s m e s0 :
  -1074 <= e -> binary_round prec emax s m e <> S754_zero s0.
Proof.
  intros He H.
  assert (H' : binary_round prec emax false m e = S754_zero false).
  { revert H. unfold binary_round. destruct (shl_align _ _ _) as [mz ez].
    rewrite !binary_round_aux_finish. apply finish_zero. }
  destruct (binary_round_spec m e) as (c & z & R & F).
  rewrite H' in F. apply float_of_cases in F. destruct F as [_ ->].
  assert (P : (pow2 (-1074) <= F2Q m e)%Q).
  { unfold F2Q. pose proof (pow2_le (-1074) e He).
    pose proof (pow2_pos e).
    assert (1 <= inject_Z (Z.pos m))%Q
      by (change 1%Q with (inject_Z 1); rewrite <- Zle_Qle; lia).
    assert (1 * pow2 e <= inject_Z (Z.pos m) * pow2 e)%Q
      by (apply Qmult_le_compat_r; lra).
    lra. }
  pose proof (rounds_to_pos _ _ _ P R). lia.
Qed.

(** Two canonical floats of the same value are the same float. *)
Lemma F2Q_eq_canonical m1 e1 m2 e2 :
  bounded prec emax m1 e1 = true -> bounded prec emax m2 e2 = true ->
  (F2Q m1 e1 == F2Q m2 e2)%Q -> m1 = m2 /\ e1 = e2.
Proof.
  intros B1 B2 E.
  pose proof (SFcompare_F2Q m1 e1 m2 e2 B1 B2) as C.
  apply Qeq_alt in E. rewrite E in C. cbn [SFcompare] in C.
  destruct (Z.compare_spec e1 e2) as [Ee|L|G]; try discriminate.
  change (Pos.compare_cont Eq m1 m2) with (Pos.compare m1 m2) in C.
  destruct (Pos.compare_spec m1 m2) as [Em|L|G]; try discriminate. auto.
Qed.

(** [1 + Y] is a zero only for [Y = -1]. *)
Lemma add_one_zero Y s :
  valid_binary Y = true ->
  SFadd prec emax Rebet.one_sf Y = S754_zero s -> Y = minus_one_sf.
Proof.
  intros V H. destruct Y as [sy|sy| |sy my ey]; try discriminate H.
  simpl in V. revert H. unfold Rebet.one_sf. cbn [SFadd].
  set (m1 := 4503599627370496%positive).
  assert (B1 : bounded prec emax m1 (-52) = true) by exact Rebet.one_bounded.
  pose proof (shl_align_spec m1 (-52) (Z.min (-52) ey)) as [A1 A2].
  pose proof (shl_align_spec my ey (Z.min (-52) ey)) as [A3 A4].
  destruct (shl_align m1 (-52) (Z.min (-52) ey)) as [a ea].
  destruct (shl_align my ey (Z.min (-52) ey)) as [b eb].
  cbn [fst snd] in *.
  pose proof (bounded_lt_pow my ey V) as [_ Le].
  assert (Ea : ea = Z.min (-52) ey) by lia.
  assert (Eb : eb = Z.min (-52) ey) by lia.
  clear A1 A3. subst ea eb.
  unfold binary_normalize. cbn [cond_Zopp].
  destruct (Z.pos a + cond_Zopp sy (Z.pos b)) as [|p|p] eqn:S; intros H.
  - destruct sy; [|simpl in S; lia]. simpl in S.
    assert (Eab : a = b) by lia. subst b.
    assert (E : (F2Q my ey == F2Q m1 (-52))%Q).
    { rewrite <- (F2Q_shl my ey (Z.min (-52) ey) a ltac:(lia) A4).
      rewrite <- (F2Q_shl m1 (-52) (Z.min (-52) ey) a ltac:(lia) A2).
      reflexivity. }
    destruct (F2Q_eq_canonical _ _ _ _ V B1 E) as [-> ->]. reflexivity.
  - exfalso. revert H. apply binary_round_not_zero. lia.
  - exfalso. revert H. apply binary_round_not_zero. lia.
Qed.


Lemma inject_Z_pow2_eq z d :
  0 <= d -> (inject_Z z == pow2 d)%Q -> z = 2 ^ d.
Proof.
  intros Hd H. rewrite <- inject_Z_pow2 in H by lia.
  apply inject_Z_injective. exact H.
Qed.

(** A quotient that rounds to 1 lies within half a unit in the last place
    of 1. *)
Lemma rounds_to_one X c z :
  rounds_to X c z -> (inject_Z z * pow2 c == 1)%Q ->
  (1 - (1 # 2) * pow2 (-53) <= X /\ X <= 1 + (1 # 2) * pow2 (-52))%Q.
Proof.
  intros R V.
  pose proof (rounds_to_range X c z R) as [Z0 Z1].
  pose proof R as (C & m & l & Hm & H & Ez).
  pose proof (canon_exp_ge X c C) as Hc.
  pose proof (pow2_pos c) as Pc.
  assert (Zq : (inject_Z z <= pow2 53)%Q).
  { rewrite <- inject_Z_pow2 by lia. rewrite <- Zle_Qle. assumption. }
  assert (Nc : -1074 < c).
  { destruct (Z.eq_dec c (-1074)) as [->|N]; [exfalso|lia].
    assert (inject_Z z * pow2 (-1074) <= pow2 53 * pow2 (-1074))%Q
      by (apply Qmult_le_compat_r; lra).
    rewrite <- pow2_add in H0.
    assert (pow2 (53 + -1074) < pow2 0)%Q by (apply pow2_lt; lia).
    rewrite pow2_0 in H1. lra. }
  pose proof (rounds_to_normal X c z R Nc) as Z52.
  assert (Zq' : (pow2 52 <= inject_Z z)%Q).
  { rewrite <- inject_Z_pow2 by lia. rewrite <- Zle_Qle. assumption. }
  assert (U : c <= -52).
  { assert (pow2 52 * pow2 c <= inject_Z z * pow2 c)%Q
      by (apply Qmult_le_compat_r; lra).
    rewrite <- pow2_add in H0.
    assert (pow2 (52 + c) <= pow2 0)%Q by (rewrite pow2_0; lra).
    apply pow2_le_inv in H1. lia. }
  assert (L : -53 <= c).
  { assert (inject_Z z * pow2 c <= pow2 53 * pow2 c)%Q
      by (apply Qmult_le_compat_r; lra).
    rewrite <- pow2_add in H0.
    assert (pow2 0 <= pow2 (53 + c))%Q by (rewrite pow2_0; lra).
    apply pow2_le_inv in H1. lia. }
  unfold at_scale in H.
  pose proof (located_bounds m l _ H) as [Lo Hi].
  pose proof (round_nearest_even_bounds m l) as Rb.
  destruct C as [[-> _]|[_ [M1 M2]]]; [lia|].
  assert (c = -52 \/ c = -53) as [->| ->] by lia.
  - (* the quotient is in [1, 2) and rounds down to 1 *)
    assert (Zv : z = 2 ^ 52).
    { apply inject_Z_pow2_eq; [lia|].
      assert (E : (inject_Z z == inject_Z z * pow2 (-52) * pow2 52)%Q).
      { rewrite <- Qmult_assoc, <- pow2_add. change (-52 + 52) with 0.
        rewrite pow2_0. ring. }
      rewrite E, V. ring. }
    change (- -52) with 52 in *. change (-52 + 53 - 1) with 0 in M1.
    rewrite pow2_0 in M1.
    set (x := (X * pow2 52)%Q) in *.
    assert (X52 : (X == x * pow2 (-52))%Q).
    { unfold x. rewrite <- Qmult_assoc, (pow2_opp_mul 52). ring. }
    assert (Xlo : (pow2 52 <= x)%Q).
    { unfold x. pose proof (pow2_pos 52).
      assert (1 * pow2 52 <= X * pow2 52)%Q
        by (apply Qmult_le_compat_r; lra). lra. }
    assert (Mv : m = 2 ^ 52).
    { assert (inject_Z (2 ^ 52) < inject_Z (m + 1))%Q.
      { rewrite inject_Z_plus, inject_Z_pow2 by lia.
        change (inject_Z 1) with 1%Q. lra. }
      rewrite <- Zlt_Qlt in H0. lia. }
    assert (Xhi : (x <= pow2 52 + (1 # 2))%Q).
    { rewrite <- inject_Z_pow2 by lia. rewrite <- Mv.
      rewrite Zv in Ez. clear - H Ez Mv.
      destruct l as [|[]]; simpl in H; try lra.
      exfalso. cbn [round_nearest_even] in Ez. lia. }
    clearbody x. pose proof (pow2_pos (-52)) as P.
    pose proof (pow2_pos (-53)).
    assert (E1 : (pow2 52 * pow2 (-52) == 1)%Q)
      by (rewrite <- pow2_add; reflexivity).
    assert (x * pow2 (-52) <= (pow2 52 + (1 # 2)) * pow2 (-52))%Q
      by (apply Qmult_le_compat_r; lra).
    split; [rewrite X52|rewrite X52]; nra.
  - (* the quotient is in [1/2, 1) and rounds up to 1 *)
    assert (Zv : z = 2 ^ 53).
    { apply inject_Z_pow2_eq; [lia|].
      assert (E : (inject_Z z == inject_Z z * pow2 (-53) * pow2 53)%Q).
      { rewrite <- Qmult_assoc, <- pow2_add. change (-53 + 53) with 0.
        rewrite pow2_0. ring. }
      rewrite E, V. ring. }
    change (- -53) with 53 in *. change (-53 + 53) with 0 in M2.
    rewrite pow2_0 in M2.
    set (x := (X * pow2 53)%Q) in *.
    assert (X53 : (X == x * pow2 (-53))%Q).
    { unfold x. rewrite <- Qmult_assoc, (pow2_opp_mul 53). ring. }
    assert (Xhi : (x < pow2 53)%Q).
    { unfold x. pose proof (pow2_pos 53).
      assert (X * pow2 53 < 1 * pow2 53)%Q
        by (apply Qmult_lt_compat_r; lra). lra. }
    assert (Mv : m = 2 ^ 53 - 1).
    { assert (inject_Z m < inject_Z (2 ^ 53))%Q
        by (rewrite inject_Z_pow2 by lia; lra).
      rewrite <- Zlt_Qlt in H0. lia. }
    assert (Xlo : (pow2 53 - (1 # 2) <= x)%Q).
    { assert (Em : (inject_Z m == pow2 53 - 1)%Q).
      { rewrite Mv. unfold Z.sub. rewrite inject_Z_plus, inject_Z_pow2 by lia.
        reflexivity. }
      rewrite Zv in Ez. clear - H Ez Mv Em.
      destruct l as [|[]]; simpl in H; try lra; exfalso;
        cbn [round_nearest_even] in Ez; lia. }
    clearbody x. pose proof (pow2_pos (-53)) as P.
    assert (E1 : (pow2 53 * pow2 (-53) == 1)%Q)
      by (rewrite <- pow2_add; reflexivity).
    assert (E2 : (pow2 (-52) == 2 * pow2 (-53))%Q)
      by (change (-52) with (-53 + 1); apply pow2_succ).
    assert ((pow2 53 - (1 # 2)) * pow2 (-53) <= x * pow2 (-53))%Q
      by (apply Qmult_le_compat_r; lra).
    split; [rewrite X53|rewrite X53]; nra.
Qed.


(** [G / 5] is [-1] only for [G = -5]. *)
Lemma div_five_minus_one G :
  valid_binary G = true ->
  SFdiv prec emax G Rebet.five_sf = minus_one_sf -> G = minus_five_sf.
Proof.
  intros V H. destruct G as [sx|sx| |sx mx ex]; try discriminate H.
  simpl in V. revert H. unfold Rebet.five_sf. cbn [SFdiv].
  set (m5 := 5629499534213120%positive).
  pose proof (div_core_spec (Z.pos mx) ex (Z.pos m5) (-50)
                ltac:(lia) ltac:(lia)) as D.
  destruct (SFdiv_core_binary prec emax (Z.pos mx) ex (Z.pos m5) (-50))
    as [[q e'] l].
  destruct D as (Hq & Hl & He).
  fold (F2Q mx ex) in Hl. fold (F2Q m5 (-50)) in Hl.
  assert (Five : (F2Q m5 (-50) == 5)%Q) by reflexivity.
  pose proof (F2Q_pos mx ex) as Px.
  assert (X0 : (0 < F2Q mx ex / F2Q m5 (-50))%Q).
  { apply Qlt_shift_div_l; lra. }
  destruct (binary_round_aux_spec (xorb sx false) q e' l _ X0 Hq Hl He)
    as (c & z & R & F).
  intros H. rewrite H in F. apply float_of_cases in F.
  destruct F as (Es & _ & Val).
  assert (One : (F2Q 4503599627370496 (-52) == 1)%Q) by reflexivity.
  rewrite One in Val. symmetry in Val.
  destruct (rounds_to_one _ c z R Val) as [Lo Hi].
  assert (Sx : sx = true) by (destruct sx; [reflexivity|discriminate Es]).
  subst sx. clear Es H R Val.
  (* the dividend is within half a unit in the last place of 5 *)
  set (Fx := F2Q mx ex) in *.
  assert (Lo5 : (5 - (5 # 2) * pow2 (-53) <= Fx)%Q).
  { assert (E : (Fx == Fx / F2Q m5 (-50) * 5)%Q)
      by (rewrite Five; field).
    rewrite E. lra. }
  assert (Hi5 : (Fx <= 5 + (5 # 2) * pow2 (-52))%Q).
  { assert (E : (Fx == Fx / F2Q m5 (-50) * 5)%Q)
      by (rewrite Five; field).
    rewrite E. lra. }
  clear Lo Hi Hl X0.
  assert (P53 : (pow2 (-53) == 1 # 9007199254740992)%Q) by reflexivity.
  assert (P52 : (pow2 (-52) == 1 # 4503599627370496)%Q) by reflexivity.
  rewrite P53 in Lo5. rewrite P52 in Hi5.
  (* so its exponent is that of 5 *)
  assert (Ex : ex = -50).
  { pose proof (F2Q_upper mx ex V) as Up. fold Fx in Up.
    assert (A : (pow2 2 < pow2 (ex + 53))%Q).
    { assert (pow2 2 == 4)%Q by reflexivity. lra. }
    apply pow2_lt_inv in A.
    pose proof (F2Q_lower mx ex V ltac:(lia)) as Lw. fold Fx in Lw.
    assert (B : (pow2 (ex + 52) < pow2 3)%Q).
    { assert (pow2 3 == 8)%Q by reflexivity. lra. }
    apply pow2_lt_inv in B. lia. }
  subst ex.
  (* and its mantissa too *)
  assert (Mx : Z.pos mx = Z.pos m5).
  { unfold Fx, F2Q in Lo5, Hi5.
    assert (P50 : (pow2 (-50) == 1 # 1125899906842624)%Q) by reflexivity.
    rewrite P50 in Lo5, Hi5.
    assert (L1 : (inject_Z (Z.pos m5 - 1) < inject_Z (Z.pos mx))%Q).
    { unfold Z.sub. rewrite inject_Z_plus.
      change (inject_Z (Z.pos m5)) with (5629499534213120 # 1)%Q.
      change (inject_Z (- (1))) with (- (1))%Q. lra. }
    assert (L2 : (inject_Z (Z.pos mx) < inject_Z (Z.pos m5 + 1))%Q).
    { rewrite inject_Z_plus.
      change (inject_Z (Z.pos m5)) with (5629499534213120 # 1)%Q.
      change (inject_Z 1) with 1%Q. lra. }
    rewrite <- Zlt_Qlt in L1, L2. lia. }
  injection Mx as ->. reflexivity.
Qed.

Lemma Prim2SF_minus_five : Prim2SF (-5) = minus_five_sf.
Proof. vm_compute. reflexivity. Qed.

(** The denominator [1 + gap/5] is zero for the gap -5 and for no other
    float. *)
Lemma zero_denominator gap :
  PrimFloat.eqb (1 + gap / 5) 0 = true <-> gap = (-5)%float.
Proof.
  split; [|intros ->; vm_compute; reflexivity].
  intros H. apply eqb_zero in H. destruct H as [s H].
  rewrite add_spec, Rebet.Prim2SF_one in H.
  apply add_one_zero in H; [|apply Prim2SF_valid].
  rewrite div_spec, Rebet.Prim2SF_five in H.
  apply div_five_minus_one in H; [|apply Prim2SF_valid].
  rewrite <- Prim2SF_minus_five in H.
  rewrite <- (SF2Prim_Prim2SF gap), H, SF2Prim_Prim2SF. reflexivity.
Qed.

End ZeroDenominator.

(** X9. [1 / (1 + gap/5)] divides by zero for the gap -5.0 and for no
    other float: [immediate_rebet_pct] raises [ZeroDivisionError] exactly at
    that gap, raises nothing else, and on every other float -- negative
    gaps, infinities and NaN included -- returns the IEEE quotient. *)
Theorem immediate_rebet_pct_raises_only_at_minus_5 (gap : float) :
  (immediate_rebet_pct gap = Raise ZeroDivisionError <-> gap = (-5)%float)
  /\ (gap <> (-5)%float ->
      immediate_rebet_pct gap = Return (1 / (1 + gap / 5))%float)
  /\ (forall e, immediate_rebet_pct gap = Raise e -> e = ZeroDivisionError)
  /\ immediate_rebet_pct (-5.000000000000001) = Return (-4503599627370496)%float
  /\ immediate_rebet_pct neg_infinity = Return (-0)%float.
Proof.
  assert (E : immediate_rebet_pct gap
              = if PrimFloat.eqb (1 + gap / 5) 0 then Raise ZeroDivisionError
                else Return (1 / (1 + gap / 5))%float).
  { unfold immediate_rebet_pct, float_truediv.
    change (PrimFloat.eqb 5 0) with false. reflexivity. }
  pose proof (zero_denominator gap) as Z.
  rewrite E. destruct (PrimFloat.eqb (1 + gap / 5) 0).
  - split; [tauto|]. split; [intros N; exfalso; tauto|].
    split; [intros e H; injection H as <-; reflexivity|].
    split; vm_compute; reflexivity.
  - split; [split; [discriminate|]|].
    { intros G. apply Z in G. discriminate G. }
    split; [reflexivity|]. split; [discriminate|].
    split; vm_compute; reflexivity.
Qed.

Section SignedTrueDivision.
Import Rounding.

(** The quotient of two non-zero integers: a float when its magnitude is
    below the threshold, [OverflowError] from the threshold on. *)
Lemma int_truediv_magnitude a b :
  a <> 0 -> b <> 0 ->
  (Z.abs a < overflow_threshold * Z.abs b ->
   exists q, int_truediv a b = Return q)
  /\ (overflow_threshold * Z.abs b <= Z.abs a ->
      int_truediv a b = Raise OverflowError).
Proof.
  intros Na Nb. unfold int_truediv.
  destruct (Z.eqb_spec b 0) as [|_]; [lia|].
  destruct (Z.eqb_spec a 0) as [|_]; [lia|].
  generalize (xorb (a <? 0) (b <? 0)). intros s.
  assert (Ha : 0 < Z.abs a) by lia. assert (Hb : 0 < Z.abs b) by lia.
  revert Ha Hb. generalize (Z.abs a) (Z.abs b). clear a b Na Nb.
  intros a b Ha Hb.
  pose proof (div_core_spec a 0 b 0 Ha Hb) as H.
  destruct (SFdiv_core_binary prec emax a 0 b 0) as [[q e] l].
  destruct H as (Hq & Hl & He).
  assert (A : (0 < inject_Z a)%Q)
    by (change 0%Q with (inject_Z 0); rewrite <- Zlt_Qlt; lia).
  assert (B : (0 < inject_Z b)%Q)
    by (change 0%Q with (inject_Z 0); rewrite <- Zlt_Qlt; lia).
  assert (P0 : (pow2 0 == 1)%Q) by reflexivity.
  assert (B' : (0 < inject_Z b * pow2 0)%Q) by (rewrite P0; lra).
  assert (X0 : (0 < inject_Z a * pow2 0 / (inject_Z b * pow2 0))%Q).
  { apply Qlt_shift_div_l; [assumption|]. rewrite P0. lra. }
  destruct (binary_round_aux_spec s q e l _ X0 Hq Hl He) as (c & z & R & F).
  apply float_of_cases in F.
  split; intros Hab.
  - assert (L : (inject_Z a * pow2 0 / (inject_Z b * pow2 0)
                 < inject_Z overflow_threshold)%Q).
    { apply Qlt_shift_div_r; [assumption|].
      rewrite P0. rewrite !Qmult_1_r, <- inject_Z_mult, <- Zlt_Qlt.
      assumption. }
    pose proof (rounds_to_below_overflow _ c z L R) as Lt.
    destruct (binary_round_aux prec emax s q e l) as [s'|s'| |s' m' e'].
    + eexists. reflexivity.
    + exfalso. destruct F as [_ F]. lra.
    + contradiction.
    + eexists. reflexivity.
  - assert (L : (inject_Z overflow_threshold
                 <= inject_Z a * pow2 0 / (inject_Z b * pow2 0))%Q).
    { apply Qle_shift_div_l; [assumption|].
      rewrite P0. rewrite !Qmult_1_r, <- inject_Z_mult, <- Zle_Qle.
      assumption. }
    pose proof (rounds_to_overflow _ c z L R) as Ge.
    destruct (binary_round_aux prec emax s q e l) as [s'|s'| |s' m' e'].
    + exfalso. destruct F as [_ ->]. pose proof (pow2_pos 1024).
      change (inject_Z 0) with 0%Q in Ge. lra.
    + reflexivity.
    + contradiction.
    + exfalso. destruct F as (_ & Bd & V).
      pose proof (F2Q_upper m' e' Bd).
      pose proof (bounded_canonical m' e' Bd) as [_ ?].
      assert (pow2 (e' + 53) <= pow2 1024)%Q by (apply pow2_le; lia).
      unfold F2Q in *. lra.
Qed.

End SignedTrueDivision.

(** Integer true division, by cases. *)
Lemma int_truediv_cases a b :
  (b = 0 /\ int_truediv a b = Raise ZeroDivisionError)
  \/ (b <> 0 /\ overflow_threshold * Z.abs b <= Z.abs a
      /\ int_truediv a b = Raise OverflowError)
  \/ (b <> 0 /\ Z.abs a < overflow_threshold * Z.abs b
      /\ exists q, int_truediv a b = Return q).
Proof.
  destruct (Z.eq_dec b 0) as [->|Nb]; [left; auto|right].
  destruct (Z.eq_dec a 0) as [->|Na].
  - right. split; [assumption|]. split.
    + assert (0 < overflow_threshold) by (vm_compute; reflexivity).
      simpl Z.abs. nia.
    + unfold int_truediv. destruct (Z.eqb_spec b 0); [contradiction|].
      simpl. eexists. reflexivity.
  - destruct (int_truediv_magnitude a b Na Nb) as [R O].
    destruct (Z.lt_ge_cases (Z.abs a) (overflow_threshold * Z.abs b)); auto.
Qed.

(** X10. What [prepare_features] raises, for every summary whatever its
    fields.  It raises [OverflowError] exactly when the magnitude of
    [total_bets] is at least (2^1024 - 2^970) times [max(betting_days, 1)];
    otherwise it raises [ZeroDivisionError] exactly when the gap is -5.0;
    otherwise it returns the matrix, one row with an entry per configured
    name.  It raises nothing else, and never divides by [betting_days]
    itself. *)
Theorem prepare_features_errors {numpy : NumPy}
        (self : RiskEngine) (b : UserBehaviorSummary) :
  let days := Z.max (betting_days b) 1 in
  let gap := median_loss_gap_minutes b in
  (prepare_features self b = Raise OverflowError
   <-> overflow_threshold * days <= Z.abs (total_bets b))
  /\ (prepare_features self b = Raise ZeroDivisionError
      <-> Z.abs (total_bets b) < overflow_threshold * days
          /\ gap = (-5)%float)
  /\ ((exists row, prepare_features self b = Return [row]
                   /\ length row = length (feature_names self))
      <-> Z.abs (total_bets b) < overflow_threshold * days
          /\ gap <> (-5)%float)
  /\ (forall e, prepare_features self b = Raise e ->
                e = OverflowError \/ e = ZeroDivisionError)
  /\ days <> 0.
Proof.
  intros days gap.
  set (denominator := (1 + gap / 5)%float).
  pose proof (zero_denominator gap) as Zd. fold denominator in Zd.
  assert (Hd : 0 < days) by (unfold days; lia).
  assert (E : prepare_features self b
    = let* bets_per_day := int_truediv (total_bets b) days in
      let* rebet := float_truediv 1 denominator in
      let* features := features_dict b in
      Return (np_array [ map (fun f => dict_get features f (PyInt 0))
                             (feature_names self) ])).
  { unfold prepare_features, features_dict. fold days.
    destruct (int_truediv (total_bets b) days) as [bpd|e]; [|reflexivity].
    cbn [pybind].
    change (immediate_rebet_pct (median_loss_gap_minutes b))
      with (float_truediv 1 denominator).
    destruct (float_truediv 1 denominator) as [pct|e]; reflexivity. }
  assert (F : forall bpd pct,
    int_truediv (total_bets b) days = Return bpd ->
    float_truediv 1 denominator = Return pct ->
    exists row, prepare_features self b = Return [row]
                /\ length row = length (feature_names self)).
  { intros bpd pct E1 E2. unfold prepare_features, features_dict. fold days.
    rewrite E1. cbn [pybind].
    change (immediate_rebet_pct (median_loss_gap_minutes b))
      with (float_truediv 1 denominator).
    rewrite E2. cbn [pybind]. rewrite np_array_row.
    eexists. split; [reflexivity|]. rewrite !length_map. reflexivity. }
  destruct (int_truediv_cases (total_bets b) days)
    as [[Z0 _]|[(_ & Ov & R)|(_ & Fin & q & R)]]; [lia| |];
    rewrite (Z.abs_eq days) in * by lia.
  - assert (P : prepare_features self b = Raise OverflowError)
      by (rewrite E, R; reflexivity).
    rewrite P. split; [tauto|]. split; [|split; [|split]].
    + split; [discriminate|]. lia.
    + split; [intros (row & H & _); discriminate H|]. lia.
    + intros e H. injection H as <-. auto.
    + lia.
  - unfold float_truediv in *.
    destruct (PrimFloat.eqb denominator 0) eqn:Z.
    + assert (P : prepare_features self b = Raise ZeroDivisionError)
        by (rewrite E, R; reflexivity).
      assert (G : gap = (-5)%float) by (apply Zd; reflexivity).
      rewrite P. split; [|split; [|split; [|split]]].
      * split; [discriminate|]. lia.
      * tauto.
      * split; [intros (row & H & _); discriminate H|].
        intros [_ H]. contradiction.
      * intros e H. injection H as <-. auto.
      * lia.
    + destruct (F q _ R eq_refl) as (row & P & L).
      assert (G : gap <> (-5)%float).
      { intros G. apply Zd in G. discriminate G. }
      rewrite P. split; [|split; [|split; [|split]]].
      * split; [discriminate|]. lia.
      * split; [discriminate|]. intros [_ H]. contradiction.
      * split; [tauto|]. intros _. exists row. auto.
      * discriminate.
      * lia.
Qed.

(** * The web layer *)

(** ** Rounding a score to three places *)

Lemma round_half_even_bounds num den k :
  0 < den -> 0 <= num <= k * den ->
  0 <= round_half_even num den <= k.
Proof.
  intros Hd [H0 Hk]. unfold round_half_even.
  pose proof (Z.div_mod num den ltac:(lia)) as E.
  pose proof (Z.mod_pos_bound num den Hd) as [R0 R1].
  assert (Q0 : 0 <= num / den) by (apply Z.div_pos; lia).
  assert (Qk : num / den <= k).
  { apply Z.div_le_upper_bound; [assumption|]. lia. }
  destruct (Z.eq_dec (num / den) k) as [Ek|Nk].
  - assert (num mod den = 0) by nia.
    replace (2 * (num mod den) ?= den) with Lt; [lia|].
    symmetry. apply Z.compare_lt_iff. lia.
  - destruct (2 * (num mod den) ?= den); [destruct (Z.even _)| |]; lia.
Qed.

(** Equality of decoded floats, decided. *)
Definition SF_eqb (x y : spec_float) : bool :=
  match x, y with
  | S754_zero s, S754_zero s' => Bool.eqb s s'
  | S754_infinity s, S754_infinity s' => Bool.eqb s s'
  | S754_nan, S754_nan => true
  | S754_finite s m e, S754_finite s' m' e' =>
      Bool.eqb s s' && Pos.eqb m m' && Z.eqb e e'
  | _, _ => false
  end.

Lemma SF_eqb_eq x y : SF_eqb x y = true -> x = y.
Proof.
  destruct x as [s|s| |s m e], y as [s'|s'| |s' m' e']; simpl;
    try discriminate; try reflexivity.
  - intros H. apply eqb_prop in H. congruence.
  - intros H. apply eqb_prop in H. congruence.
  - intros H. apply andb_prop in H. destruct H as [H E].
    apply andb_prop in H. destruct H as [S M].
    apply eqb_prop in S. apply Pos.eqb_eq in M. apply Z.eqb_eq in E.
    congruence.
Qed.

Lemma Prim2SF_eq x y : Prim2SF x = Prim2SF y -> x = y.
Proof.
  intros H. rewrite <- (SF2Prim_Prim2SF x), <- (SF2Prim_Prim2SF y), H.
  reflexivity.
Qed.

(** The decimal [n / 1000] as a float lies in [0, 1] and rounds to itself. *)
Definition thousandth_ok (n : Z) : bool :=
  match int_truediv n 1000 with
  | Return y =>
      PrimFloat.leb 0 y && PrimFloat.leb y 1
      && match float_round y 3 with
         | Return y' => SF_eqb (Prim2SF y') (Prim2SF y)
         | Raise _ => false
         end
  | Raise _ => false
  end.

Lemma thousandths_ok :
  forallb thousandth_ok (map Z.of_nat (seq 1 1000)) = true.
Proof. vm_compute. reflexivity. Qed.

Lemma thousandth n :
  1 <= n <= 1000 ->
  exists y,
    int_truediv n 1000 = Return y
    /\ PrimFloat.leb 0 y = true /\ PrimFloat.leb y 1 = true
    /\ float_round y 3 = Return y.
Proof.
  intros H.
  pose proof thousandths_ok as T. rewrite forallb_forall in T.
  specialize (T n).
  assert (I : In n (map Z.of_nat (seq 1 1000))).
  { apply in_map_iff. exists (Z.to_nat n). split; [lia|].
    apply in_seq. lia. }
  specialize (T I). unfold thousandth_ok in T.
  destruct (int_truediv n 1000) as [y|e]; [|discriminate].
  apply andb_prop in T. destruct T as [T F].
  apply andb_prop in T. destruct T as [L0 L1].
  exists y. split; [reflexivity|]. split; [assumption|]. split; [assumption|].
  destruct (float_round y 3) as [y'|e]; [|discriminate].
  apply SF_eqb_eq, Prim2SF_eq in F. congruence.
Qed.

(** A float in [0, 1], scaled by 1000 and rounded, is between 0 and 1000. *)
Lemma scaled_unit_interval m e :
  bounded prec emax m e = true ->
  (Rounding.F2Q m e <= 1)%Q ->
  0 <= (if 0 <=? e then Z.pos m * 2 ^ e * 1000
        else round_half_even (Z.pos m * 1000) (2 ^ (- e))) <= 1000.
Proof.
  intros B L. unfold Rounding.F2Q in L.
  destruct (Z.leb_spec 0 e) as [He|He].
  - rewrite <- Rounding.inject_Z_pow2, <- inject_Z_mult in L by lia.
    change 1%Q with (inject_Z 1) in L. rewrite <- Zle_Qle in L.
    assert (0 < 2 ^ e) by (apply Z.pow_pos_nonneg; lia). nia.
  - assert (P : 0 < 2 ^ (- e)) by (apply Z.pow_pos_nonneg; lia).
    apply round_half_even_bounds; [assumption|].
    replace e with (- (- e)) in L by lia.
    apply Rounding.scale_ge in L.
    rewrite <- Rounding.inject_Z_pow2 in L by lia.
    rewrite Qmult_1_l, <- Zle_Qle in L. lia.
Qed.

Lemma float_round_unit_interval x :
  PrimFloat.leb 0 x = true -> PrimFloat.leb x 1 = true ->
  exists y,
    float_round x 3 = Return y
    /\ PrimFloat.leb 0 y = true /\ PrimFloat.leb y 1 = true
    /\ float_round y 3 = Return y.
Proof.
  intros H0 H1.
  pose proof (Rebet.Prim2SF_nonneg x H0) as N.
  pose proof H1 as H1'.
  rewrite FloatAxioms.leb_spec, Rebet.Prim2SF_one in H1'.
  unfold float_round at 1.
  destruct (Prim2SF x) as [s|s| |s m e] eqn:E.
  - exists x. repeat split; try assumption.
    unfold float_round. rewrite E. reflexivity.
  - simpl in N. subst s. discriminate H1'.
  - contradiction.
  - destruct N as [-> B].
    apply (Rounding.SFleb_F2Q _ _ _ _ B Rebet.one_bounded) in H1'.
    assert (One : (Rounding.F2Q 4503599627370496 (-52) == 1)%Q)
      by reflexivity.
    rewrite One in H1'.
    pose proof (scaled_unit_interval m e B H1') as R.
    change (10 ^ Z.of_nat 3) with 1000. cbv zeta.
    set (n := if 0 <=? e then _ else _) in *.
    destruct (Z.eqb_spec n 0) as [Z0|NZ].
    + exists 0%float. repeat split.
    + apply thousandth. lia.
Qed.

(** ** [round] returns *)

Lemma finite_below_threshold m e :
  bounded prec emax m e = true -> 0 <= e ->
  Z.pos m * 2 ^ e < overflow_threshold.
Proof.
  intros B He.
  pose proof (Rounding.bounded_canonical m e B) as [_ Le].
  pose proof (Rounding.bounded_lt_pow m e B) as [Lm _].
  assert (P : 0 < 2 ^ e) by (apply Z.pow_pos_nonneg; lia).
  assert (Q : 2 ^ e <= 2 ^ 971) by (apply Z.pow_le_mono_r; lia).
  assert (M : Z.pos m * 2 ^ e <= (2 ^ 53 - 1) * 2 ^ 971).
  { apply Z.mul_le_mono_nonneg; lia. }
  eapply Z.le_lt_trans; [exact M|]. vm_compute. reflexivity.
Qed.

Lemma float_round_returns x ndigits :
  exists y, float_round x ndigits = Return y.
Proof.
  unfold float_round. pose proof (Prim2SF_valid x) as V.
  destruct (Prim2SF x) as [s|s| |s m e]; try (eexists; reflexivity).
  simpl in V. cbv zeta.
  set (scale := 10 ^ Z.of_nat ndigits).
  assert (Hs : 0 < scale) by (apply Z.pow_pos_nonneg; lia).
  set (n := if 0 <=? e then _ else _).
  assert (Hn : 0 <= n < overflow_threshold * scale).
  { subst n. destruct (Z.leb_spec 0 e) as [He|He].
    - pose proof (finite_below_threshold m e V He).
      assert (0 < 2 ^ e) by (apply Z.pow_pos_nonneg; lia). nia.
    - assert (P : 0 < 2 ^ (- e)) by (apply Z.pow_pos_nonneg; lia).
      pose proof (round_half_even_bounds (Z.pos m * scale) (2 ^ (- e))
                    (Z.pos m * scale) P ltac:(nia)) as [R0 R1].
      split; [assumption|].
      pose proof (Rounding.bounded_lt_pow m e V) as [Lm _].
      assert (2 ^ 53 < overflow_threshold) by (vm_compute; reflexivity).
      nia. }
  destruct (Z.eqb_spec n 0) as [_|N]; [eexists; reflexivity|].
  apply int_truediv_magnitude; [destruct s; lia|lia|].
  rewrite (Z.abs_eq scale) by lia.
  destruct s; rewrite ?Z.abs_opp, Z.abs_eq by lia; lia.
Qed.


(** ** The enumeration of risk levels *)

Lemma RiskLevel_of_level_of_max m :
  exists level,
    RiskLevel_of_value (level_of_max m) = Return level
    /\ RiskLevel_value level = level_of_max m
    /\ level <> CRITICAL.
Proof.
  unfold level_of_max. destruct (Py.gt m 0.7).
  - exists HIGH. repeat split. discriminate.
  - destruct (_ && _).
    + exists MEDIUM. repeat split. discriminate.
    + exists LOW. repeat split. discriminate.
Qed.

(** X11. [RiskLevel(value)] inverts [.value]: it returns a member exactly on
    the four values, and the member it returns has the value given.  On a
    level that [get_risk_level] returned it never raises, and never gives
    CRITICAL. *)
Theorem RiskLevel_of_value_round_trip :
  (forall level, RiskLevel_of_value (RiskLevel_value level) = Return level)
  /\ (forall value level,
        RiskLevel_of_value value = Return level ->
        RiskLevel_value level = value)
  /\ (forall value,
        RiskLevel_of_value value = Raise ValueError
        <-> ~ In value ["LOW"; "MEDIUM"; "HIGH"; "CRITICAL"])
  /\ (forall risk_scores value,
        get_risk_level risk_scores = Return value ->
        exists level,
          RiskLevel_of_value value = Return level
          /\ RiskLevel_value level = value
          /\ level <> CRITICAL).
Proof.
  split; [intros []; reflexivity|].
  assert (Cases : forall value,
    (value = "LOW" /\ RiskLevel_of_value value = Return LOW)
    \/ (value = "MEDIUM" /\ RiskLevel_of_value value = Return MEDIUM)
    \/ (value = "HIGH" /\ RiskLevel_of_value value = Return HIGH)
    \/ (value = "CRITICAL" /\ RiskLevel_of_value value = Return CRITICAL)
    \/ (~ In value ["LOW"; "MEDIUM"; "HIGH"; "CRITICAL"]
        /\ RiskLevel_of_value value = Raise ValueError)).
  { intros value. unfold RiskLevel_of_value.
    destruct (String.eqb_spec value "LOW") as [->|N1]; [auto|].
    destruct (String.eqb_spec value "MEDIUM") as [->|N2]; [auto|].
    destruct (String.eqb_spec value "HIGH") as [->|N3]; [auto 6|].
    destruct (String.eqb_spec value "CRITICAL") as [->|N4]; [auto 6|].
    do 4 right. split; [|reflexivity]. simpl. intuition congruence. }
  split; [|split].
  - intros value level H.
    destruct (Cases value) as [[-> E]|[[-> E]|[[-> E]|[[-> E]|[_ E]]]]];
      rewrite E in H; try discriminate; injection H as <-; reflexivity.
  - intros value.
    destruct (Cases value) as [[-> E]|[[-> E]|[[-> E]|[[-> E]|[N E]]]]];
      rewrite E; split; try discriminate; try tauto;
      intros H; exfalso; apply H; simpl; auto.
  - intros [|[k v] rest] value H; [discriminate|].
    rewrite get_risk_level_max in H. injection H as <-.
    apply RiskLevel_of_level_of_max.
Qed.

Section WebProperties.

Context {numpy : NumPy} {python : Python} {pydantic : Pydantic}.

(** A number between 0 and 1. *)
Definition unit_interval (v : float) : Prop :=
  Py.le 0 v = true /\ Py.le v 1 = true.

Lemma field_ge_le_unit v : unit_interval v -> field_ge_le 0 1 v = true.
Proof.
  intros [H0 H1]. rewrite field_ge_le_number.
  - unfold Py.ge. unfold Py.le in *. rewrite H0, H1. reflexivity.
  - reflexivity.
  - reflexivity.
  - apply (FloatOrder.leb_is_number _ _ H0).
Qed.

Lemma UserBehaviorSummary_init_ok data :
  unit_interval (loss_rate data) ->
  unit_interval (late_night_percentage data) ->
  UserBehaviorSummary_init data = Ok data.
Proof.
  intros H1 H2. unfold UserBehaviorSummary_init, validate.
  rewrite (field_ge_le_unit _ H1), (field_ge_le_unit _ H2). reflexivity.
Qed.

Lemma RiskPrediction_init_ok days score conf behaviors :
  unit_interval score -> unit_interval conf ->
  RiskPrediction_init days score conf behaviors
  = Ok {| window_days := days; risk_score := score; confidence := conf;
          predicted_behaviors := behaviors |}.
Proof.
  intros H1 H2. unfold RiskPrediction_init, validate.
  rewrite (field_ge_le_unit _ H1), (field_ge_le_unit _ H2). reflexivity.
Qed.

Lemma float_round_unit x :
  unit_interval x ->
  exists y, float_round x 3 = Return y /\ unit_interval y
            /\ float_round y 3 = Return y.
Proof.
  intros [H0 H1].
  destruct (float_round_unit_interval x H0 H1) as (y & E & L0 & L1 & F).
  exists y. unfold unit_interval, Py.le. auto.
Qed.

(** The date a request is answered with, and the clock after it. *)
Definition answer_date (request : RiskAssessmentRequest.t) (c : ClockState)
  : datetime * ClockState :=
  match RiskAssessmentRequest.assessment_date request with
  | Some date => (date, c)
  | None => datetime_now c
  end.

(** The response to a request for a demo user, given the level, the
    rounded scores and the risk factors. *)
Definition response_for (request : RiskAssessmentRequest.t) (d : demo_user)
           (date : datetime) (level : RiskLevel) (y7 y30 : float)
           (factors : list string) : RiskAssessmentResponse.t := {|
  RiskAssessmentResponse.user_id := RiskAssessmentRequest.user_id request;
  RiskAssessmentResponse.account_age_days := 14;
  RiskAssessmentResponse.assessment_date := date;
  RiskAssessmentResponse.behavior_summary := behavior d;
  RiskAssessmentResponse.risk_predictions :=
    [ ("7_day",
       {| window_days := 7; risk_score := y7; confidence := 0.85;
          predicted_behaviors :=
            if Py.gt (risk_7day d) 0.5
            then ["Frequency increase likely"] else [] |});
      ("30_day",
       {| window_days := 30; risk_score := y30; confidence := 0.75;
          predicted_behaviors :=
            if Py.gt (risk_30day d) 0.6
            then ["Potential loss spiral"] else [] |}) ];
  RiskAssessmentResponse.overall_risk_level := level;
  RiskAssessmentResponse.risk_factors := factors;
  RiskAssessmentResponse.intervention_strategy :=
    get_intervention_strategy (risk_7day d) (risk_30day d);
  RiskAssessmentResponse.metadata :=
    [("model_version", "1.0.0"); ("assessment_type", "new_user_14_day")]
|}.

Definition valid_demo_user (d : demo_user) : Prop :=
  unit_interval (loss_rate (behavior d))
  /\ unit_interval (late_night_percentage (behavior d))
  /\ unit_interval (risk_7day d)
  /\ unit_interval (risk_30day d).

Lemma assess_user_risk_found users request d :
  get_demo_user users (RiskAssessmentRequest.user_id request) = Some d ->
  valid_demo_user d ->
  exists level y7 y30,
    get_risk_level (dual_scores (risk_7day d) (risk_30day d))
    = Return (RiskLevel_value level)
    /\ level <> CRITICAL
    /\ float_round (risk_7day d) 3 = Return y7 /\ unit_interval y7
    /\ float_round (risk_30day d) 3 = Return y30 /\ unit_interval y30
    /\ forall engine w scores factors g',
         predict_risk engine (behavior d) (generator w)
         = (Return (scores, factors), g') ->
         assess_user_risk users request engine w
         = (Ok (response_for request d (fst (answer_date request (clock w)))
                  level y7 y30 factors),
            {| generator := g';
               clock := snd (answer_date request (clock w)) |}).
Proof.
  intros L (V1 & V2 & V3 & V4).
  destruct (float_round_unit _ V3) as (y7 & R7 & U7 & _).
  destruct (float_round_unit _ V4) as (y30 & R30 & U30 & _).
  pose proof (dual_level (risk_7day d) (risk_30day d)) as Lv.
  set (m := if Py.gt (risk_30day d) (risk_7day d)
            then risk_30day d else risk_7day d) in Lv.
  destruct (RiskLevel_of_level_of_max m) as (level & C & Vl & NC).
  exists level, y7, y30.
  split; [rewrite Vl; exact Lv|]. split; [exact NC|].
  split; [exact R7|]. split; [exact U7|]. split; [exact R30|].
  split; [exact U30|].
  intros engine w scores factors g' P.
  unfold assess_user_risk. rewrite L. cbv zeta.
  unfold api_bind at 1, api_np. rewrite P. cbn [snd].
  unfold api_bind at 1, api_lift.
  rewrite (UserBehaviorSummary_init_ok _ V1 V2).
  unfold api_bind at 1, api_py at 1.
  fold (dual_scores (risk_7day d) (risk_30day d)). rewrite Lv.
  unfold api_bind at 1, api_py at 1. rewrite R7.
  unfold api_bind at 1.
  rewrite (RiskPrediction_init_ok 7 y7 0.85 _ U7 (conj eq_refl eq_refl)).
  unfold api_bind at 1, api_py at 1. rewrite R30.
  unfold api_bind at 1.
  rewrite (RiskPrediction_init_ok 30 y30 0.75 _ U30 (conj eq_refl eq_refl)).
  unfold api_bind at 1, answer_date.
  destruct (RiskAssessmentRequest.assessment_date request) as [date|].
  - unfold api_ret at 1. unfold api_bind, api_py. rewrite C. reflexivity.
  - unfold now. cbn [generator clock].
    destruct (datetime_now (clock w)) as [t c].
    unfold api_bind, api_py. rewrite C. reflexivity.
Qed.

End WebProperties.

(** X12. [round(x, ndigits)] with [ndigits >= 0] returns for every float.
    On a score in [0, 1], [round(score, 3)] is again in [0, 1] and is left
    unchanged by rounding it again, so with a confidence in [0, 1] the
    constructor of [RiskPrediction] accepts it. *)
Theorem rounded_score_is_valid {pydantic : Pydantic} :
  (forall x ndigits, exists y, float_round x ndigits = Return y)
  /\ (forall score,
        unit_interval score ->
        exists y,
          float_round score 3 = Return y
          /\ unit_interval y
          /\ float_round y 3 = Return y
          /\ forall days conf behaviors,
               unit_interval conf ->
               RiskPrediction_init days y conf behaviors
               = Ok {| window_days := days; risk_score := y;
                       confidence := conf;
                       predicted_behaviors := behaviors |})
  /\ float_round 0.847 3 = Return 0.847%float
  /\ float_round 0.0625 3 = Return 0.062%float
  /\ float_round 0.9996 3 = Return 1%float.
Proof.
  split; [exact float_round_returns|]. split.
  - intros score U.
    destruct (float_round_unit score U) as (y & E & Uy & F).
    exists y. split; [exact E|]. split; [exact Uy|]. split; [exact F|].
    intros days conf behaviors Uc. apply RiskPrediction_init_ok; assumption.
  - repeat split; vm_compute; reflexivity.
Qed.


Section HandlerProperties.

Context {numpy : NumPy} {python : Python} {pydantic : Pydantic}.

(** X13. The response to a request for a user of the table whose scores,
    loss rate and late-night share are numbers in [0, 1], when the engine
    returns.  The handler returns; the level, the strategy and the two
    predictions are computed from the scores stored in the table, the risk
    factors are those of the stored behavior, the rounded scores are again in
    [0, 1], and the level is never CRITICAL.  The 7-day prediction expects a
    frequency increase exactly when the stored 7-day score exceeds 0.5, the
    30-day prediction a loss spiral exactly when the 30-day score exceeds
    0.6.  The generator is left as the
    engine left it, and the clock is read only when the request has no
    date. *)
Theorem assess_user_risk_response
        (users : gmap Z demo_user) (request : RiskAssessmentRequest.t)
        (engine : RiskEngine) (d : demo_user) (w : World)
        (scores : list (string * float)) (factors : list string)
        (g' : RandomState) :
  get_demo_user users (RiskAssessmentRequest.user_id request) = Some d ->
  valid_demo_user d ->
  predict_risk engine (behavior d) (generator w)
  = (Return (scores, factors), g') ->
  exists response w',
    assess_user_risk users request engine w = (Ok response, w')
    /\ generator w' = g'
    /\ (RiskAssessmentResponse.assessment_date response, clock w')
       = match RiskAssessmentRequest.assessment_date request with
         | Some date => (date, clock w)
         | None => datetime_now (clock w)
         end
    /\ RiskAssessmentResponse.user_id response
       = RiskAssessmentRequest.user_id request
    /\ RiskAssessmentResponse.behavior_summary response = behavior d
    /\ RiskAssessmentResponse.risk_factors response = triggered (behavior d)
    /\ RiskAssessmentResponse.intervention_strategy response
       = get_intervention_strategy (risk_7day d) (risk_30day d)
    /\ get_risk_level [("7_day", risk_7day d); ("30_day", risk_30day d)]
       = Return (RiskLevel_value
                   (RiskAssessmentResponse.overall_risk_level response))
    /\ RiskAssessmentResponse.overall_risk_level response <> CRITICAL
    /\ map fst (RiskAssessmentResponse.risk_predictions response)
       = ["7_day"; "30_day"]
    /\ map (fun p => Return (risk_score (snd p)))
           (RiskAssessmentResponse.risk_predictions response)
       = [float_round (risk_7day d) 3; float_round (risk_30day d) 3]
    /\ Forall (fun p => unit_interval (risk_score (snd p))
                        /\ unit_interval (confidence (snd p)))
              (RiskAssessmentResponse.risk_predictions response)
    /\ map (fun p => (window_days (snd p), confidence (snd p),
                      predicted_behaviors (snd p)))
           (RiskAssessmentResponse.risk_predictions response)
       = [ (7, 0.85%float,
            if Py.gt (risk_7day d) 0.5
            then ["Frequency increase likely"] else []);
           (30, 0.75%float,
            if Py.gt (risk_30day d) 0.6
            then ["Potential loss spiral"] else []) ].
Proof.
  intros L V P.
  destruct (assess_user_risk_found users request d L V)
    as (level & y7 & y30 & Lv & NC & R7 & U7 & R30 & U30 & A).
  rewrite (A engine w scores factors g' P).
  eexists _, _. split; [reflexivity|].
  cbn [generator clock response_for
       RiskAssessmentResponse.assessment_date RiskAssessmentResponse.user_id
       RiskAssessmentResponse.behavior_summary
       RiskAssessmentResponse.risk_factors
       RiskAssessmentResponse.intervention_strategy
       RiskAssessmentResponse.overall_risk_level
       RiskAssessmentResponse.risk_predictions].
  split; [reflexivity|]. split.
  { unfold answer_date.
    destruct (RiskAssessmentRequest.assessment_date request); [reflexivity|].
    destruct (datetime_now (clock w)); reflexivity. }
  split; [reflexivity|]. split; [reflexivity|]. split.
  { destruct (predict_risk_returns _ _ _ _ _ _ P) as (_ & _ & _ & _ & _ & ->).
    apply identify_risk_factors_triggered. }
  split; [reflexivity|]. split; [exact Lv|]. split; [exact NC|].
  split; [reflexivity|]. split.
  { cbn [map snd risk_score]. rewrite R7, R30. reflexivity. }
  split; [|reflexivity].
  repeat constructor; cbn [snd risk_score confidence];
    try apply U7; try apply U30.
Qed.

End HandlerProperties.

(** ** An interpreter to run the handlers on

    The clock counts its readings, [upper] maps the ASCII letters, and the
    bounds of a field are checked by comparison. *)
Definition ascii_upper (c : Ascii.ascii) : Ascii.ascii :=
  let n := Ascii.nat_of_ascii c in
  if (97 <=? n)%nat && (n <=? 122)%nat then Ascii.ascii_of_nat (n - 32)
  else c.

Fixpoint string_upper (s : string) : string :=
  match s with
  | EmptyString => EmptyString
  | String c rest => String (ascii_upper c) (string_upper rest)
  end.

Definition counting_python : Python := {|
  datetime := Z;
  ClockState := Z;
  datetime_now := fun c => (c, c + 1);
  str_upper := string_upper
|}.

Definition comparing_pydantic : Pydantic := {|
  field_ge_le := fun lo hi v => Py.ge v lo && Py.le v hi;
  field_ge_le_number := fun lo hi v _ _ _ => eq_refl
|}.

(** The world in which no variate has been drawn and the clock reads 0. *)
Definition initial_world : World (numpy := counting_numpy)
                                 (python := counting_python) :=
  @Build_World counting_numpy counting_python (0, 0%nat) 0.

Lemma assess_user_risk_response_witness :
  exists response w',
    assess_user_risk (numpy := counting_numpy) (python := counting_python)
      (pydantic := comparing_pydantic) DEMO_USERS
      (demo_request 12345) (RiskEngine_init None) initial_world
    = (Ok response, w')
    /\ RiskAssessmentResponse.overall_risk_level response <> CRITICAL.
Proof.
  destruct (assess_user_risk_response
              (numpy := counting_numpy) (python := counting_python)
              (pydantic := comparing_pydantic) DEMO_USERS
              (demo_request 12345) (RiskEngine_init None) {| behavior := demo_12345;
                 risk_7day := 0.847; risk_30day := 0.721 |}
              initial_world
              [("7_day", 0.25%float); ("30_day", 0.25%float)]
              (identify_risk_factors demo_12345) (14, 1%nat))
    as (response & w' & E & _ & _ & _ & _ & _ & _ & _ & NC & _).
  - vm_compute. reflexivity.
  - vm_compute. repeat split.
  - vm_compute. reflexivity.
  - exists response, w'. split; [exact E|exact NC].
Defined.

(** The engine returns on a summary within the bounds of section 3 when its
    models answer. *)
Lemma predict_risk_answering {numpy : NumPy} (self : RiskEngine)
      (b : UserBehaviorSummary) (g : RandomState) :
  section_3_invariants b ->
  total_bets b < overflow_threshold * Z.max (betting_days b) 1 ->
  Forall (fun item => answers (model (snd item))) (models self) ->
  exists scores g',
    predict_risk self b g = (Return (scores, identify_risk_factors b), g').
Proof.
  intros Inv Hq Hm.
  destruct Inv as (Hb & _ & _ & _ & _ & _ & Hgap & _ & _ & _ & _ & Hd).
  unfold Py.ge in Hgap.
  destruct (int_truediv_returns (total_bets b) (Z.max (betting_days b) 1)
              Hb ltac:(lia) Hq) as [bpd Ebpd].
  destruct (Rebet.immediate_rebet_pct_returns _ Hgap) as [_ Er].
  assert (Ef : exists row, prepare_features self b = Return [row]).
  { unfold prepare_features, features_dict. rewrite Ebpd, Er. cbn [pybind].
    eexists. reflexivity. }
  destruct Ef as (row & Ef).
  destruct (score_windows_returns (models self) row [] g Hm)
    as (scores & g' & Es & _).
  exists scores, g'.
  unfold predict_risk, np_bind at 1, np_lift at 1. rewrite Ef.
  unfold np_bind at 1. rewrite Es. reflexivity.
Qed.

Section HandlerErrors.

Context {numpy : NumPy} {python : Python} {pydantic : Pydantic}.

(** X14. The scores the engine computes do not reach the response.  Two
    engines, whatever their models and whatever the generator, give the same
    response to a request for a user of the table, provided each returns;
    each leaves the generator as its own models left it. *)
Theorem assess_user_risk_ignores_scores
        (users : gmap Z demo_user) (request : RiskAssessmentRequest.t)
        (d : demo_user) (engine1 engine2 : RiskEngine) (w1 w2 : World)
        (scores1 scores2 : list (string * float))
        (factors1 factors2 : list string) (g1 g2 : RandomState) :
  get_demo_user users (RiskAssessmentRequest.user_id request) = Some d ->
  valid_demo_user d ->
  predict_risk engine1 (behavior d) (generator w1)
  = (Return (scores1, factors1), g1) ->
  predict_risk engine2 (behavior d) (generator w2)
  = (Return (scores2, factors2), g2) ->
  clock w1 = clock w2 ->
  fst (assess_user_risk users request engine1 w1)
  = fst (assess_user_risk users request engine2 w2)
  /\ generator (snd (assess_user_risk users request engine1 w1)) = g1
  /\ generator (snd (assess_user_risk users request engine2 w2)) = g2.
Proof.
  intros L V P1 P2 C.
  destruct (assess_user_risk_found users request d L V)
    as (level & y7 & y30 & _ & _ & _ & _ & _ & _ & A).
  rewrite (A engine1 w1 scores1 factors1 g1 P1).
  rewrite (A engine2 w2 scores2 factors2 g2 P2).
  destruct (predict_risk_returns _ _ _ _ _ _ P1) as (_ & _ & _ & _ & _ & ->).
  destruct (predict_risk_returns _ _ _ _ _ _ P2) as (_ & _ & _ & _ & _ & ->).
  rewrite C. repeat split.
Qed.

(** The exceptions of the steps after the engine call. *)
Lemma validate_error title checks e :
  validate title checks = Some e ->
  exists fields, e = ValidationError title fields.
Proof.
  unfold validate. destruct (map fst _) as [|f fs]; [discriminate|].
  intros H. injection H as <-. eexists. reflexivity.
Qed.

Definition not_http (e : api_exn) : Prop :=
  match e with
  | HTTPException _ _ => False
  | _ => True
  end.

Lemma api_bind_not_http {A B} (c : API A) (k : A -> API B) w :
  (forall e w', c w = (Err e, w') -> not_http e) ->
  (forall a w1 e w', k a w1 = (Err e, w') -> not_http e) ->
  forall e w', api_bind c k w = (Err e, w') -> not_http e.
Proof.
  intros Hc Hk e w'. unfold api_bind.
  destruct (c w) as [[a|e0] w1] eqn:E.
  - apply Hk.
  - intros H. injection H as <- <-. apply (Hc e0 w1 eq_refl).
Qed.

Lemma api_py_not_http {A} (r : pyresult A) w e w' :
  api_py r w = (Err e, w') -> not_http e.
Proof.
  unfold api_py. destruct r; intros H; [discriminate|].
  injection H as <- _. exact I.
Qed.

Lemma api_np_not_http {A} (c : NP A) w e w' :
  api_np c w = (Err e, w') -> not_http e.
Proof.
  unfold api_np. destruct (c (generator w)) as [[a|e0] g]; intros H;
    [discriminate|]. injection H as <- _. exact I.
Qed.

Lemma UserBehaviorSummary_init_not_http data w e w' :
  api_lift (UserBehaviorSummary_init data) w = (Err e, w') -> not_http e.
Proof.
  unfold api_lift, UserBehaviorSummary_init.
  destruct (validate _ _) as [e0|] eqn:E; intros H; [|discriminate].
  injection H as <- _. apply validate_error in E. destruct E as [fs ->].
  exact I.
Qed.

Lemma RiskPrediction_init_not_http days score conf behaviors w e w' :
  api_lift (RiskPrediction_init days score conf behaviors) w = (Err e, w') ->
  not_http e.
Proof.
  unfold api_lift, RiskPrediction_init.
  destruct (validate _ _) as [e0|] eqn:E; intros H; [|discriminate].
  injection H as <- _. apply validate_error in E. destruct E as [fs ->].
  exact I.
Qed.

(** X15. The errors of [assess_user_risk].  A user id the table does not
    hold gives the 404 [HTTPException] that names the id, with generator and
    clock untouched, and nothing else gives an [HTTPException].  For a user
    of the table the engine runs first, on the stored behavior as it is: an
    exception of the engine leaves the handler although its scores would not
    be used, and a loss rate outside [0, 1] is rejected by the model
    constructor only after the engine has run and advanced the generator. *)
Theorem assess_user_risk_errors
        (users : gmap Z demo_user) (request : RiskAssessmentRequest.t)
        (engine : RiskEngine) (w : World) :
  let user_id := RiskAssessmentRequest.user_id request in
  (get_demo_user users user_id = None ->
   assess_user_risk users request engine w
   = (Err (HTTPException 404 (not_found_detail user_id)), w))
  /\ (forall status_code detail,
        fst (assess_user_risk users request engine w)
        = Err (HTTPException status_code detail) ->
        get_demo_user users user_id = None)
  /\ (forall d e g',
        get_demo_user users user_id = Some d ->
        predict_risk engine (behavior d) (generator w) = (Raise e, g') ->
        assess_user_risk users request engine w
        = (Err (Builtin e), {| generator := g'; clock := clock w |}))
  /\ (forall d scores factors g',
        get_demo_user users user_id = Some d ->
        predict_risk engine (behavior d) (generator w)
        = (Return (scores, factors), g') ->
        FloatOrder.is_number (loss_rate (behavior d)) = true ->
        Py.le 0 (loss_rate (behavior d))
        && Py.le (loss_rate (behavior d)) 1 = false ->
        exists fields,
          assess_user_risk users request engine w
          = (Err (ValidationError "UserBehaviorSummary" fields),
             {| generator := g'; clock := clock w |})
          /\ In "loss_rate" fields)
  /\ not_found_detail 99999
     = "User 99999 not found. Try demo users: 12345 (high risk), 23456 (medium risk), 34567 (low risk)".
Proof.
  intros user_id. split; [|split; [|split; [|split]]].
  - intros L. unfold assess_user_risk. fold user_id. rewrite L. reflexivity.
  - intros status_code detail H.
    destruct (get_demo_user users user_id) as [d|] eqn:L; [|reflexivity].
    exfalso.
    destruct (assess_user_risk users request engine w) as [r w'] eqn:E.
    simpl in H. subst r.
    revert E. unfold assess_user_risk. fold user_id. rewrite L. cbv zeta.
    intros E.
    refine (api_bind_not_http _ _ w _ _ _ w' E);
      [intros ? ?; apply api_np_not_http|intros ? ?].
    apply api_bind_not_http;
      [intros ? ?; apply UserBehaviorSummary_init_not_http|intros ? ?].
    apply api_bind_not_http;
      [intros ? ?; apply api_py_not_http|intros ? ?].
    apply api_bind_not_http;
      [intros ? ?; apply api_py_not_http|intros ? ?].
    apply api_bind_not_http;
      [intros ? ?; apply RiskPrediction_init_not_http|intros ? ?].
    apply api_bind_not_http;
      [intros ? ?; apply api_py_not_http|intros ? ?].
    apply api_bind_not_http;
      [intros ? ?; apply RiskPrediction_init_not_http|intros ? ?].
    apply api_bind_not_http; [|intros ? ?].
    { intros ? ?. destruct (RiskAssessmentRequest.assessment_date request).
      - discriminate.
      - unfold now. destruct (datetime_now _). discriminate. }
    apply api_bind_not_http;
      [intros ? ?; apply api_py_not_http|intros ? ?].
    discriminate.
  - intros d e g' L P. unfold assess_user_risk. fold user_id. rewrite L.
    cbv zeta. unfold api_bind at 1, api_np. rewrite P. reflexivity.
  - intros d scores factors g' L P N R.
    unfold assess_user_risk. fold user_id. rewrite L. cbv zeta.
    unfold api_bind at 1, api_np. rewrite P.
    unfold api_bind at 1, api_lift, UserBehaviorSummary_init, validate.
    rewrite (field_ge_le_number 0 1 (loss_rate (behavior d)) eq_refl eq_refl N).
    unfold Py.ge. fold (Py.le 0 (loss_rate (behavior d))). rewrite R.
    cbn [List.filter negb snd map fst].
    destruct (negb (field_ge_le 0 1 (late_night_percentage (behavior d))));
      eexists; (split; [reflexivity|]); simpl; auto.
  - vm_compute. reflexivity.
Qed.

End HandlerErrors.

Lemma assess_user_risk_ignores_scores_witness :
  fst (assess_user_risk (numpy := counting_numpy) (python := counting_python)
         (pydantic := comparing_pydantic) DEMO_USERS (demo_request 23456)
         (RiskEngine_init None) initial_world)
  = fst (assess_user_risk (numpy := counting_numpy)
           (python := counting_python) (pydantic := comparing_pydantic)
           DEMO_USERS (demo_request 23456)
           {| models := []; feature_names := [] |} initial_world).
Proof.
  refine (proj1 (assess_user_risk_ignores_scores
            (numpy := counting_numpy) (python := counting_python)
            (pydantic := comparing_pydantic) DEMO_USERS (demo_request 23456)
            {| behavior := demo_23456;
               risk_7day := 0.432; risk_30day := 0.389 |}
            (RiskEngine_init None) {| models := []; feature_names := [] |}
            initial_world initial_world
            [("7_day", 0.25%float); ("30_day", 0.25%float)] []
            (identify_risk_factors demo_23456)
            (identify_risk_factors demo_23456)
            (14, 1%nat) (0, 0%nat) _ _ _ _ _)).
  - vm_compute. reflexivity.
  - vm_compute. repeat split.
  - vm_compute. reflexivity.
  - vm_compute. reflexivity.
  - reflexivity.
Defined.

(** ** The table as shipped *)

(** The four users of [DEMO_USERS]. *)
Definition demo_entries : list (Z * demo_user) :=
  [ (12345, {| behavior := demo_12345;
               risk_7day := 0.847; risk_30day := 0.721 |});
    (67890, {| behavior := demo_67890;
               risk_7day := 0.235; risk_30day := 0.712 |});
    (23456, {| behavior := demo_23456;
               risk_7day := 0.432; risk_30day := 0.389 |});
    (34567, {| behavior := demo_34567;
               risk_7day := 0.125; risk_30day := 0.098 |}) ].

Lemma DEMO_USERS_lookup user_id :
  (get_demo_user DEMO_USERS user_id = None
   /\ ~ In user_id (map fst demo_entries))
  \/ exists d, get_demo_user DEMO_USERS user_id = Some d
               /\ In (user_id, d) demo_entries.
Proof.
  unfold get_demo_user, DEMO_USERS, demo_entries.
  destruct (Z.eq_dec user_id 34567) as [->|N1].
  { right. eexists. rewrite lookup_insert_eq. split; [reflexivity|].
    simpl. auto 6. }
  rewrite lookup_insert_ne by congruence.
  destruct (Z.eq_dec user_id 23456) as [->|N2].
  { right. eexists. rewrite lookup_insert_eq. split; [reflexivity|].
    simpl. auto 6. }
  rewrite lookup_insert_ne by congruence.
  destruct (Z.eq_dec user_id 67890) as [->|N3].
  { right. eexists. rewrite lookup_insert_eq. split; [reflexivity|].
    simpl. auto 6. }
  rewrite lookup_insert_ne by congruence.
  destruct (Z.eq_dec user_id 12345) as [->|N4].
  { right. eexists. rewrite lookup_insert_eq. split; [reflexivity|].
    simpl. auto 6. }
  rewrite lookup_insert_ne by congruence.
  left. split; [apply lookup_empty|]. simpl. intuition congruence.
Qed.

(** What the handler answers for each user of the table: the level, the
    strategy and the risk factors. *)
Definition demo_answers
  : list (Z * (RiskLevel * InterventionStrategy * list string)) :=
  [ (12345, (HIGH, IMMEDIATE_CRISIS,
             [ "Immediate loss chasing behavior"; "High deposit frequency";
               "Excessive late-night gambling"; "Erratic session patterns";
               "Very high loss rate" ]));
    (67890, (HIGH, SLOW_BURN, []));
    (23456, (MEDIUM, MODERATE_RISK, []));
    (34567, (LOW, CONTROLLED, [])) ].

Section Shipped.

Context {numpy : NumPy} {python : Python} {pydantic : Pydantic}.

Variable engine : RiskEngine.
Hypothesis engine_answers :
  Forall (fun item => answers (model (snd item))) (models engine).

Lemma assess_demo_entry user_id d level strategy factors :
  In (user_id, d) demo_entries ->
  In (user_id, (level, strategy, factors)) demo_answers ->
  forall request w,
    RiskAssessmentRequest.user_id request = user_id ->
    exists response w',
      assess_user_risk DEMO_USERS request engine w = (Ok response, w')
      /\ RiskAssessmentResponse.user_id response = user_id
      /\ RiskAssessmentResponse.overall_risk_level response = level
      /\ RiskAssessmentResponse.intervention_strategy response = strategy
      /\ RiskAssessmentResponse.risk_factors response = factors.
Proof.
  intros Hd Ha request w U.
  assert (L : get_demo_user DEMO_USERS
                (RiskAssessmentRequest.user_id request) = Some d).
  { rewrite U. simpl in Hd.
    destruct Hd as [E|[E|[E|[E|[]]]]]; injection E as <- <-;
      vm_compute; reflexivity. }
  assert (V : valid_demo_user d
              /\ section_3_invariants (behavior d)
              /\ total_bets (behavior d)
                 < overflow_threshold * Z.max (betting_days (behavior d)) 1).
  { simpl in Hd.
    destruct Hd as [E|[E|[E|[E|[]]]]]; injection E as <- <-;
      (split; [|split]); try (vm_compute; reflexivity);
      repeat split; vm_compute; congruence. }
  destruct V as (V & Inv & Bd).
  destruct (predict_risk_answering engine (behavior d) (generator w)
              Inv Bd engine_answers) as (scores & g' & P).
  destruct (assess_user_risk_found DEMO_USERS request d L V)
    as (level' & y7 & y30 & Lv & _ & _ & _ & _ & _ & A).
  rewrite (A engine w _ _ g' P). eexists _, _. split; [reflexivity|].
  cbn [response_for RiskAssessmentResponse.user_id
       RiskAssessmentResponse.overall_risk_level
       RiskAssessmentResponse.intervention_strategy
       RiskAssessmentResponse.risk_factors].
  split; [exact U|].
  simpl in Hd, Ha.
  destruct Hd as [E|[E|[E|[E|[]]]]]; injection E as <- <-;
    destruct Ha as [E|[E|[E|[E|[]]]]]; try discriminate E;
    injection E as <- <- <-.
  all: split; [destruct level'; vm_compute in Lv; try discriminate Lv;
               reflexivity|].
  all: split; vm_compute; reflexivity.
Qed.

End Shipped.

(** X16. With the table as shipped and an engine whose models answer,
    [assess_user_risk] raises the 404 error for every id but the four of
    the table and returns a response for those four, whatever the generator
    and the clock: level HIGH with IMMEDIATE_CRISIS and all five risk
    factors for 12345, level HIGH with SLOW_BURN for 67890, level MEDIUM
    with MODERATE_RISK for 23456, level LOW with CONTROLLED for 34567, the
    last three without risk factors. *)
Theorem assess_user_risk_shipped_table
        {numpy : NumPy} {python : Python} {pydantic : Pydantic}
        (engine : RiskEngine) (request : RiskAssessmentRequest.t)
        (w : World) :
  Forall (fun item => answers (model (snd item))) (models engine) ->
  let user_id := RiskAssessmentRequest.user_id request in
  (~ In user_id [12345; 67890; 23456; 34567] ->
   assess_user_risk DEMO_USERS request engine w
   = (Err (HTTPException 404 (not_found_detail user_id)), w))
  /\ (In user_id [12345; 67890; 23456; 34567] ->
      exists level strategy factors response w',
        In (user_id, (level, strategy, factors)) demo_answers
        /\ assess_user_risk DEMO_USERS request engine w = (Ok response, w')
        /\ RiskAssessmentResponse.user_id response = user_id
        /\ RiskAssessmentResponse.overall_risk_level response = level
        /\ RiskAssessmentResponse.intervention_strategy response = strategy
        /\ RiskAssessmentResponse.risk_factors response = factors).
Proof.
  intros Hm user_id.
  destruct (DEMO_USERS_lookup user_id) as [[L N]|(d & L & I)].
  - split.
    + intros _. unfold assess_user_risk. fold user_id. rewrite L. reflexivity.
    + intros H. exfalso. apply N. exact H.
  - split.
    + intros N. exfalso. apply N.
      change [12345; 67890; 23456; 34567] with (map fst demo_entries).
      apply in_map_iff. exists (user_id, d). auto.
    + intros _.
      assert (A : exists level strategy factors,
                 In (user_id, (level, strategy, factors)) demo_answers).
      { simpl in I. destruct I as [E|[E|[E|[E|[]]]]]; injection E as <- _;
          eexists _, _, _; simpl; eauto 6. }
      destruct A as (level & strategy & factors & A).
      destruct (assess_demo_entry engine Hm user_id d level strategy factors
                  I A request w eq_refl) as (response & w' & R).
      exists level, strategy, factors, response, w'. auto.
Qed.

Lemma assess_user_risk_shipped_table_witness :
  exists response w',
    assess_user_risk (numpy := counting_numpy) (python := counting_python)
      (pydantic := comparing_pydantic) DEMO_USERS
      (demo_request 67890) (RiskEngine_init None) initial_world
    = (Ok response, w')
    /\ RiskAssessmentResponse.overall_risk_level response = HIGH
    /\ RiskAssessmentResponse.intervention_strategy response = SLOW_BURN.
Proof.
  destruct (assess_user_risk_shipped_table
              (numpy := counting_numpy) (python := counting_python)
              (pydantic := comparing_pydantic)
              (RiskEngine_init None) (demo_request 67890) initial_world
              mock_models_answer) as [_ H].
  destruct H as (level & strategy & factors & response & w' & I & E
                 & _ & Hl & Hs & _).
  - simpl. auto.
  - exists response, w'. split; [exact E|].
    simpl in I.
    destruct I as [I|[I|[I|[I|[]]]]]; try discriminate I.
    injection I as <- <- <-. auto.
Defined.

(** The names [get_demo_example] accepts, with the user each stands for
    and what the handler answers for that user. *)
Definition demo_examples
  : list (string * (Z * RiskLevel * InterventionStrategy)) :=
  [ ("HIGH", (12345, HIGH, IMMEDIATE_CRISIS));
    ("MEDIUM", (23456, MEDIUM, MODERATE_RISK));
    ("LOW", (34567, LOW, CONTROLLED));
    ("SLOWBURN", (67890, HIGH, SLOW_BURN)) ].

Lemma mapping_get_demo key :
  (mapping_get demo_mapping key = None
   /\ ~ In key ["HIGH"; "MEDIUM"; "LOW"; "SLOWBURN"])
  \/ exists user_id level strategy factors d,
       mapping_get demo_mapping key = Some user_id
       /\ In (key, (user_id, level, strategy)) demo_examples
       /\ In (user_id, d) demo_entries
       /\ In (user_id, (level, strategy, factors)) demo_answers.
Proof.
  unfold demo_mapping, mapping_get.
  destruct (String.eqb_spec "HIGH" key) as [<-|N1].
  { right. exists 12345, HIGH, IMMEDIATE_CRISIS. eexists _, _. split; [reflexivity|].
    split; [simpl; auto 6|]. split; simpl; eauto 6. }
  destruct (String.eqb_spec "MEDIUM" key) as [<-|N2].
  { right. exists 23456, MEDIUM, MODERATE_RISK. eexists _, _. split; [reflexivity|].
    split; [simpl; auto 6|]. split; simpl; eauto 6. }
  destruct (String.eqb_spec "LOW" key) as [<-|N3].
  { right. exists 34567, LOW, CONTROLLED. eexists _, _. split; [reflexivity|].
    split; [simpl; auto 6|]. split; simpl; eauto 6. }
  destruct (String.eqb_spec "SLOWBURN" key) as [<-|N4].
  { right. exists 67890, HIGH, SLOW_BURN. eexists _, _. split; [reflexivity|].
    split; [simpl; auto 6|]. split; simpl; eauto 6. }
  left. split; [reflexivity|]. simpl. intuition congruence.
Qed.

(** X17. [get_demo_example] upper-cases the name it is given.  When the
    result is none of HIGH, MEDIUM, LOW and SLOWBURN it raises the 400 error
    and touches neither generator nor clock.  Otherwise, with the table as
    shipped and an engine whose models answer, it returns the response for
    the user the name stands for -- 12345, 23456, 34567 and 67890 in turn --
    and never the 404 error: every id of the mapping is in the table.  The
    example named SLOWBURN has level HIGH. *)
Theorem get_demo_example_outcomes
        {numpy : NumPy} {python : Python} {pydantic : Pydantic}
        (engine : RiskEngine) (risk_level : string) (w : World) :
  Forall (fun item => answers (model (snd item))) (models engine) ->
  let key := str_upper risk_level in
  (~ In key ["HIGH"; "MEDIUM"; "LOW"; "SLOWBURN"] ->
   get_demo_example DEMO_USERS engine risk_level w
   = (Err (HTTPException 400
             "Risk level must be one of: high, medium, low, slowburn"), w))
  /\ (In key ["HIGH"; "MEDIUM"; "LOW"; "SLOWBURN"] ->
      exists user_id level strategy response w',
        In (key, (user_id, level, strategy)) demo_examples
        /\ get_demo_example DEMO_USERS engine risk_level w = (Ok response, w')
        /\ RiskAssessmentResponse.user_id response = user_id
        /\ RiskAssessmentResponse.overall_risk_level response = level
        /\ RiskAssessmentResponse.intervention_strategy response = strategy)
  /\ (forall detail,
        fst (get_demo_example DEMO_USERS engine risk_level w)
        <> Err (HTTPException 404 detail)).
Proof.
  intros Hm key.
  destruct (mapping_get_demo key)
    as [[L N]|(user_id & level & strategy & factors & d & L & X & I & A)].
  - assert (E : get_demo_example DEMO_USERS engine risk_level w
                = (Err (HTTPException 400
                     "Risk level must be one of: high, medium, low, slowburn"),
                   w)).
    { unfold get_demo_example. fold key. rewrite L. reflexivity. }
    split; [intros _; exact E|]. split; [intros H; exfalso; auto|].
    intros detail. rewrite E. discriminate.
  - destruct (assess_demo_entry engine Hm user_id d level strategy factors
                I A (demo_request user_id) w eq_refl)
      as (response & w' & R & U & Lv & S & _).
    assert (E : get_demo_example DEMO_USERS engine risk_level w
                = (Ok response, w')).
    { unfold get_demo_example, get_risk_engine. fold key. rewrite L.
      exact R. }
    split; [|split].
    + intros N. exfalso. apply N.
      change ["HIGH"; "MEDIUM"; "LOW"; "SLOWBURN"]
        with (map fst demo_examples).
      apply in_map_iff. eexists (key, _). split; [reflexivity|exact X].
    + intros _. exists user_id, level, strategy, response, w'. auto.
    + intros detail. rewrite E. discriminate.
Qed.

Lemma get_demo_example_outcomes_witness :
  exists response w',
    get_demo_example (numpy := counting_numpy) (python := counting_python)
      (pydantic := comparing_pydantic) DEMO_USERS (RiskEngine_init None)
      "slowburn" initial_world
    = (Ok response, w')
    /\ RiskAssessmentResponse.user_id response = 67890
    /\ RiskAssessmentResponse.overall_risk_level response = HIGH.
Proof.
  destruct (get_demo_example_outcomes
              (numpy := counting_numpy) (python := counting_python)
              (pydantic := comparing_pydantic)
              (RiskEngine_init None) "slowburn" initial_world
              mock_models_answer) as (_ & H & _).
  destruct H as (user_id & level & strategy & response & w' & I & E
                 & Hu & Hl & _).
  - vm_compute. auto.
  - exists response, w'. split; [exact E|].
    change (str_upper "slowburn") with "SLOWBURN" in I. simpl in I.
    destruct I as [I|[I|[I|[I|[]]]]]; try discriminate I.
    injection I as <- <- _. auto.
Defined.

(** X18. With the table as shipped and an engine whose models answer,
    [get_demo_overview] returns the four responses under the names of their
    patterns, each with the strategy of that name: immediate_crisis (12345)
    and slow_burn (67890) with level HIGH, moderate_risk (23456) with level
    MEDIUM, controlled (34567) with level LOW. *)
Theorem get_demo_overview_patterns
        {numpy : NumPy} {python : Python} {pydantic : Pydantic}
        (engine : RiskEngine) (w : World) :
  Forall (fun item => answers (model (snd item))) (models engine) ->
  exists overview w',
    get_demo_overview DEMO_USERS engine w = (Ok overview, w')
    /\ map (fun named =>
              (fst named,
               RiskAssessmentResponse.user_id (snd named),
               RiskAssessmentResponse.overall_risk_level (snd named),
               RiskAssessmentResponse.intervention_strategy (snd named)))
           (patterns overview)
       = [ ("immediate_crisis", 12345, HIGH, IMMEDIATE_CRISIS);
           ("slow_burn", 67890, HIGH, SLOW_BURN);
           ("moderate_risk", 23456, MEDIUM, MODERATE_RISK);
           ("controlled", 34567, LOW, CONTROLLED) ]
    /\ map (fun named =>
              pattern (RiskAssessmentResponse.intervention_strategy
                         (snd named)))
           (patterns overview)
       = ["IMMEDIATE_CRISIS"; "SLOW_BURN"; "MODERATE_RISK"; "CONTROLLED"].
Proof.
  intros Hm. unfold get_demo_overview, get_risk_engine.
  destruct (assess_demo_entry engine Hm 12345 _ _ _ _
              ltac:(simpl; left; reflexivity) ltac:(simpl; left; reflexivity)
              (demo_request 12345) w eq_refl)
    as (r1 & w1 & E1 & U1 & L1 & S1 & _).
  unfold api_bind at 1. rewrite E1.
  destruct (assess_demo_entry engine Hm 67890 _ _ _ _
              ltac:(simpl; right; left; reflexivity)
              ltac:(simpl; right; left; reflexivity)
              (demo_request 67890) w1 eq_refl)
    as (r2 & w2 & E2 & U2 & L2 & S2 & _).
  unfold api_bind at 1. rewrite E2.
  destruct (assess_demo_entry engine Hm 23456 _ _ _ _
              ltac:(simpl; right; right; left; reflexivity)
              ltac:(simpl; right; right; left; reflexivity)
              (demo_request 23456) w2 eq_refl)
    as (r3 & w3 & E3 & U3 & L3 & S3 & _).
  unfold api_bind at 1. rewrite E3.
  destruct (assess_demo_entry engine Hm 34567 _ _ _ _
              ltac:(simpl; right; right; right; left; reflexivity)
              ltac:(simpl; right; right; right; left; reflexivity)
              (demo_request 34567) w3 eq_refl)
    as (r4 & w4 & E4 & U4 & L4 & S4 & _).
  unfold api_bind at 1. rewrite E4.
  unfold api_bind, now. destruct (datetime_now (clock w4)) as [t c].
  eexists _, _. split; [reflexivity|].
  cbn [patterns map fst snd].
  rewrite U1, U2, U3, U4, L1, L2, L3, L4, S1, S2, S3, S4.
  split; reflexivity.
Qed.

Lemma get_demo_overview_patterns_witness :
  exists overview w',
    get_demo_overview (numpy := counting_numpy) (python := counting_python)
      (pydantic := comparing_pydantic) DEMO_USERS (RiskEngine_init None)
      initial_world
    = (Ok overview, w')
    /\ map fst (patterns overview)
       = ["immediate_crisis"; "slow_burn"; "moderate_risk"; "controlled"].
Proof.
  destruct (get_demo_overview_patterns
              (numpy := counting_numpy) (python := counting_python)
              (pydantic := comparing_pydantic)
              (RiskEngine_init None) initial_world mock_models_answer)
    as (overview & w' & E & M & _).
  exists overview, w'. split; [exact E|].
  apply (f_equal (map (fun q => fst (fst (fst q))))) in M.
  rewrite map_map in M. exact M.
Defined.
